(** * DRMDisplay: the KMS/GBM display backend of [src/common/drm_display.cpp]

    A shallow embedding of the display backend: topology resolution
    ([Initialize] with [find_crtc_for_encoder] and [find_crtc_for_connector]),
    the framebuffer cache ([LockFrontBuffer], [ReleaseBuffer]), presentation
    ([PresentSurface]) and teardown (the destructor).

    Calls into the kernel (libdrm), the allocator (libgbm), the C library and
    the logger are recorded, in program order, as a trace of [Event]s; what
    those calls answer is an explicit argument of each operation. *)

From stdpp Require Import base option list gmap strings.
From Stdlib Require Import ZArith Lia.

Local Open Scope Z_scope.

(** ** Machine integers *)

(** Conversion to [uint32_t]. *)
Definition u32 (z : Z) : Z := z mod 2 ^ 32.

(** The value of an [int] expression, two's complement on 32 bits. *)
Definition int32 (z : Z) : Z := (z + 2 ^ 31) mod 2 ^ 32 - 2 ^ 31.

(** [return -1] from a function returning [uint32_t]. *)
Definition NO_MATCH : Z := u32 (-1).

(** [NULL]; pointers to allocator objects are addresses. *)
Definition NULL : Z := 0.

(** ** libdrm and libgbm objects, as far as the code reads them *)

Inductive drmModeConnection :=
| DRM_MODE_CONNECTED
| DRM_MODE_DISCONNECTED
| DRM_MODE_UNKNOWNCONNECTION.

#[global] Instance drmModeConnection_eq_dec : EqDecision drmModeConnection.
Proof. solve_decision. Defined.

(** [DRM_MODE_TYPE_PREFERRED] is [1 << 3] in the kernel's mode header. *)
Definition DRM_MODE_TYPE_PREFERRED : Z := 8.

(** [drmModeModeInfo]: [hdisplay] and [vdisplay] are [uint16_t], [type] is
    [uint32_t] (field [mode_type] here, [type] being reserved). *)
Record drmModeModeInfo := {
  hdisplay : Z;
  vdisplay : Z;
  mode_type : Z
}.

(** [drmModeConnector]; [conn_encoder_id] is the field [encoder_id] of the
    connector, [modes] and [encoders] are the arrays with their counts. *)
Record drmModeConnector := {
  connector_id : Z;
  conn_encoder_id : Z;
  connection : drmModeConnection;
  modes : list drmModeModeInfo;
  encoders : list Z
}.

Record drmModeEncoder := {
  encoder_id : Z;
  crtc_id : Z;
  possible_crtcs : Z
}.

(** [drmModeRes]: the three id arrays, each with its count. *)
Record drmModeRes := {
  connectors : list Z;
  res_encoders : list Z;
  crtcs : list Z
}.

(** A buffer object as [gbm_surface_lock_front_buffer] hands it out: its
    address and what the [gbm_bo_get_*] accessors answer for it. *)
Record gbm_bo := {
  bo_ptr : Z;
  gbm_bo_get_width : Z;
  gbm_bo_get_height : Z;
  gbm_bo_get_stride : Z;
  gbm_bo_get_format : Z;
  gbm_bo_get_handle : Z
}.

(** ** The display instance *)

(** [DRMDisplay::Buffer]. *)
Record Buffer := {
  bo : Z;
  width : Z;
  height : Z;
  stride : Z;
  format : Z;
  fb_id : Z
}.

(** The members of [DRMDisplay]. [m_mode] points into [m_connector->modes]
    and is kept as the index it points at; a [Buffer*] handed to the caller
    points into [m_buffers] and is an index too. *)
Record DRMDisplay := {
  m_card_id : Z;
  m_card_fd : Z;
  m_connector : option drmModeConnector;
  m_mode : option nat;
  m_crtc_id : Z;
  m_gbm_device : option Z;
  m_fb_surface : option Z;
  m_buffers : list Buffer;
  m_num_buffers : nat
}.

Definition set_card_fd (fd : Z) (d : DRMDisplay) : DRMDisplay :=
  {| m_card_id := m_card_id d; m_card_fd := fd; m_connector := m_connector d;
     m_mode := m_mode d; m_crtc_id := m_crtc_id d; m_gbm_device := m_gbm_device d;
     m_fb_surface := m_fb_surface d; m_buffers := m_buffers d;
     m_num_buffers := m_num_buffers d |}.

Definition set_connector (c : option drmModeConnector) (d : DRMDisplay) : DRMDisplay :=
  {| m_card_id := m_card_id d; m_card_fd := m_card_fd d; m_connector := c;
     m_mode := m_mode d; m_crtc_id := m_crtc_id d; m_gbm_device := m_gbm_device d;
     m_fb_surface := m_fb_surface d; m_buffers := m_buffers d;
     m_num_buffers := m_num_buffers d |}.

Definition set_mode (m : option nat) (d : DRMDisplay) : DRMDisplay :=
  {| m_card_id := m_card_id d; m_card_fd := m_card_fd d; m_connector := m_connector d;
     m_mode := m; m_crtc_id := m_crtc_id d; m_gbm_device := m_gbm_device d;
     m_fb_surface := m_fb_surface d; m_buffers := m_buffers d;
     m_num_buffers := m_num_buffers d |}.

Definition set_crtc_id (c : Z) (d : DRMDisplay) : DRMDisplay :=
  {| m_card_id := m_card_id d; m_card_fd := m_card_fd d; m_connector := m_connector d;
     m_mode := m_mode d; m_crtc_id := c; m_gbm_device := m_gbm_device d;
     m_fb_surface := m_fb_surface d; m_buffers := m_buffers d;
     m_num_buffers := m_num_buffers d |}.

Definition set_gbm_device (g : option Z) (d : DRMDisplay) : DRMDisplay :=
  {| m_card_id := m_card_id d; m_card_fd := m_card_fd d; m_connector := m_connector d;
     m_mode := m_mode d; m_crtc_id := m_crtc_id d; m_gbm_device := g;
     m_fb_surface := m_fb_surface d; m_buffers := m_buffers d;
     m_num_buffers := m_num_buffers d |}.

Definition set_fb_surface (s : option Z) (d : DRMDisplay) : DRMDisplay :=
  {| m_card_id := m_card_id d; m_card_fd := m_card_fd d; m_connector := m_connector d;
     m_mode := m_mode d; m_crtc_id := m_crtc_id d; m_gbm_device := m_gbm_device d;
     m_fb_surface := s; m_buffers := m_buffers d;
     m_num_buffers := m_num_buffers d |}.

Definition set_buffers (bs : list Buffer) (d : DRMDisplay) : DRMDisplay :=
  {| m_card_id := m_card_id d; m_card_fd := m_card_fd d; m_connector := m_connector d;
     m_mode := m_mode d; m_crtc_id := m_crtc_id d; m_gbm_device := m_gbm_device d;
     m_fb_surface := m_fb_surface d; m_buffers := bs;
     m_num_buffers := m_num_buffers d |}.

Definition set_num_buffers (n : nat) (d : DRMDisplay) : DRMDisplay :=
  {| m_card_id := m_card_id d; m_card_fd := m_card_fd d; m_connector := m_connector d;
     m_mode := m_mode d; m_crtc_id := m_crtc_id d; m_gbm_device := m_gbm_device d;
     m_fb_surface := m_fb_surface d; m_buffers := m_buffers d;
     m_num_buffers := n |}.

(** ** External calls and the trace *)

(** One constructor per external function, with the arguments the properties
    look at. [drmModeFreeConnector] and [drmModeFreeEncoder] carry the object
    freed, [gbm_surface_lock_front_buffer] the address of the buffer object
    it hands out; [sys_open], [sys_close] and [sys_select] are [open],
    [close] and [select]. *)
Inductive Event :=
| sys_open (card : Z)
| sys_close (fd : Z)
| sys_select (fd : Z)
| drmModeGetResources (fd : Z)
| drmModeFreeResources
| drmModeGetConnector (fd id : Z)
| drmModeFreeConnector (c : drmModeConnector)
| drmModeGetEncoder (fd id : Z)
| drmModeFreeEncoder (e : drmModeEncoder)
| drmModeAddFB2 (fd w h fmt handle pitch : Z)
| drmModeRmFB (fd fb : Z)
| drmModeSetCrtc (fd crtc fb conn : Z) (mode : option drmModeModeInfo)
| drmModePageFlip (fd crtc fb : Z)
| drmHandleEvent (fd : Z)
| gbm_create_device (fd : Z)
| gbm_device_destroy (dev : Z)
| gbm_surface_create (dev : option Z) (w h fourcc flags : Z)
| gbm_surface_destroy (surface : Z)
| gbm_surface_lock_front_buffer (surface : option Z) (locked : Z)
| gbm_surface_release_buffer (surface : option Z) (b : Z)
| Log_ErrorPrintf (fmt : string) (args : list Z).

(** How a call can end without returning to its caller. *)
Inductive fault :=
| AssertFailed      (* [Assert] aborts the process *)
| InvalidPointer    (* a null or dangling pointer is dereferenced *)
| Blocked.          (* still inside [select], no answer yet *)

(** The outcome of a call: it returns [a], or ends by [f]; either way with
    the instance as the call left it and the trace of the call. *)
Inductive result (A : Type) :=
| Done (a : A) (d : DRMDisplay) (t : list Event)
| Abort (f : fault) (d : DRMDisplay) (t : list Event).
Arguments Done {A} a d t.
Arguments Abort {A} f d t.

Definition state_of {A} (r : result A) : DRMDisplay :=
  match r with Done _ d _ => d | Abort _ d _ => d end.

Definition trace_of {A} (r : result A) : list Event :=
  match r with Done _ _ t => t | Abort _ _ t => t end.

Definition value_of {A} (r : result A) : option A :=
  match r with Done a _ _ => Some a | Abort _ _ _ => None end.

(** [r], with the events [t] in front of its trace. *)
Definition after {A} (t : list Event) (r : result A) : result A :=
  match r with
  | Done a d t' => Done a d (t ++ t')
  | Abort f d t' => Abort f d (t ++ t')
  end.

(** A member function: it reads and writes the instance and leaves a trace. *)
Definition M (A : Type) : Type := DRMDisplay -> result A.

#[global] Instance M_ret : MRet M := fun A a d => Done a d [].

#[global] Instance M_bind : MBind M := fun A B f m d =>
  match m d with
  | Done a d' t => after t (f a d')
  | Abort e d' t => Abort e d' t
  end.

Definition get : M DRMDisplay := fun d => Done d d [].
Definition modify (f : DRMDisplay -> DRMDisplay) : M unit := fun d => Done tt (f d) [].
Definition emit (e : Event) : M unit := fun d => Done tt d [e].
Definition abort {A} (f : fault) : M A := fun d => Abort f d [].

(** Modelled from the spec: [Assert] is a macro of [common/assert.h], which is
    not among the sources; a violated assertion is "fatal to the caller, not
    a recoverable error", so the call ends there. *)
Definition Assert (cond : bool) : M unit :=
  if cond then mret tt else abort AssertFailed.

(** Dereference of a pointer that may be null. *)
Definition deref {A} (p : option A) : M A :=
  match p with
  | Some a => mret a
  | None => abort InvalidPointer
  end.

(** ** Topology resolution *)

(** What the kernel and the allocator answer during [Initialize]:
    [k_open] is the descriptor [open] returns (negative on failure),
    [k_resources] what [drmModeGetResources] returns (null on failure),
    [k_connector] and [k_encoder] what [drmModeGetConnector] and
    [drmModeGetEncoder] return for an id (null where the map has no entry),
    [k_gbm_device] what [gbm_create_device] returns. *)
Record Kernel := {
  k_open : Z;
  k_resources : option drmModeRes;
  k_connector : gmap Z drmModeConnector;
  k_encoder : gmap Z drmModeEncoder;
  k_gbm_device : option Z
}.

(** [encoder->possible_crtcs & crtc_mask] as a condition, with [crtc_mask]
    being [1 << i] converted to [uint32_t]: [possible_crtcs] is a bitmask over
    the position in the resource list. The mask has 32 bits; from position 32
    on, where C++ leaves the shift undefined, the converted mask is 0. *)
Definition crtc_bit (encoder : drmModeEncoder) (i : Z) : bool :=
  let crtc_mask := u32 (Z.shiftl 1 i) in
  negb (Z.land (possible_crtcs encoder) crtc_mask =? 0).

(** The loop of [find_crtc_for_encoder], entered at index [i] with the
    controllers from [i] on. *)
Fixpoint find_crtc_for_encoder_from (i : Z) (rest : list Z) (encoder : drmModeEncoder) : Z :=
  match rest with
  | [] => NO_MATCH
  | crtc_id :: rest' =>
      if crtc_bit encoder i
      then crtc_id
      else find_crtc_for_encoder_from (i + 1) rest' encoder
  end.

Definition find_crtc_for_encoder (resources : drmModeRes) (encoder : drmModeEncoder) : Z :=
  find_crtc_for_encoder_from 0 (crtcs resources) encoder.

(** The loop of [find_crtc_for_connector] over [connector->encoders]. *)
Fixpoint find_crtc_for_connector_from (k : Kernel) (card_fd : Z) (resources : drmModeRes)
    (rest : list Z) : M Z :=
  match rest with
  | [] => mret NO_MATCH
  | id :: rest' =>
      emit (drmModeGetEncoder card_fd id);;
      match k_encoder k !! id with
      | Some encoder =>
          let crtc_id := find_crtc_for_encoder resources encoder in
          emit (drmModeFreeEncoder encoder);;
          if negb (crtc_id =? 0)
          then mret crtc_id
          else find_crtc_for_connector_from k card_fd resources rest'
      | None => find_crtc_for_connector_from k card_fd resources rest'
      end
  end.

Definition find_crtc_for_connector (k : Kernel) (card_fd : Z) (resources : drmModeRes)
    (connector : drmModeConnector) : M Z :=
  find_crtc_for_connector_from k card_fd resources (encoders connector).

(** First loop of [Initialize]: the connectors of the resource list, in order.
    [next_connector->connection] is read without a null check. *)
Fixpoint Initialize_connectors (k : Kernel) (rest : list Z) : M unit :=
  match rest with
  | [] => mret tt
  | id :: rest' =>
      d ← get;
      emit (drmModeGetConnector (m_card_fd d) id);;
      next_connector ← deref (k_connector k !! id);
      if decide (connection next_connector = DRM_MODE_CONNECTED)
      then modify (set_connector (Some next_connector))
      else emit (drmModeFreeConnector next_connector);; Initialize_connectors k rest'
  end.

(** [hdisplay * vdisplay]: both operands are [uint16_t] and are promoted to
    [int]. The product fits an [int] up to 2^31 - 1; beyond that C++ leaves
    the signed overflow undefined, and the two's complement value that the
    usual targets compute stands for it here. *)
Definition mode_area (m : drmModeModeInfo) : Z := int32 (hdisplay m * vdisplay m).

Definition mode_preferred (m : drmModeModeInfo) : bool :=
  negb (Z.land (mode_type m) DRM_MODE_TYPE_PREFERRED =? 0).

(** Second loop of [Initialize]: the modes of the chosen connector, entered
    at index [i] with the modes from [i] on. *)
Fixpoint Initialize_modes (connector : drmModeConnector) (i : nat)
    (rest : list drmModeModeInfo) : M unit :=
  match rest with
  | [] => mret tt
  | next_mode :: rest' =>
      if mode_preferred next_mode
      then modify (set_mode (Some i))
      else
        d ← get;
        match m_mode d with
        | None => modify (set_mode (Some i))
        | Some j =>
            cur ← deref (modes connector !! j);
            if mode_area next_mode >? mode_area cur
            then modify (set_mode (Some i))
            else mret tt
        end;;
        Initialize_modes connector (S i) rest'
  end.

(** Third loop of [Initialize]: the encoders of the resource list.
    [next_encoder->encoder_id] is read without a null check. The result is
    the local [encoder]. *)
Fixpoint Initialize_encoders (k : Kernel) (connector : drmModeConnector)
    (rest : list Z) : M (option drmModeEncoder) :=
  match rest with
  | [] => mret None
  | id :: rest' =>
      d ← get;
      emit (drmModeGetEncoder (m_card_fd d) id);;
      next_encoder ← deref (k_encoder k !! id);
      if encoder_id next_encoder =? conn_encoder_id connector
      then modify (set_crtc_id (crtc_id next_encoder));; mret (Some next_encoder)
      else emit (drmModeFreeEncoder next_encoder);; Initialize_encoders k connector rest'
  end.

Definition is_null {A} (p : option A) : bool :=
  match p with Some _ => false | None => true end.

(** The tail of [Initialize], from the last [drmModeFreeResources] on. *)
Definition Initialize_gbm (k : Kernel) : M bool :=
  emit drmModeFreeResources;;
  d ← get;
  emit (gbm_create_device (m_card_fd d));;
  modify (set_gbm_device (k_gbm_device k));;
  if is_null (k_gbm_device k)
  then emit (Log_ErrorPrintf "gbm_create_device() failed: %d" []);; mret false
  else mret true.

(** [Initialize], from the controller resolution on. *)
Definition Initialize_crtc (k : Kernel) (resources : drmModeRes)
    (connector : drmModeConnector) : M bool :=
  encoder ← Initialize_encoders k connector (res_encoders resources);
  match encoder with
  | Some e => emit (drmModeFreeEncoder e);; Initialize_gbm k
  | None =>
      d ← get;
      c ← find_crtc_for_connector k (m_card_fd d) resources connector;
      modify (set_crtc_id c);;
      if c =? 0
      then emit (Log_ErrorPrintf "No CRTC found" []);;
           emit drmModeFreeResources;; mret false
      else Initialize_gbm k
  end.

(** [Initialize], from the mode selection on. *)
Definition Initialize_mode (k : Kernel) (resources : drmModeRes)
    (connector : drmModeConnector) : M bool :=
  Initialize_modes connector 0 (modes connector);;
  d ← get;
  if is_null (m_mode d)
  then emit (Log_ErrorPrintf "No mode found" []);;
       emit drmModeFreeResources;; mret false
  else Initialize_crtc k resources connector.

(** [DRMDisplay::Initialize]. The [errno] arguments of the log lines are not
    part of the model. *)
Definition Initialize (k : Kernel) : M bool :=
  d ← get;
  emit (sys_open (m_card_id d));;
  modify (set_card_fd (k_open k));;
  if k_open k <? 0
  then emit (Log_ErrorPrintf "open(/dev/dri/card%d) failed: %d (%s)" [m_card_id d]);;
       mret false
  else
    emit (drmModeGetResources (k_open k));;
    match k_resources k with
    | None =>
        emit (Log_ErrorPrintf "drmModeGetResources() failed: %d (%s)" []);;
        mret false
    | Some resources =>
        d ← get;
        Assert (is_null (m_connector d));;
        Initialize_connectors k (connectors resources);;
        d ← get;
        match m_connector d with
        | None =>
            emit (Log_ErrorPrintf "No connector found" []);;
            emit drmModeFreeResources;; mret false
        | Some connector => Initialize_mode k resources connector
        end
    end.

(** ** Surface, framebuffer cache, presentation, teardown *)

(** [GBM_BO_USE_SCANOUT] is [1 << 0] in the allocator's header. *)
Definition GBM_BO_USE_SCANOUT : Z := 1.

(** Modelled from the spec: [GetWidth] and [GetHeight] are inline members of
    [drm_display.h], which is not among the sources; the surface is "sized
    exactly to Mode's resolution", so they read [m_mode->hdisplay] and
    [m_mode->vdisplay]. *)
Definition GetMode : M drmModeModeInfo :=
  d ← get;
  connector ← deref (m_connector d);
  j ← deref (m_mode d);
  deref (modes connector !! j).

Definition GetWidth : M Z := m ← GetMode; mret (hdisplay m).
Definition GetHeight : M Z := m ← GetMode; mret (vdisplay m).

(** [DRMDisplay::CreateFramebufferSurface]; [created] is what
    [gbm_surface_create] returns. *)
Definition CreateFramebufferSurface (fourcc flags : Z) (created : option Z) : M (option Z) :=
  d ← get;
  Assert (is_null (m_fb_surface d));;
  w ← GetWidth;
  h ← GetHeight;
  emit (gbm_surface_create (m_gbm_device d) w h fourcc (Z.lor flags GBM_BO_USE_SCANOUT));;
  modify (set_fb_surface created);;
  if is_null created
  then emit (Log_ErrorPrintf "gbm_surface_create() failed: %d" []);; mret None
  else mret created.

(** The search loop of [LockFrontBuffer], entered at index [i] with
    [remaining] tracked entries still to visit. *)
Fixpoint LockFrontBuffer_find (b : Z) (i remaining : nat) : M (option nat) :=
  match remaining with
  | O => mret None
  | S remaining' =>
      d ← get;
      entry ← deref (m_buffers d !! i);
      if bo entry =? b
      then mret (Some i)
      else LockFrontBuffer_find b (S i) remaining'
  end.

Section Capacity.

(** [MAX_BUFFERS] is declared in [drm_display.h], which is not among the
    sources; the code is read for any capacity. *)
Variable MAX_BUFFERS : nat.

(** Modelled from the spec: the default member initialisers are part of
    [drm_display.h], which is not among the sources. The instance starts with
    no descriptor, no connector, no mode, no allocator objects and an empty
    set of tracked buffers in an array of [MAX_BUFFERS] slots. *)
Definition DRMDisplay_new (card : Z) : DRMDisplay :=
  {| m_card_id := card; m_card_fd := -1; m_connector := None; m_mode := None;
     m_crtc_id := 0; m_gbm_device := None; m_fb_surface := None;
     m_buffers := replicate MAX_BUFFERS
       {| bo := NULL; width := 0; height := 0; stride := 0; format := 0; fb_id := 0 |};
     m_num_buffers := 0 |}.

(** [DRMDisplay::LockFrontBuffer]. [locked] is the buffer object the surface
    hands out ([bo_ptr locked = NULL] when it hands out none); [addfb] is what
    [drmModeAddFB2] answers when it is called: its return value and the
    framebuffer id it stores on success. The returned [Buffer*] is the index
    of the entry, [None] for [nullptr]. *)
Definition LockFrontBuffer (locked : gbm_bo) (addfb : Z * Z) : M (option nat) :=
  d ← get;
  emit (gbm_surface_lock_front_buffer (m_fb_surface d) (bo_ptr locked));;
  buffer ← LockFrontBuffer_find (bo_ptr locked) 0 (m_num_buffers d);
  match buffer with
  | Some i => mret (Some i)
  | None =>
      (* haven't tracked this buffer yet *)
      Assert (bool_decide (m_num_buffers d < MAX_BUFFERS)%nat);;
      let i := m_num_buffers d in
      slot ← deref (m_buffers d !! i);
      (if bo_ptr locked =? NULL then abort InvalidPointer else mret tt);;
      let entry :=
        {| bo := bo_ptr locked;
           width := gbm_bo_get_width locked;
           height := gbm_bo_get_height locked;
           stride := gbm_bo_get_stride locked;
           format := gbm_bo_get_format locked;
           fb_id := fb_id slot |} in
      modify (set_buffers (<[i := entry]> (m_buffers d)));;
      emit (drmModeAddFB2 (m_card_fd d) (width entry) (height entry) (format entry)
              (gbm_bo_get_handle locked) (stride entry));;
      let res := addfb.1 in
      if negb (res =? 0)
      then emit (Log_ErrorPrintf "drmModeAddFB2() failed: %d" [res]);; mret None
      else
        modify (set_buffers (<[i :=
          {| bo := bo entry; width := width entry; height := height entry;
             stride := stride entry; format := format entry; fb_id := addfb.2 |}]>
          (m_buffers d)));;
        modify (set_num_buffers (S (m_num_buffers d)));;
        mret (Some i)
  end.

End Capacity.

(** A [Buffer*] argument: null, or the address of an entry of [m_buffers]. *)
Definition deref_buffer (buffer : option nat) : M Buffer :=
  i ← deref buffer;
  d ← get;
  deref (m_buffers d !! i).

(** [DRMDisplay::ReleaseBuffer]. *)
Definition ReleaseBuffer (buffer : option nat) : M unit :=
  d ← get;
  b ← deref_buffer buffer;
  emit (gbm_surface_release_buffer (m_fb_surface d) (bo b)).

(** What the kernel answers during one [PresentSurface]: the return values of
    [drmModeSetCrtc] and [drmModePageFlip], and for each wake-up of [select]
    its return value and whether [drmHandleEvent] then delivers the page-flip
    event to the handler. *)
Record PresentAnswers := {
  a_setcrtc : Z;
  a_pageflip : Z;
  a_wakeups : list (Z * bool)
}.

(** The wait loop of [PresentSurface]; it is entered with
    [waiting_for_flip = true]. *)
Fixpoint PresentSurface_wait (fd : Z) (wakeups : list (Z * bool)) : M unit :=
  match wakeups with
  | [] => abort Blocked
  | (res, flipped) :: rest =>
      emit (sys_select fd);;
      if res <? 0
      then emit (Log_ErrorPrintf "select() failed: %d" [])
      else if res =? 0
      then PresentSurface_wait fd rest
      else
        emit (drmHandleEvent fd);;
        if flipped then mret tt else PresentSurface_wait fd rest
  end.

(** [DRMDisplay::PresentSurface]; its return type is [void]. *)
Definition PresentSurface (buffer : option nat) (wait_for_vsync : bool)
    (a : PresentAnswers) : M unit :=
  d ← get;
  if negb wait_for_vsync
  then
    connector ← deref (m_connector d);
    b ← deref_buffer buffer;
    emit (drmModeSetCrtc (m_card_fd d) (m_crtc_id d) (fb_id b) (connector_id connector)
            (j ← m_mode d; modes connector !! j));;
    let res := a_setcrtc a in
    if negb (res =? 0)
    then emit (Log_ErrorPrintf "drmModeSetCrtc() failed: %d" [res])
    else mret tt
  else
    b ← deref_buffer buffer;
    emit (drmModePageFlip (m_card_fd d) (m_crtc_id d) (fb_id b));;
    let res := a_pageflip a in
    if negb (res =? 0)
    then emit (Log_ErrorPrintf "drmModePageFlip() failed: %d" [res])
    else PresentSurface_wait (m_card_fd d) (a_wakeups a).

(** The first loop of the destructor, with [n] the value of [m_num_buffers]
    on entry. *)
Fixpoint destructor_buffers (n : nat) : M unit :=
  match n with
  | O => mret tt
  | S n' =>
      modify (set_num_buffers n');;
      d ← get;
      buffer ← deref (m_buffers d !! n');
      emit (drmModeRmFB (m_card_fd d) (fb_id buffer));;
      destructor_buffers n'
  end.

(** [DRMDisplay::~DRMDisplay]. *)
Definition destructor : M unit :=
  d ← get;
  destructor_buffers (m_num_buffers d);;
  match m_fb_surface d with
  | Some s => emit (gbm_surface_destroy s)
  | None => mret tt
  end;;
  match m_gbm_device d with
  | Some g => emit (gbm_device_destroy g)
  | None => mret tt
  end;;
  match m_connector d with
  | Some c => emit (drmModeFreeConnector c)
  | None => mret tt
  end;;
  if 0 <=? m_card_fd d then emit (sys_close (m_card_fd d)) else mret tt.

(** ** Notions the properties are stated with *)

(** The tracked set: the first [m_num_buffers] entries of [m_buffers]. *)
Definition tracked (d : DRMDisplay) : list Buffer :=
  take (m_num_buffers d) (m_buffers d).

(** The invariant of the framebuffer cache for a capacity [MAX_BUFFERS]. *)
Definition buffers_inv (MAX_BUFFERS : nat) (d : DRMDisplay) : Prop :=
  length (m_buffers d) = MAX_BUFFERS ∧
  (m_num_buffers d ≤ MAX_BUFFERS)%nat ∧
  NoDup (bo <$> tracked d).

(** The kernel answers [cs] for the connector ids [ids], one by one. *)
Definition answers_connectors (k : Kernel) (ids : list Z) (cs : list drmModeConnector) : Prop :=
  Forall2 (λ id c, k_connector k !! id = Some c) ids cs.

Definition connected (c : drmModeConnector) : Prop :=
  connection c = DRM_MODE_CONNECTED.

#[global] Instance connected_dec c : Decision (connected c).
Proof. unfold connected. apply _. Defined.

(** Connectors obtained and given back at once. *)
Definition connectors_trace (fd : Z) (ids : list Z) (cs : list drmModeConnector) : list Event :=
  mjoin (zip_with (λ id c, [drmModeGetConnector fd id; drmModeFreeConnector c]) ids cs).

(** [Initialize] is entered on an instance without connector, the device
    opens, its resources are [res], the kernel answers [cs] for the listed
    connectors, and [conn], at position [n], is the first of them that is
    connected. *)
Record selects_connector (k : Kernel) (d0 : DRMDisplay) (res : drmModeRes)
    (cs : list drmModeConnector) (n : nat) (conn : drmModeConnector) : Prop := {
  sc_fresh_connector : m_connector d0 = None;
  sc_open : 0 <= k_open k;
  sc_resources : k_resources k = Some res;
  sc_answers : answers_connectors k (connectors res) cs;
  sc_first : list_find connected cs = Some (n, conn)
}.

(** What [Initialize] leaves in the trace up to and including the call that
    obtains the connector it keeps. *)
Definition selection_trace (k : Kernel) (d0 : DRMDisplay) (res : drmModeRes)
    (cs : list drmModeConnector) (n : nat) : list Event :=
  [sys_open (m_card_id d0); drmModeGetResources (k_open k)] ++
  connectors_trace (k_open k) (take n (connectors res)) (take n cs) ++
  (drmModeGetConnector (k_open k) <$> take 1 (drop n (connectors res))).

(** [sel] is the index of the mode to select in [ms] when areas are measured
    by [area]: the first mode flagged preferred, or without such a mode the
    first one of largest area. *)
Definition selected_by (area : drmModeModeInfo -> Z) (ms : list drmModeModeInfo)
    (sel : nat) : Prop :=
  ∃ m, ms !! sel = Some m ∧
    ((mode_preferred m = true ∧
      ∀ j m', (j < sel)%nat → ms !! j = Some m' → mode_preferred m' = false)
     ∨
     ((∀ j m', ms !! j = Some m' → mode_preferred m' = false) ∧
      (∀ j m', ms !! j = Some m' → area m' <= area m) ∧
      (∀ j m', (j < sel)%nat → ms !! j = Some m' → area m' < area m))).

(** The selection with the area as the code computes it. *)
Definition selected_mode (ms : list drmModeModeInfo) (sel : nat) : Prop :=
  selected_by mode_area ms sel.

(** The area in pixels. *)
Definition pixel_area (m : drmModeModeInfo) : Z := hdisplay m * vdisplay m.

Definition is_connector_event (e : Event) : Prop :=
  match e with
  | drmModeGetConnector _ _ | drmModeFreeConnector _ => True
  | _ => False
  end.

(** The kernel answers [es] for the encoder ids [ids], one by one. *)
Definition answers_encoders (k : Kernel) (ids : list Z) (es : list drmModeEncoder) : Prop :=
  Forall2 (λ id e, k_encoder k !! id = Some e) ids es.

Definition matches (connector : drmModeConnector) (e : drmModeEncoder) : Prop :=
  encoder_id e = conn_encoder_id connector.

#[global] Instance matches_dec connector e : Decision (matches connector e).
Proof. unfold matches. apply _. Defined.

(** Encoders obtained and given back at once. *)
Definition encoders_trace (fd : Z) (ids : list Z) (es : list drmModeEncoder) : list Event :=
  mjoin (zip_with (λ id e, [drmModeGetEncoder fd id; drmModeFreeEncoder e]) ids es).

(** No bit of [possible_crtcs] stands for a controller of the resource list. *)
Definition no_crtc_bit (resources : drmModeRes) (e : drmModeEncoder) : Prop :=
  ∀ j : nat, (j < length (crtcs resources))%nat → crtc_bit e (Z.of_nat j) = false.

(** Position [j] holds the first controller of the resource list whose bit is
    set in [possible_crtcs], and that controller is [c]. *)
Definition first_crtc_bit (resources : drmModeRes) (e : drmModeEncoder) (j : nat) (c : Z) : Prop :=
  crtcs resources !! j = Some c ∧
  crtc_bit e (Z.of_nat j) = true ∧
  ∀ j' : nat, (j' < j)%nat → crtc_bit e (Z.of_nat j') = false.

(** What the tail of [Initialize] leaves in the trace. *)
Definition gbm_trace (k : Kernel) : list Event :=
  [drmModeFreeResources; gbm_create_device (k_open k)] ++
  if is_null (k_gbm_device k)
  then [Log_ErrorPrintf "gbm_create_device() failed: %d" []] else [].

(** The controller the resolution is to give when it uses the direct binding
    only for a matching encoder that names a controller id, and the bitmask
    scan otherwise: the first listed controller whose bit is set in the mask
    of a reachable encoder. *)
Definition first_crtc_in_mask (resources : drmModeRes) (e : drmModeEncoder) : option Z :=
  (λ r : nat * (nat * Z), r.2.2) <$>
    list_find (λ ic : nat * Z, crtc_bit e (Z.of_nat ic.1) = true)
      (imap pair (crtcs resources)).

Definition bitmask_fallback (k : Kernel) (resources : drmModeRes)
    (connector : drmModeConnector) : option Z :=
  head (omap (first_crtc_in_mask resources)
          (omap (λ id, k_encoder k !! id) (encoders connector))).

Definition direct_or_fallback (k : Kernel) (resources : drmModeRes)
    (connector : drmModeConnector) : option Z :=
  match list_find (matches connector) (omap (λ id, k_encoder k !! id) (res_encoders resources)) with
  | Some (_, e) =>
      if crtc_id e =? 0 then bitmask_fallback k resources connector else Some (crtc_id e)
  | None => bitmask_fallback k resources connector
  end.

(** [m] leaves the member read by [f] as it found it. *)
Definition keeps {A B} (f : DRMDisplay -> B) (m : M A) : Prop :=
  ∀ d, f (state_of (m d)) = f d.

(** Every event [m] leaves in the trace satisfies [P]. *)
Definition emits {A} (P : Event -> Prop) (m : M A) : Prop :=
  ∀ d, Forall P (trace_of (m d)).

(** What the mode loop has in [m_mode] once it has gone through [seen]
    without meeting a preferred mode: the first mode of largest area. *)
Definition best_so_far (seen : list drmModeModeInfo) (cur : option nat) : Prop :=
  match cur with
  | None => seen = []
  | Some j =>
      ∃ m, seen !! j = Some m ∧
        (∀ j' m', seen !! j' = Some m' → mode_area m' <= mode_area m) ∧
        (∀ j' m', (j' < j)%nat → seen !! j' = Some m' → mode_area m' < mode_area m)
  end.

(** ** Devices and instances the properties are tried on *)

Definition mode_1080p (type : Z) : drmModeModeInfo :=
  {| hdisplay := 1920; vdisplay := 1080; mode_type := type |}.

Definition mode_2160p (type : Z) : drmModeModeInfo :=
  {| hdisplay := 3840; vdisplay := 2160; mode_type := type |}.

(** A disconnected connector, listed first. *)
Definition unplugged : drmModeConnector :=
  {| connector_id := 9; conn_encoder_id := 0; connection := DRM_MODE_DISCONNECTED;
     modes := []; encoders := [] |}.

(** A connected connector with the given modes, bound to encoder 20 and able
    to reach the encoders [encs]. *)
Definition plugged (ms : list drmModeModeInfo) (encs : list Z) : drmModeConnector :=
  {| connector_id := 10; conn_encoder_id := 20; connection := DRM_MODE_CONNECTED;
     modes := ms; encoders := encs |}.

(** A card with the connectors 9 and 10, the controllers 5 and 6, the listed
    encoders [listed] and the encoder objects [encs]. *)
Definition card (c9 c10 : drmModeConnector) (listed : list Z)
    (encs : list (Z * drmModeEncoder)) : Kernel :=
  {| k_open := 3;
     k_resources := Some {| connectors := [9; 10]; res_encoders := listed; crtcs := [5; 6] |};
     k_connector := {[ 9 := c9; 10 := c10 ]};
     k_encoder := list_to_map encs;
     k_gbm_device := Some 77 |}.

Definition card_resources (listed : list Z) : drmModeRes :=
  {| connectors := [9; 10]; res_encoders := listed; crtcs := [5; 6] |}.

Definition encoder (id crtc mask : Z) : Z * drmModeEncoder :=
  (id, {| encoder_id := id; crtc_id := crtc; possible_crtcs := mask |}).

Definition is_log (e : Event) : Prop :=
  match e with Log_ErrorPrintf _ _ => True | _ => False end.

(** A caller's use of the framebuffer cache, with what the surface and the
    kernel answer. *)
Inductive op :=
| Lock (locked : gbm_bo) (addfb : Z * Z)
| Release (buffer : option nat).

Definition run_op (MAX_BUFFERS : nat) (o : op) : M unit :=
  match o with
  | Lock locked addfb => LockFrontBuffer MAX_BUFFERS locked addfb;; mret tt
  | Release buffer => ReleaseBuffer buffer
  end.

Fixpoint run_ops (MAX_BUFFERS : nat) (os : list op) : M unit :=
  match os with
  | [] => mret tt
  | o :: os' => run_op MAX_BUFFERS o;; run_ops MAX_BUFFERS os'
  end.

Fixpoint remove_first (b : Z) (held : list Z) : list Z :=
  match held with
  | [] => []
  | b' :: held' => if decide (b' = b) then held' else b' :: remove_first b held'
  end.

(** The buffer objects a trace leaves locked: handed out by the surface and
    not given back to it, starting from [held]. *)
Fixpoint held_after (held : list Z) (t : list Event) : list Z :=
  match t with
  | [] => held
  | gbm_surface_lock_front_buffer _ b :: t' => held_after (held ++ [b]) t'
  | gbm_surface_release_buffer _ b :: t' => held_after (remove_first b held) t'
  | _ :: t' => held_after held t'
  end.

(** What the caller of a member function has in hand when it returns: the
    returned value and the instance. The log is not among it. *)
Definition caller_view {A} (r : result A) : option A * DRMDisplay :=
  (value_of r, state_of r).

(** The entry [LockFrontBuffer] writes into the free slot [slot] for the
    buffer object [locked] before it calls the kernel. *)
Definition pending_entry (locked : gbm_bo) (slot : Buffer) : Buffer :=
  {| bo := bo_ptr locked;
     width := gbm_bo_get_width locked;
     height := gbm_bo_get_height locked;
     stride := gbm_bo_get_stride locked;
     format := gbm_bo_get_format locked;
     fb_id := fb_id slot |}.

(** The entry once the kernel has registered it as framebuffer [fb]. *)
Definition registered_entry (locked : gbm_bo) (fb : Z) : Buffer :=
  {| bo := bo_ptr locked;
     width := gbm_bo_get_width locked;
     height := gbm_bo_get_height locked;
     stride := gbm_bo_get_stride locked;
     format := gbm_bo_get_format locked;
     fb_id := fb |}.

(** The call of [drmModeAddFB2] for [locked]: one plane, its handle and
    stride. *)
Definition AddFB2_call (d : DRMDisplay) (locked : gbm_bo) : Event :=
  drmModeAddFB2 (m_card_fd d) (gbm_bo_get_width locked) (gbm_bo_get_height locked)
    (gbm_bo_get_format locked) (gbm_bo_get_handle locked) (gbm_bo_get_stride locked).

(** A 1920x1080 buffer object with stride 7680 at address [ptr]. *)
Definition bo_1080p (ptr : Z) : gbm_bo :=
  {| bo_ptr := ptr; gbm_bo_get_width := 1920; gbm_bo_get_height := 1080;
     gbm_bo_get_stride := 7680; gbm_bo_get_format := 875713112;
     gbm_bo_get_handle := 1 |}.

(** An initialised instance with its surface. *)
Definition display : DRMDisplay :=
  state_of (CreateFramebufferSurface 875713112 0 (Some 88)
    (state_of (Initialize
      (card unplugged (plugged [mode_1080p 8] [20]) [20] [encoder 20 6 3])
      (DRMDisplay_new 4 0)))).

(** The same with one buffer object, at address 100, registered as
    framebuffer 42. *)
Definition display_with_buffer : DRMDisplay :=
  state_of (LockFrontBuffer 4 (bo_1080p 100) (0, 42) display).

(** The same with all four slots taken: the buffer objects at 100 to 103 are
    registered as the framebuffers 42 to 45. *)
Definition display_full : DRMDisplay :=
  state_of (LockFrontBuffer 4 (bo_1080p 103) (0, 45)
    (state_of (LockFrontBuffer 4 (bo_1080p 102) (0, 44)
      (state_of (LockFrontBuffer 4 (bo_1080p 101) (0, 43) display_with_buffer))))).

(** ** Notions for the properties of the remaining code *)

(** The calls one step of [find_crtc_for_connector] makes for the encoder id
    [id]: the encoder is obtained and, unless the kernel has none, freed. *)
Definition probe (k : Kernel) (fd : Z) (id : Z) : list Event :=
  drmModeGetEncoder fd id ::
  match k_encoder k !! id with
  | Some e => [drmModeFreeEncoder e]
  | None => []
  end.

(** How often an event of the kind [p] occurs in a trace. *)
Fixpoint count (p : Event -> bool) (t : list Event) : nat :=
  match t with
  | [] => 0
  | e :: t' => (if p e then 1 else 0) + count p t'
  end.

Definition is_get_connector (e : Event) : bool :=
  match e with drmModeGetConnector _ _ => true | _ => false end.

Definition is_free_connector (e : Event) : bool :=
  match e with drmModeFreeConnector _ => true | _ => false end.

Definition is_free_resources (e : Event) : bool :=
  match e with drmModeFreeResources => true | _ => false end.

Definition is_close (e : Event) : bool :=
  match e with sys_close _ => true | _ => false end.

Definition is_free_encoder (e : Event) : bool :=
  match e with drmModeFreeEncoder _ => true | _ => false end.

(** A call of [drmModeGetEncoder] that the kernel answers with an encoder. *)
Definition is_answered_get_encoder (k : Kernel) (e : Event) : bool :=
  match e with
  | drmModeGetEncoder _ id => negb (is_null (k_encoder k !! id))
  | _ => false
  end.

Definition is_encoder_event (e : Event) : Prop :=
  match e with
  | drmModeGetEncoder _ _ | drmModeFreeEncoder _ => True
  | _ => False
  end.

(** The instance as a successful [Initialize] leaves it: an open descriptor,
    a connected connector, a mode of that connector and an allocator
    device. *)
Definition initialised (d : DRMDisplay) : Prop :=
  0 <= m_card_fd d ∧
  is_Some (m_gbm_device d) ∧
  ∃ c j m, m_connector d = Some c ∧ connected c ∧
           m_mode d = Some j ∧ modes c !! j = Some m ∧ selected_mode (modes c) j.

(** A card whose connected connector has the one mode 1920x1080 and is bound
    to encoder 20, which drives controller 6. *)
Definition card_1080p : Kernel :=
  card unplugged (plugged [mode_1080p 8] [20]) [20] [encoder 20 6 3].

(** Events between the connector scan and the freeing of the resources. *)
Definition is_middle_event (e : Event) : Prop :=
  match e with
  | drmModeGetEncoder _ _ | drmModeFreeEncoder _ | Log_ErrorPrintf _ _ => True
  | _ => False
  end.

(** Events after the freeing of the resources. *)
Definition is_tail_event (e : Event) : Prop :=
  match e with
  | gbm_create_device _ | Log_ErrorPrintf _ _ => True
  | _ => False
  end.

(** What the destructor leaves in the trace after the framebuffers. *)
Definition release_trace (d : DRMDisplay) : list Event :=
  (gbm_surface_destroy <$> option_list (m_fb_surface d)) ++
  (gbm_device_destroy <$> option_list (m_gbm_device d)) ++
  (drmModeFreeConnector <$> option_list (m_connector d)) ++
  (if 0 <=? m_card_fd d then [sys_close (m_card_fd d)] else []).

(** A wake-up of [select] that does not end the wait of [PresentSurface]:
    [select] returns 0, or returns a positive number and [drmHandleEvent]
    does not deliver the page-flip event. *)
Definition spurious (w : Z * bool) : Prop :=
  w.1 = 0 ∨ (0 < w.1 ∧ w.2 = false).

(** A wake-up that ends the wait: [select] fails, or the page-flip event is
    delivered. *)
Definition ends_wait (w : Z * bool) : Prop :=
  w.1 < 0 ∨ (0 < w.1 ∧ w.2 = true).

(** The calls made for wake-ups that do not end the wait. *)
Definition wait_trace (fd : Z) (ws : list (Z * bool)) : list Event :=
  mjoin ((λ w : Z * bool, sys_select fd :: if 0 <? w.1 then [drmHandleEvent fd] else []) <$> ws).

Definition is_set_crtc (e : Event) : bool :=
  match e with drmModeSetCrtc _ _ _ _ _ => true | _ => false end.

Definition is_page_flip (e : Event) : bool :=
  match e with drmModePageFlip _ _ _ => true | _ => false end.

Definition is_wait_event (e : Event) : bool :=
  match e with sys_select _ | drmHandleEvent _ => true | _ => false end.

(** A card that lists the connectors 9 and 10 and has no object for 10. *)
Definition card_missing_connector : Kernel :=
  {| k_open := 3;
     k_resources := Some (card_resources [20]);
     k_connector := {[ 9 := unplugged ]};
     k_encoder := ∅;
     k_gbm_device := Some 77 |}.

Definition is_error_line (e : Event) : bool :=
  match e with Log_ErrorPrintf _ _ => true | _ => false end.

(** A card whose connected connector advertises no mode. *)
Definition card_missing_mode : Kernel :=
  card unplugged (plugged [] [20]) [20] [encoder 20 6 3].

Arguments selection_trace : simpl never.
Arguments connectors_trace : simpl never.
Arguments encoders_trace : simpl never.

(** * Properties *)

(** ** Running member functions *)

Lemma bind_run {A B} (m : M A) (f : A -> M B) (d : DRMDisplay) :
  (m ≫= f) d =
  match m d with
  | Done a d' t => after t (f a d')
  | Abort e d' t => Abort e d' t
  end.
Proof. reflexivity. Qed.

Lemma after_nil {A} (r : result A) : after [] r = r.
Proof. by destruct r. Qed.

Lemma after_after {A} (t1 t2 : list Event) (r : result A) :
  after t1 (after t2 r) = after (t1 ++ t2) r.
Proof. destruct r; simpl; by rewrite app_assoc. Qed.

Lemma state_of_after {A} t (r : result A) : state_of (after t r) = state_of r.
Proof. by destruct r. Qed.

Lemma trace_of_after {A} t (r : result A) : trace_of (after t r) = t ++ trace_of r.
Proof. by destruct r. Qed.

Lemma value_of_after {A} t (r : result A) : value_of (after t r) = value_of r.
Proof. by destruct r. Qed.

Ltac mrun :=
  repeat (progress (simpl; rewrite ?bind_run, ?after_nil, ?after_after)); simpl.

Section Frame.
Context {A B C : Type} (f : DRMDisplay -> C) (P : Event -> Prop).

Lemma keeps_bind (m : M A) (g : A -> M B) :
  keeps f m -> (∀ a, keeps f (g a)) -> keeps f (m ≫= g).
Proof.
  intros Hm Hg d. rewrite bind_run. specialize (Hm d).
  destruct (m d) as [a d' t|e d' t]; simpl in *; [|done].
  rewrite state_of_after, Hg. done.
Qed.

Lemma keeps_ret (a : A) : keeps f (mret a : M A).
Proof. by intros d. Qed.

Lemma keeps_get : keeps f get.
Proof. by intros d. Qed.

Lemma keeps_emit e : keeps f (emit e).
Proof. by intros d. Qed.

Lemma keeps_abort e : keeps f (abort e : M A).
Proof. by intros d. Qed.

Lemma keeps_deref (p : option A) : keeps f (deref p).
Proof. by destruct p. Qed.

Lemma keeps_Assert b : keeps f (Assert b).
Proof. by destruct b. Qed.

Lemma keeps_modify (u : DRMDisplay -> DRMDisplay) :
  (∀ d, f (u d) = f d) -> keeps f (modify u).
Proof. intros Hu d. apply Hu. Qed.

Lemma emits_bind (m : M A) (g : A -> M B) :
  emits P m -> (∀ a, emits P (g a)) -> emits P (m ≫= g).
Proof.
  intros Hm Hg d. rewrite bind_run. specialize (Hm d).
  destruct (m d) as [a d' t|e d' t]; simpl in *; [|done].
  rewrite trace_of_after. apply Forall_app; split; [done|apply Hg].
Qed.

Lemma emits_ret (a : A) : emits P (mret a : M A).
Proof. intros d. constructor. Qed.

Lemma emits_get : emits P get.
Proof. intros d. constructor. Qed.

Lemma emits_modify u : emits P (modify u).
Proof. intros d. constructor. Qed.

Lemma emits_emit e : P e -> emits P (emit e).
Proof. intros He d. by repeat constructor. Qed.

Lemma emits_abort e : emits P (abort e : M A).
Proof. intros d. constructor. Qed.

Lemma emits_deref (p : option A) : emits P (deref p).
Proof. destruct p; intros d; constructor. Qed.

Lemma emits_Assert b : emits P (Assert b).
Proof. destruct b; intros d; constructor. Qed.

End Frame.

Create HintDb frame.

#[local] Hint Resolve keeps_ret keeps_get keeps_emit keeps_abort keeps_deref
  keeps_Assert emits_ret emits_get emits_modify emits_abort emits_deref
  emits_Assert : frame.

Ltac frame :=
  repeat first
    [ apply keeps_bind; [|intros ?]
    | apply emits_bind; [|intros ?]
    | solve [eauto with frame]
    | apply keeps_modify; solve [intros []; reflexivity]
    | apply emits_emit; solve [simpl; auto; try discriminate]
    | match goal with
      | |- keeps _ (if ?b then _ else _) => destruct b
      | |- emits _ (if ?b then _ else _) => destruct b
      | |- keeps _ (match ?x with _ => _ end) => destruct x
      | |- emits _ (match ?x with _ => _ end) => destruct x
      end ].

(** ** Connector selection *)

Lemma Initialize_connectors_keeps {C} (f : DRMDisplay -> C) k ids :
  (∀ c d, f (set_connector c d) = f d) -> keeps f (Initialize_connectors k ids).
Proof.
  intros Hf. induction ids as [|id ids IH]; simpl; [frame|].
  apply keeps_bind; [frame|intros d0].
  apply keeps_bind; [frame|intros ?].
  apply keeps_bind; [frame|intros c].
  destruct (decide _); [by apply keeps_modify|].
  apply keeps_bind; [frame|done].
Qed.

(** The scan frees every connector up to the first connected one and keeps
    that one; connectors behind it are not obtained. *)
Lemma Initialize_connectors_selects k ids cs n conn d :
  answers_connectors k ids cs ->
  list_find connected cs = Some (n, conn) ->
  Initialize_connectors k ids d =
    Done tt (set_connector (Some conn) d)
      (connectors_trace (m_card_fd d) (take n ids) (take n cs) ++
       (drmModeGetConnector (m_card_fd d) <$> take 1 (drop n ids))).
Proof.
  intros Hans. revert n.
  induction Hans as [|id c ids cs Hid Hans IH]; intros n Hfind; [done|].
  simpl in Hfind. simpl Initialize_connectors. mrun. rewrite Hid. mrun.
  destruct (decide (connected c)) as [Hc|Hc].
  - simplify_eq. unfold connected in Hc.
    destruct (decide (connection conn = DRM_MODE_CONNECTED)); [|done].
    reflexivity.
  - destruct (list_find connected cs) as [[n' c']|] eqn:Hf; [|done].
    simpl in Hfind. simplify_eq. unfold connected in Hc.
    destruct (decide (connection c = DRM_MODE_CONNECTED)); [done|].
    mrun. rewrite (IH n' eq_refl). reflexivity.
Qed.

(** Without a connected connector the scan frees all it obtains. *)
Lemma Initialize_connectors_none k ids cs d :
  answers_connectors k ids cs ->
  list_find connected cs = None ->
  Initialize_connectors k ids d = Done tt d (connectors_trace (m_card_fd d) ids cs).
Proof.
  intros Hans.
  induction Hans as [|id c ids cs Hid Hans IH]; intros Hfind; [done|].
  simpl in Hfind. simpl Initialize_connectors. mrun. rewrite Hid. mrun.
  destruct (decide (connected c)) as [Hc|Hc]; [done|].
  destruct (list_find connected cs) as [[n' c']|] eqn:Hf; [done|].
  unfold connected in Hc.
  destruct (decide (connection c = DRM_MODE_CONNECTED)); [done|].
  mrun. rewrite (IH eq_refl). reflexivity.
Qed.

(** ** Mode selection *)

Lemma set_mode_same d : set_mode (m_mode d) d = d.
Proof. by destruct d. Qed.

Lemma best_so_far_snoc_new seen m :
  (∀ j' m', seen !! j' = Some m' → mode_area m' < mode_area m) ->
  best_so_far (seen ++ [m]) (Some (length seen)).
Proof.
  intros Hlt. exists m. split; [by rewrite list_lookup_middle|]. split.
  - intros j' m' Hj'. apply lookup_snoc_Some in Hj' as [[_ Hj']|[_ <-]]; [|lia].
    specialize (Hlt _ _ Hj'). lia.
  - intros j' m' Hlen Hj'. rewrite lookup_app_l in Hj' by done. eauto.
Qed.

Lemma best_so_far_snoc_keep seen j mj m :
  seen !! j = Some mj ->
  best_so_far seen (Some j) ->
  mode_area m <= mode_area mj ->
  best_so_far (seen ++ [m]) (Some j).
Proof.
  intros Hj (m0 & Hm0 & Hle & Hlt) Hm. simplify_eq. exists mj.
  split; [by apply lookup_app_l_Some|]. split.
  - intros j' m' Hj'. apply lookup_snoc_Some in Hj' as [[_ Hj']|[_ <-]]; eauto.
  - intros j' m' Hlen Hj'. apply lookup_lt_Some in Hj as Hjlen.
    rewrite lookup_app_l in Hj' by lia. eauto.
Qed.

Lemma Initialize_modes_loop connector rest :
  ∀ seen d,
  modes connector = seen ++ rest ->
  Forall (λ m, mode_preferred m = false) seen ->
  best_so_far seen (m_mode d) ->
  ∃ sel, Initialize_modes connector (length seen) rest d = Done tt (set_mode sel d) [] ∧
    match sel with
    | Some i => selected_mode (modes connector) i
    | None => modes connector = []
    end.
Proof.
  induction rest as [|m rest IH]; intros seen d Hms Hpref Hbest.
  - exists (m_mode d). simpl. rewrite set_mode_same. split; [done|].
    rewrite app_nil_r in Hms. rewrite Hms.
    destruct (m_mode d) as [j|]; simpl in Hbest; [|done].
    destruct Hbest as (mj & Hj & Hle & Hlt). exists mj. split; [done|]. right.
    split; [|done]. intros j' m' Hj'.
    eapply (proj1 (Forall_lookup _ _) Hpref); eauto.
  - simpl. destruct (mode_preferred m) eqn:Hm.
    + exists (Some (length seen)). split; [done|]. exists m.
      rewrite Hms. split; [by rewrite list_lookup_middle|]. left. split; [done|].
      intros j m' Hlen Hj. rewrite lookup_app_l in Hj by done.
      eapply (proj1 (Forall_lookup _ _) Hpref); eauto.
    + assert (Hpref' : Forall (λ m, mode_preferred m = false) (seen ++ [m])).
      { apply Forall_app. split; [done|]. by constructor. }
      assert (Hms' : modes connector = (seen ++ [m]) ++ rest).
      { by rewrite <- app_assoc. }
      assert (Hlen : length (seen ++ [m]) = S (length seen)).
      { rewrite length_app. simpl. lia. }
      mrun. destruct (m_mode d) as [j|] eqn:Hcur; simpl in Hbest.
      * destruct Hbest as (mj & Hj & Hle & Hlt).
        assert (modes connector !! j = Some mj) as Hj'.
        { rewrite Hms. by apply lookup_app_l_Some. }
        mrun. rewrite Hj'. mrun.
        destruct (mode_area m >? mode_area mj) eqn:Hcmp; mrun.
        -- apply Z.gtb_lt in Hcmp.
           destruct (IH (seen ++ [m]) (set_mode (Some (length seen)) d) Hms' Hpref')
             as (sel & Hrun & Hsel).
           { simpl. apply best_so_far_snoc_new. intros j' m' Hm'.
             specialize (Hle _ _ Hm'). lia. }
           rewrite Hlen in Hrun. rewrite Hrun. by exists sel.
        -- assert (mode_area m <= mode_area mj) as Hcmp'.
           { destruct (Z.gtb_spec (mode_area m) (mode_area mj)); [done|lia]. }
           destruct (IH (seen ++ [m]) d Hms' Hpref') as (sel & Hrun & Hsel).
           { rewrite Hcur. eapply best_so_far_snoc_keep; eauto.
             exists mj. eauto. }
           rewrite Hlen in Hrun. rewrite Hrun. by exists sel.
      * subst seen. mrun.
        destruct (IH [m] (set_mode (Some 0%nat) d) Hms' Hpref') as (sel & Hrun & Hsel).
        { simpl. apply (best_so_far_snoc_new [] m). intros j' m' Hm'. done. }
        simpl in Hrun. rewrite Hrun. by exists sel.
Qed.

(** Entered without a mode, the mode loop leaves in [m_mode] the index of the
    mode to select, and nothing when the connector has no mode. *)
Lemma Initialize_modes_selects connector d :
  m_mode d = None ->
  ∃ sel, Initialize_modes connector 0 (modes connector) d = Done tt (set_mode sel d) [] ∧
    match sel with
    | Some i => selected_mode (modes connector) i
    | None => modes connector = []
    end.
Proof.
  intros Hd. apply (Initialize_modes_loop connector (modes connector) [] d); [done|done|].
  by rewrite Hd.
Qed.

(** ** Controller resolution *)

Lemma find_crtc_for_encoder_from_no_bit (e : drmModeEncoder) (rest : list Z) :
  ∀ i : Z,
  (∀ j : nat, (j < length rest)%nat → crtc_bit e (i + Z.of_nat j) = false) ->
  find_crtc_for_encoder_from i rest e = NO_MATCH.
Proof.
  induction rest as [|c rest IH]; intros i Hbits; simpl; [done|].
  assert (crtc_bit e i = false) as ->.
  { specialize (Hbits 0%nat). simpl in Hbits. rewrite Z.add_0_r in Hbits.
    apply Hbits. lia. }
  apply IH. intros j Hj.
  replace (i + 1 + Z.of_nat j) with (i + Z.of_nat (S j)) by lia.
  apply Hbits. simpl. lia.
Qed.

Lemma find_crtc_for_encoder_no_bit resources e :
  no_crtc_bit resources e -> find_crtc_for_encoder resources e = NO_MATCH.
Proof.
  intros Hbits. apply find_crtc_for_encoder_from_no_bit. intros j Hj. by apply Hbits.
Qed.

Lemma find_crtc_for_encoder_from_first_bit (e : drmModeEncoder) (c : Z) (rest : list Z) :
  ∀ (i : Z) (j : nat),
  rest !! j = Some c ->
  crtc_bit e (i + Z.of_nat j) = true ->
  (∀ j' : nat, (j' < j)%nat → crtc_bit e (i + Z.of_nat j') = false) ->
  find_crtc_for_encoder_from i rest e = c.
Proof.
  induction rest as [|c0 rest IH]; intros i j Hj Hbit Hlow; [done|].
  simpl. destruct j as [|j].
  - simpl in *. rewrite Z.add_0_r in Hbit. rewrite Hbit. by simplify_eq.
  - assert (crtc_bit e i = false) as ->.
    { specialize (Hlow 0%nat). simpl in Hlow. rewrite Z.add_0_r in Hlow.
      apply Hlow. lia. }
    apply (IH (i + 1) j); [done| |].
    + by replace (i + 1 + Z.of_nat j) with (i + Z.of_nat (S j)) by lia.
    + intros j' Hj'. replace (i + 1 + Z.of_nat j') with (i + Z.of_nat (S j')) by lia.
      apply Hlow. lia.
Qed.

Lemma find_crtc_for_encoder_first_bit resources e j c :
  first_crtc_bit resources e j c -> find_crtc_for_encoder resources e = c.
Proof.
  intros (Hj & Hbit & Hlow).
  by apply (find_crtc_for_encoder_from_first_bit e c (crtcs resources) 0 j).
Qed.

(** [find_crtc_for_connector] always returns, leaves the instance alone and
    never returns 0: it hands on a non-zero result of [find_crtc_for_encoder]
    or its own [-1]. *)
Lemma find_crtc_for_connector_from_returns k fd resources ids d :
  ∃ c t, find_crtc_for_connector_from k fd resources ids d = Done c d t ∧ c ≠ 0 ∧
    Forall (λ e, ∃ id, e = drmModeGetEncoder fd id ∨
                       ∃ enc, k_encoder k !! id = Some enc ∧ e = drmModeFreeEncoder enc) t.
Proof.
  induction ids as [|id ids (c & t & IH & Hc & Ht)]; simpl.
  - exists NO_MATCH, []. by split.
  - mrun. destruct (k_encoder k !! id) as [enc|] eqn:Hid; mrun.
    + destruct (find_crtc_for_encoder resources enc =? 0) eqn:Hz; simpl.
      * rewrite IH. simpl. exists c, (drmModeGetEncoder fd id :: drmModeFreeEncoder enc :: t).
        split; [done|]. split; [done|].
        constructor; [exists id; by left|].
        constructor; [exists id; right; by exists enc|done].
      * apply Z.eqb_neq in Hz. eexists _, _. split; [done|]. split; [done|].
        constructor; [exists id; by left|].
        constructor; [exists id; right; by exists enc|constructor].
    + rewrite IH. simpl. exists c, (drmModeGetEncoder fd id :: t).
      split; [done|]. split; [done|]. constructor; [exists id; by left|done].
Qed.

(** Where no reachable encoder has a bit for a listed controller,
    [find_crtc_for_connector] returns its [-1], which is not 0. *)
Lemma find_crtc_for_connector_from_no_bit k fd resources ids d :
  (∀ id e, id ∈ ids → k_encoder k !! id = Some e → no_crtc_bit resources e) ->
  ∃ t, find_crtc_for_connector_from k fd resources ids d = Done NO_MATCH d t ∧
    Forall (λ e, ∃ id, e = drmModeGetEncoder fd id ∨
                       ∃ enc, k_encoder k !! id = Some enc ∧ e = drmModeFreeEncoder enc) t.
Proof.
  induction ids as [|id ids IH]; intros Hbits; simpl.
  - by exists [].
  - mrun. destruct (k_encoder k !! id) as [enc|] eqn:Hid; mrun.
    + rewrite (find_crtc_for_encoder_no_bit resources enc).
      2:{ apply (Hbits id); [left|done]. }
      simpl. eexists. split; [done|].
      constructor; [exists id; by left|].
      constructor; [exists id; right; by exists enc|constructor].
    + destruct IH as (t & -> & Ht).
      { intros id' e Hin. apply Hbits. by right. }
      simpl. eexists. split; [done|]. constructor; [exists id; by left|done].
Qed.

(** The fallback on the first reachable encoder: the first listed controller
    whose bit is set, when its id is not 0. *)
Lemma find_crtc_for_connector_from_first_bit k fd resources skipped id rest e j c d :
  Forall (λ i, k_encoder k !! i = None) skipped ->
  k_encoder k !! id = Some e ->
  first_crtc_bit resources e j c ->
  c ≠ 0 ->
  find_crtc_for_connector_from k fd resources (skipped ++ id :: rest) d =
    Done c d ((drmModeGetEncoder fd <$> skipped) ++
              [drmModeGetEncoder fd id; drmModeFreeEncoder e]).
Proof.
  intros Hskip Hid Hbit Hc. induction Hskip as [|i skipped Hi Hskip IH]; simpl.
  - mrun. rewrite Hid. mrun. rewrite (find_crtc_for_encoder_first_bit _ _ _ _ Hbit).
    apply Z.eqb_neq in Hc. rewrite Hc. done.
  - mrun. rewrite Hi. rewrite IH. done.
Qed.

(** The encoder scan of [Initialize] stops at the first encoder of the
    resource list whose id is the connector's [encoder_id] and takes its
    [crtc_id] as it is. *)
Lemma Initialize_encoders_match k connector ids es n e d :
  answers_encoders k ids es ->
  list_find (matches connector) es = Some (n, e) ->
  Initialize_encoders k connector ids d =
    Done (Some e) (set_crtc_id (crtc_id e) d)
      (encoders_trace (m_card_fd d) (take n ids) (take n es) ++
       (drmModeGetEncoder (m_card_fd d) <$> take 1 (drop n ids))).
Proof.
  intros Hans. revert n.
  induction Hans as [|id e0 ids es Hid Hans IH]; intros n Hfind; [done|].
  simpl in Hfind. simpl Initialize_encoders. mrun. rewrite Hid. mrun.
  destruct (decide (matches connector e0)) as [Hm|Hm].
  - simplify_eq. unfold matches in Hm. apply Z.eqb_eq in Hm. rewrite Hm. reflexivity.
  - destruct (list_find (matches connector) es) as [[n' e']|] eqn:Hf; [|done].
    simpl in Hfind. simplify_eq. unfold matches in Hm. apply Z.eqb_neq in Hm.
    rewrite Hm. mrun. rewrite (IH n' eq_refl). reflexivity.
Qed.

Lemma Initialize_encoders_no_match k connector ids es d :
  answers_encoders k ids es ->
  list_find (matches connector) es = None ->
  Initialize_encoders k connector ids d =
    Done None d (encoders_trace (m_card_fd d) ids es).
Proof.
  intros Hans.
  induction Hans as [|id e0 ids es Hid Hans IH]; intros Hfind; [done|].
  simpl in Hfind. simpl Initialize_encoders. mrun. rewrite Hid. mrun.
  destruct (decide (matches connector e0)) as [Hm|Hm]; [done|].
  destruct (list_find (matches connector) es) as [[n' e']|] eqn:Hf; [done|].
  unfold matches in Hm. apply Z.eqb_neq in Hm. rewrite Hm. mrun.
  rewrite (IH eq_refl). reflexivity.
Qed.

Lemma Initialize_gbm_run k d :
  Initialize_gbm k d =
    Done (negb (is_null (k_gbm_device k))) (set_gbm_device (k_gbm_device k) d)
      ([drmModeFreeResources; gbm_create_device (m_card_fd d)] ++
       if is_null (k_gbm_device k)
       then [Log_ErrorPrintf "gbm_create_device() failed: %d" []] else []).
Proof. unfold Initialize_gbm. mrun. by destruct (k_gbm_device k). Qed.

(** ** What the later phases of [Initialize] leave alone *)

Lemma Initialize_modes_keeps {C} (f : DRMDisplay -> C) connector rest :
  (∀ m d, f (set_mode m d) = f d) ->
  ∀ i, keeps f (Initialize_modes connector i rest).
Proof.
  intros Hf. induction rest as [|m rest IH]; intros i; simpl; [frame|].
  destruct (mode_preferred m); [by apply keeps_modify|].
  apply keeps_bind; [frame|intros d].
  apply keeps_bind; [|intros ?; apply IH].
  destruct (m_mode d); [|by apply keeps_modify].
  apply keeps_bind; [frame|intros cur].
  destruct (_ >? _); [by apply keeps_modify|frame].
Qed.

Lemma Initialize_modes_emits P connector rest :
  ∀ i, emits P (Initialize_modes connector i rest).
Proof.
  induction rest as [|m rest IH]; intros i; simpl; [frame|].
  destruct (mode_preferred m); [frame|].
  apply emits_bind; [frame|intros d].
  apply emits_bind; [frame|intros ?; apply IH].
Qed.

Lemma Initialize_encoders_keeps {C} (f : DRMDisplay -> C) k connector ids :
  (∀ c d, f (set_crtc_id c d) = f d) ->
  keeps f (Initialize_encoders k connector ids).
Proof.
  intros Hf. induction ids as [|id ids IH]; simpl; [frame|].
  apply keeps_bind; [frame|intros d].
  apply keeps_bind; [frame|intros ?].
  apply keeps_bind; [frame|intros e].
  destruct (_ =? _).
  - apply keeps_bind; [by apply keeps_modify|frame].
  - apply keeps_bind; [frame|done].
Qed.

Lemma find_crtc_for_connector_keeps {C} (f : DRMDisplay -> C) k fd resources connector :
  keeps f (find_crtc_for_connector k fd resources connector).
Proof.
  intros d. unfold find_crtc_for_connector.
  destruct (find_crtc_for_connector_from_returns k fd resources (encoders connector) d)
    as (c & t & -> & _). done.
Qed.

Lemma Initialize_gbm_keeps {C} (f : DRMDisplay -> C) k :
  (∀ g d, f (set_gbm_device g d) = f d) -> keeps f (Initialize_gbm k).
Proof. intros Hf d. rewrite Initialize_gbm_run. apply Hf. Qed.

Lemma Initialize_crtc_keeps {C} (f : DRMDisplay -> C) k resources connector :
  (∀ c d, f (set_crtc_id c d) = f d) ->
  (∀ g d, f (set_gbm_device g d) = f d) ->
  keeps f (Initialize_crtc k resources connector).
Proof.
  intros Hc Hg. unfold Initialize_crtc.
  apply keeps_bind; [by apply Initialize_encoders_keeps|intros [e|]].
  - apply keeps_bind; [frame|intros ?; by apply Initialize_gbm_keeps].
  - apply keeps_bind; [frame|intros d].
    apply keeps_bind; [apply find_crtc_for_connector_keeps|intros c].
    apply keeps_bind; [by apply keeps_modify|intros ?].
    destruct (c =? 0); [frame|by apply Initialize_gbm_keeps].
Qed.

Lemma Initialize_mode_keeps_connector k resources connector :
  keeps m_connector (Initialize_mode k resources connector).
Proof.
  unfold Initialize_mode.
  apply keeps_bind; [by apply Initialize_modes_keeps|intros ?].
  apply keeps_bind; [frame|intros d].
  destruct (is_null _); [frame|by apply Initialize_crtc_keeps].
Qed.

(** The events of [Initialize] from the mode selection on all satisfy [P], as
    soon as [P] holds of the encoder calls, of the calls of the tail and of
    the two log lines that can be reached. The line "No CRTC found" is not
    among them: [find_crtc_for_connector] never returns 0. *)
Section Emits.
Context (P : Event -> Prop).
Hypothesis P_get_encoder : ∀ fd id, P (drmModeGetEncoder fd id).
Hypothesis P_free_encoder : ∀ e, P (drmModeFreeEncoder e).
Hypothesis P_free_resources : P drmModeFreeResources.
Hypothesis P_gbm : ∀ fd, P (gbm_create_device fd).
Hypothesis P_log_gbm : P (Log_ErrorPrintf "gbm_create_device() failed: %d" []).
Hypothesis P_log_mode : P (Log_ErrorPrintf "No mode found" []).

Lemma Initialize_encoders_emits k connector ids :
  emits P (Initialize_encoders k connector ids).
Proof using P_get_encoder P_free_encoder.
  induction ids as [|id ids IH]; simpl; [frame|].
  apply emits_bind; [frame|intros d].
  apply emits_bind; [by apply emits_emit|intros ?].
  apply emits_bind; [frame|intros e].
  destruct (_ =? _); [frame|].
  apply emits_bind; [by apply emits_emit|done].
Qed.

Lemma Initialize_gbm_emits k : emits P (Initialize_gbm k).
Proof using P_free_resources P_gbm P_log_gbm.
  intros d. rewrite Initialize_gbm_run. simpl.
  constructor; [done|]. constructor; [done|].
  destruct (is_null _); by repeat constructor.
Qed.

Lemma Initialize_crtc_emits k resources connector :
  emits P (Initialize_crtc k resources connector).
Proof using All.
  unfold Initialize_crtc.
  apply emits_bind; [apply Initialize_encoders_emits|intros [e|]].
  - apply emits_bind; [by apply emits_emit|intros ?; apply Initialize_gbm_emits].
  - apply emits_bind; [frame|intros d0]. intros d. rewrite bind_run.
    unfold find_crtc_for_connector.
    destruct (find_crtc_for_connector_from_returns k (m_card_fd d0) resources
                (encoders connector) d) as (c & t & -> & Hc & Ht).
    rewrite trace_of_after. apply Forall_app. split.
    + eapply Forall_impl; [exact Ht|]. by intros e [id [->|(enc & _ & ->)]].
    + apply Z.eqb_neq in Hc. mrun. rewrite Hc. rewrite Initialize_gbm_run. simpl.
      constructor; [done|]. constructor; [done|].
      destruct (is_null _); by repeat constructor.
Qed.

Lemma Initialize_mode_emits k resources connector :
  emits P (Initialize_mode k resources connector).
Proof using All.
  unfold Initialize_mode.
  apply emits_bind; [by apply Initialize_modes_emits|intros ?].
  apply emits_bind; [frame|intros d].
  destruct (is_null _); [|apply Initialize_crtc_emits].
  apply emits_bind; [by apply emits_emit|intros ?].
  apply emits_bind; [by apply emits_emit|intros ?]. frame.
Qed.

End Emits.

Lemma Initialize_connectors_emits P k ids :
  (∀ fd id, P (drmModeGetConnector fd id)) ->
  (∀ c, P (drmModeFreeConnector c)) ->
  emits P (Initialize_connectors k ids).
Proof.
  intros Hget Hfree. induction ids as [|id ids IH]; simpl; [frame|].
  apply emits_bind; [frame|intros d].
  apply emits_bind; [by apply emits_emit|intros ?].
  apply emits_bind; [frame|intros c].
  destruct (decide _); [frame|].
  apply emits_bind; [by apply emits_emit|done].
Qed.

(** On no device at all does [Initialize] log "No CRTC found": the failure
    for want of a controller cannot happen. *)
Lemma Initialize_never_logs_no_crtc k d :
  Log_ErrorPrintf "No CRTC found" [] ∉ trace_of (Initialize k d).
Proof.
  assert (Hemits : emits (λ e, e ≠ Log_ErrorPrintf "No CRTC found" []) (Initialize k)).
  { unfold Initialize.
    apply emits_bind; [frame|intros d0].
    apply emits_bind; [by apply emits_emit|intros ?].
    apply emits_bind; [frame|intros ?].
    destruct (_ <? _).
    { apply emits_bind; [by apply emits_emit|intros ?]. frame. }
    apply emits_bind; [by apply emits_emit|intros ?].
    destruct (k_resources k) as [resources|].
    2:{ apply emits_bind; [by apply emits_emit|intros ?]. frame. }
    apply emits_bind; [frame|intros d1].
    apply emits_bind; [frame|intros ?].
    apply emits_bind; [by apply Initialize_connectors_emits|intros ?].
    apply emits_bind; [frame|intros d2].
    destruct (m_connector d2) as [connector|].
    - by apply Initialize_mode_emits.
    - apply emits_bind; [by apply emits_emit|intros ?].
      apply emits_bind; [by apply emits_emit|intros ?]. frame. }
  intros Hin. by apply (proj1 (Forall_forall _ _) (Hemits d)) in Hin.
Qed.

(** ** [Initialize], phase by phase *)

(** With no connected connector [Initialize] gives up. *)
Lemma Initialize_no_connector k d0 res cs :
  m_connector d0 = None ->
  0 <= k_open k ->
  k_resources k = Some res ->
  answers_connectors k (connectors res) cs ->
  list_find connected cs = None ->
  Initialize k d0 =
    Done false (set_card_fd (k_open k) d0)
      ([sys_open (m_card_id d0); drmModeGetResources (k_open k)] ++
       connectors_trace (k_open k) (connectors res) cs ++
       [Log_ErrorPrintf "No connector found" []; drmModeFreeResources]).
Proof.
  intros Hfresh Hopen Hres Hans Hfind. unfold Initialize. mrun.
  assert ((k_open k <? 0) = false) as -> by lia. mrun. rewrite Hres. mrun.
  rewrite Hfresh. mrun.
  rewrite (Initialize_connectors_none _ _ _ _ Hans Hfind). mrun.
  rewrite Hfresh. mrun. reflexivity.
Qed.

(** With a connected connector [Initialize] goes on to select a mode. *)
Lemma Initialize_at_connector k d0 res cs n conn :
  selects_connector k d0 res cs n conn ->
  Initialize k d0 =
    after (selection_trace k d0 res cs n)
      (Initialize_mode k res conn (set_connector (Some conn) (set_card_fd (k_open k) d0))).
Proof.
  intros [Hfresh Hopen Hres Hans Hfind]. unfold Initialize. mrun.
  assert ((k_open k <? 0) = false) as -> by lia. mrun. rewrite Hres. mrun.
  rewrite Hfresh. mrun.
  rewrite (Initialize_connectors_selects _ _ _ _ _ _ Hans Hfind). mrun.
  reflexivity.
Qed.

(** With a mode to select [Initialize] goes on to resolve a controller. *)
Lemma Initialize_mode_selects k resources connector d :
  m_mode d = None ->
  modes connector ≠ [] ->
  ∃ sel, selected_mode (modes connector) sel ∧
    Initialize_mode k resources connector d =
      Initialize_crtc k resources connector (set_mode (Some sel) d).
Proof.
  intros Hd Hms. destruct (Initialize_modes_selects connector d Hd) as ([sel|] & Hrun & Hsel);
    [|done].
  exists sel. split; [done|]. unfold Initialize_mode. mrun. rewrite Hrun. mrun.
  by destruct (Initialize_crtc _ _ _ _).
Qed.

Lemma Initialize_mode_none k resources connector d :
  m_mode d = None ->
  modes connector = [] ->
  Initialize_mode k resources connector d =
    Done false d [Log_ErrorPrintf "No mode found" []; drmModeFreeResources].
Proof.
  intros Hd Hms. unfold Initialize_mode. rewrite Hms. mrun. by rewrite Hd.
Qed.

(** ** Events of the scans *)

Lemma connectors_trace_no_log fd ids cs :
  Forall (λ e, ¬ is_log e) (connectors_trace fd ids cs).
Proof.
  revert cs. induction ids as [|id ids IH]; intros [|c cs]; try by constructor.
  unfold connectors_trace. simpl. repeat (constructor; [tauto|]). apply IH.
Qed.

Lemma encoders_trace_no_log fd ids es :
  Forall (λ e, ¬ is_log e) (encoders_trace fd ids es).
Proof.
  revert es. induction ids as [|id ids IH]; intros [|c es]; try by constructor.
  unfold encoders_trace. simpl. repeat (constructor; [tauto|]). apply IH.
Qed.

Lemma selection_trace_no_log k d0 res cs n :
  Forall (λ e, ¬ is_log e) (selection_trace k d0 res cs n).
Proof.
  unfold selection_trace. repeat (apply Forall_app; split).
  - repeat constructor; tauto.
  - apply connectors_trace_no_log.
  - apply Forall_fmap, Forall_true. simpl. tauto.
Qed.

Lemma NO_MATCH_value : NO_MATCH = 4294967295.
Proof. reflexivity. Qed.

(** ** Topology resolution: connector, mode, controller *)

(** C8. [Initialize] scans the connectors in the order of the resource list.
    With [cs] the connectors the kernel answers: if [conn], at position [n],
    is the first connected one, [Initialize] keeps [conn] in [m_connector];
    its trace starts with obtaining and at once freeing each of the [n]
    connectors before [conn], then obtains [conn], and names no connector any
    more after that. If none is connected, [Initialize] returns [false] after
    logging "No connector found", having freed every connector it obtained,
    and keeps no connector. *)
Theorem Initialize_selects_first_connected k d0 res cs :
  m_connector d0 = None ->
  0 <= k_open k ->
  k_resources k = Some res ->
  answers_connectors k (connectors res) cs ->
  match list_find connected cs with
  | Some (n, conn) =>
      m_connector (state_of (Initialize k d0)) = Some conn ∧
      ∃ t, trace_of (Initialize k d0) = selection_trace k d0 res cs n ++ t ∧
           Forall (λ e, ¬ is_connector_event e) t
  | None =>
      Initialize k d0 =
        Done false (set_card_fd (k_open k) d0)
          ([sys_open (m_card_id d0); drmModeGetResources (k_open k)] ++
           connectors_trace (k_open k) (connectors res) cs ++
           [Log_ErrorPrintf "No connector found" []; drmModeFreeResources]) ∧
      m_connector (state_of (Initialize k d0)) = None
  end.
Proof.
  intros Hfresh Hopen Hres Hans.
  destruct (list_find connected cs) as [[n conn]|] eqn:Hfind.
  - rewrite (Initialize_at_connector k d0 res cs n conn) by done.
    rewrite state_of_after, trace_of_after. split.
    + by rewrite Initialize_mode_keeps_connector.
    + eexists. split; [done|]. apply Initialize_mode_emits; simpl; tauto.
  - rewrite (Initialize_no_connector k d0 res cs) by done. by split.
Qed.

Lemma Initialize_selects_first_connected_witness :
  m_connector (state_of (Initialize
      (card unplugged (plugged [mode_2160p 0; mode_1080p 8] [20]) [20] [encoder 20 6 3])
      (DRMDisplay_new 4 0))) =
    Some (plugged [mode_2160p 0; mode_1080p 8] [20]).
Proof.
  refine (proj1 (Initialize_selects_first_connected
    (card unplugged (plugged [mode_2160p 0; mode_1080p 8] [20]) [20] [encoder 20 6 3])
    (DRMDisplay_new 4 0) (card_resources [20])
    [unplugged; plugged [mode_2160p 0; mode_1080p 8] [20]] _ _ _ _)).
  - reflexivity.
  - simpl. lia.
  - reflexivity.
  - repeat constructor.
Defined.

(** The area the code compares is the pixel area wherever that fits an
    [int]. *)
Lemma mode_area_exact m :
  0 <= hdisplay m * vdisplay m < 2 ^ 31 ->
  mode_area m = hdisplay m * vdisplay m.
Proof.
  intros Hrange. unfold mode_area, int32.
  rewrite Z.mod_small; lia.
Qed.

(** Where the pixel area of every mode fits an [int], the selection is the
    one by pixel area. *)
Lemma selected_mode_pixel_area ms sel :
  Forall (λ m, 0 <= pixel_area m < 2 ^ 31) ms ->
  selected_mode ms sel ->
  selected_by pixel_area ms sel.
Proof.
  intros Hrange (m & Hm & Hsel).
  assert (Hexact : ∀ j m', ms !! j = Some m' → mode_area m' = pixel_area m').
  { intros j m' Hj. apply mode_area_exact.
    apply (proj1 (Forall_lookup _ _) Hrange j m' Hj). }
  exists m. split; [done|]. destruct Hsel as [Hpref|(Hnone & Hle & Hlt)]; [by left|].
  right. split; [done|]. rewrite <- (Hexact _ _ Hm). split.
  - intros j m' Hj. rewrite <- (Hexact _ _ Hj). eauto.
  - intros j m' Hlen Hj. rewrite <- (Hexact _ _ Hj). eauto.
Qed.

(** C4, wherever the code's arithmetic is defined. Once [Initialize] has its
    connector [conn]: for a non-empty mode list whose pixel areas all fit the
    [int] in which [hdisplay * vdisplay] is computed, it leaves in [m_mode]
    the index [sel] of the first mode flagged preferred, or, no mode being
    flagged, the index of a mode of largest pixel area before which every
    mode has a strictly smaller pixel area, that is the first maximum in list
    order. For an empty mode list [Initialize] logs "No mode found", frees
    the resources and returns [false], with no mode selected. A mode whose
    pixel area exceeds 2^31 - 1 overflows the product and is not covered. *)
Theorem Initialize_selects_mode k d0 res cs n conn :
  selects_connector k d0 res cs n conn ->
  m_mode d0 = None ->
  (modes conn ≠ [] →
   Forall (λ m, 0 <= pixel_area m < 2 ^ 31) (modes conn) →
     ∃ sel, m_mode (state_of (Initialize k d0)) = Some sel ∧
            selected_by pixel_area (modes conn) sel) ∧
  (modes conn = [] →
     Initialize k d0 =
       Done false (set_connector (Some conn) (set_card_fd (k_open k) d0))
         (selection_trace k d0 res cs n ++
          [Log_ErrorPrintf "No mode found" []; drmModeFreeResources]) ∧
     m_mode (state_of (Initialize k d0)) = None).
Proof.
  intros Hsel Hfresh. rewrite (Initialize_at_connector k d0 res cs n conn Hsel). split.
  - intros Hms Hrange.
    destruct (Initialize_mode_selects k res conn
                (set_connector (Some conn) (set_card_fd (k_open k) d0)) Hfresh Hms)
      as (sel & Hspec & ->).
    exists sel. split.
    + rewrite state_of_after. rewrite (Initialize_crtc_keeps m_mode); done.
    + by apply selected_mode_pixel_area.
  - intros Hms. rewrite Initialize_mode_none by done. done.
Qed.

Lemma Initialize_selects_mode_witness :
  ∃ sel,
    m_mode (state_of (Initialize
      (card unplugged (plugged [mode_1080p 0; mode_2160p 0; mode_2160p 0] [20]) [20]
         [encoder 20 6 3])
      (DRMDisplay_new 4 0))) = Some sel ∧
    selected_by pixel_area [mode_1080p 0; mode_2160p 0; mode_2160p 0] sel.
Proof.
  refine (proj1 (Initialize_selects_mode
    (card unplugged (plugged [mode_1080p 0; mode_2160p 0; mode_2160p 0] [20]) [20]
       [encoder 20 6 3])
    (DRMDisplay_new 4 0) (card_resources [20])
    [unplugged; plugged [mode_1080p 0; mode_2160p 0; mode_2160p 0] [20]] 1
    (plugged [mode_1080p 0; mode_2160p 0; mode_2160p 0] [20]) _ _) _ _).
  - split; [reflexivity|simpl; lia|reflexivity|repeat constructor|reflexivity].
  - reflexivity.
  - discriminate.
  - repeat constructor; vm_compute; discriminate.
Defined.

(** The two scenarios of the specification: the preferred 1920x1080 is taken
    over the larger 3840x2160, and without a preferred flag the larger one is
    taken. *)
Example mode_scenarios_example :
  m_mode (state_of (Initialize
    (card unplugged (plugged [mode_1080p 8; mode_2160p 0] [20]) [20] [encoder 20 6 3])
    (DRMDisplay_new 4 0))) = Some 0%nat ∧
  m_mode (state_of (Initialize
    (card unplugged (plugged [mode_1080p 0; mode_2160p 0] [20]) [20] [encoder 20 6 3])
    (DRMDisplay_new 4 0))) = Some 1%nat.
Proof. split; vm_compute; reflexivity. Qed.

(** Where no listed encoder matches, controller resolution is the fallback
    scan, followed by the test of its result against 0. *)
Lemma Initialize_crtc_fallback k res conn es d c t :
  answers_encoders k (res_encoders res) es ->
  list_find (matches conn) es = None ->
  find_crtc_for_connector k (m_card_fd d) res conn d = Done c d t ->
  c ≠ 0 ->
  Initialize_crtc k res conn d =
    after (encoders_trace (m_card_fd d) (res_encoders res) es ++ t)
      (Initialize_gbm k (set_crtc_id c d)).
Proof.
  intros Hans Hfind Hrun Hc. unfold Initialize_crtc. mrun.
  rewrite (Initialize_encoders_no_match _ _ _ _ _ Hans Hfind). mrun.
  rewrite Hrun. mrun. apply Z.eqb_neq in Hc. rewrite Hc.
  rewrite Initialize_gbm_run. simpl. by rewrite <- app_assoc.
Qed.

(** C1, as the code has it. On a device whose selected connector has no
    matching encoder in the resource list and whose reachable encoders have
    no bit set for any listed controller, [Initialize] does not fail for want
    of a controller: [find_crtc_for_connector] returns its [-1], which the
    test against 0 lets through, so [m_crtc_id] becomes 4294967295, "No CRTC
    found" is not logged, and [Initialize] goes on to create the allocator
    device and returns [true] when that succeeds. *)
Theorem Initialize_accepts_missing_controller k d0 res cs n conn es :
  selects_connector k d0 res cs n conn ->
  m_mode d0 = None ->
  modes conn ≠ [] ->
  answers_encoders k (res_encoders res) es ->
  list_find (matches conn) es = None ->
  (∀ id e, id ∈ encoders conn → k_encoder k !! id = Some e → no_crtc_bit res e) ->
  value_of (Initialize k d0) = Some (negb (is_null (k_gbm_device k))) ∧
  m_crtc_id (state_of (Initialize k d0)) = 4294967295 ∧
  Log_ErrorPrintf "No CRTC found" [] ∉ trace_of (Initialize k d0).
Proof.
  intros Hsel Hfresh Hms Hans Hfind Hbits.
  rewrite (Initialize_at_connector k d0 res cs n conn Hsel).
  destruct (Initialize_mode_selects k res conn
              (set_connector (Some conn) (set_card_fd (k_open k) d0)) Hfresh Hms)
    as (sel & _ & ->).
  set (d := set_mode (Some sel) (set_connector (Some conn) (set_card_fd (k_open k) d0))).
  destruct (find_crtc_for_connector_from_no_bit k (m_card_fd d) res (encoders conn) d Hbits)
    as (t & Hrun & Ht).
  rewrite (Initialize_crtc_fallback k res conn es d NO_MATCH t Hans Hfind Hrun) by done.
  rewrite Initialize_gbm_run, !value_of_after, !state_of_after, !trace_of_after.
  cbn [value_of state_of trace_of m_crtc_id set_gbm_device set_crtc_id].
  split; [done|]. split; [done|].
  intros Hin. rewrite <- app_assoc in Hin.
  apply elem_of_app in Hin as [Hin|Hin].
  { by apply (proj1 (Forall_forall _ _) (selection_trace_no_log k d0 res cs n)) in Hin. }
  apply elem_of_app in Hin as [Hin|Hin].
  { by apply (proj1 (Forall_forall _ _) (encoders_trace_no_log _ _ _)) in Hin. }
  apply elem_of_app in Hin as [Hin|Hin].
  { apply (proj1 (Forall_forall _ _) Ht) in Hin as [id [?|(enc & _ & ?)]]; done. }
  destruct (k_gbm_device k); simpl in Hin;
    repeat (apply elem_of_cons in Hin as [Hin|Hin]; [discriminate Hin|]);
    by apply elem_of_nil in Hin.
Qed.

Lemma Initialize_accepts_missing_controller_witness :
  value_of (Initialize
      (card unplugged (plugged [mode_1080p 8] [22]) [19] [encoder 19 5 1; encoder 22 0 0])
      (DRMDisplay_new 4 0)) = Some true ∧
  m_crtc_id (state_of (Initialize
      (card unplugged (plugged [mode_1080p 8] [22]) [19] [encoder 19 5 1; encoder 22 0 0])
      (DRMDisplay_new 4 0))) = 4294967295 ∧
  Log_ErrorPrintf "No CRTC found" [] ∉ trace_of (Initialize
      (card unplugged (plugged [mode_1080p 8] [22]) [19] [encoder 19 5 1; encoder 22 0 0])
      (DRMDisplay_new 4 0)).
Proof.
  refine (Initialize_accepts_missing_controller
    (card unplugged (plugged [mode_1080p 8] [22]) [19] [encoder 19 5 1; encoder 22 0 0])
    (DRMDisplay_new 4 0) (card_resources [19])
    [unplugged; plugged [mode_1080p 8] [22]] 1 (plugged [mode_1080p 8] [22])
    [(encoder 19 5 1).2] _ _ _ _ _ _).
  - split; [reflexivity|simpl; lia|reflexivity|repeat constructor|reflexivity].
  - reflexivity.
  - discriminate.
  - repeat constructor.
  - reflexivity.
  - intros id e Hin Hid. apply list_elem_of_singleton in Hin. subst id.
    vm_compute in Hid. injection Hid as <-.
    intros j Hj. simpl in Hj.
    destruct j as [|[|j]]; [reflexivity|reflexivity|lia].
Defined.

(** Where a listed encoder matches, controller resolution is the direct
    binding. *)
Lemma Initialize_crtc_direct k res conn es i e d :
  answers_encoders k (res_encoders res) es ->
  list_find (matches conn) es = Some (i, e) ->
  Initialize_crtc k res conn d =
    after (encoders_trace (m_card_fd d) (take i (res_encoders res)) (take i es) ++
           (drmModeGetEncoder (m_card_fd d) <$> take 1 (drop i (res_encoders res))) ++
           [drmModeFreeEncoder e])
      (Initialize_gbm k (set_crtc_id (crtc_id e) d)).
Proof.
  intros Hans Hfind. unfold Initialize_crtc. mrun.
  rewrite (Initialize_encoders_match _ _ _ _ _ _ _ Hans Hfind). mrun.
  rewrite Initialize_gbm_run. simpl. by rewrite <- !app_assoc.
Qed.

(** C2, as the code has it. Once [Initialize] has its connector and mode, and
    with [es] the encoders the kernel answers for the resource list:
    if an encoder of [es] has the connector's [encoder_id], the first such
    encoder [e] is the direct binding and [m_crtc_id] becomes [crtc_id e],
    whatever that is, 0 included; no encoder beyond [e] is obtained and no
    capability mask is consulted. If no encoder of [es] matches, the
    connector's own encoders are scanned: where the first of them the kernel
    answers has, as the first listed controller with its bit set, a
    controller [c] other than 0, [m_crtc_id] becomes [c]. In both cases
    [Initialize] goes on to create the allocator device. *)
Theorem Initialize_resolves_controller k d0 res cs n conn es :
  selects_connector k d0 res cs n conn ->
  m_mode d0 = None ->
  modes conn ≠ [] ->
  answers_encoders k (res_encoders res) es ->
  match list_find (matches conn) es with
  | Some (i, e) =>
      m_crtc_id (state_of (Initialize k d0)) = crtc_id e ∧
      value_of (Initialize k d0) = Some (negb (is_null (k_gbm_device k))) ∧
      trace_of (Initialize k d0) =
        selection_trace k d0 res cs n ++
        encoders_trace (k_open k) (take i (res_encoders res)) (take i es) ++
        (drmModeGetEncoder (k_open k) <$> take 1 (drop i (res_encoders res))) ++
        [drmModeFreeEncoder e] ++ gbm_trace k
  | None =>
      ∀ skipped id rest e j c,
        encoders conn = skipped ++ id :: rest →
        Forall (λ i, k_encoder k !! i = None) skipped →
        k_encoder k !! id = Some e →
        first_crtc_bit res e j c →
        c ≠ 0 →
        m_crtc_id (state_of (Initialize k d0)) = c ∧
        value_of (Initialize k d0) = Some (negb (is_null (k_gbm_device k))) ∧
        trace_of (Initialize k d0) =
          selection_trace k d0 res cs n ++
          encoders_trace (k_open k) (res_encoders res) es ++
          (drmModeGetEncoder (k_open k) <$> skipped) ++
          [drmModeGetEncoder (k_open k) id; drmModeFreeEncoder e] ++ gbm_trace k
  end.
Proof.
  intros Hsel Hfresh Hms Hans.
  rewrite (Initialize_at_connector k d0 res cs n conn Hsel).
  destruct (Initialize_mode_selects k res conn
              (set_connector (Some conn) (set_card_fd (k_open k) d0)) Hfresh Hms)
    as (sel & _ & ->).
  set (d := set_mode (Some sel) (set_connector (Some conn) (set_card_fd (k_open k) d0))).
  destruct (list_find (matches conn) es) as [[i e]|] eqn:Hfind.
  - rewrite (Initialize_crtc_direct k res conn es i e d Hans Hfind).
    rewrite Initialize_gbm_run, !value_of_after, !state_of_after, !trace_of_after.
    cbn [value_of state_of trace_of m_crtc_id set_gbm_device set_crtc_id].
    split; [done|]. split; [done|]. unfold gbm_trace. simpl. by rewrite <- !app_assoc.
  - intros skipped id rest e j c Hencs Hskip Hid Hbit Hc.
    rewrite (Initialize_crtc_fallback k res conn es d c
               ((drmModeGetEncoder (m_card_fd d) <$> skipped) ++
                [drmModeGetEncoder (m_card_fd d) id; drmModeFreeEncoder e]) Hans Hfind);
      [| |done].
    + rewrite Initialize_gbm_run, !value_of_after, !state_of_after, !trace_of_after.
      cbn [value_of state_of trace_of m_crtc_id set_gbm_device set_crtc_id].
      split; [done|]. split; [done|]. unfold gbm_trace. simpl. by rewrite <- !app_assoc.
    + unfold find_crtc_for_connector. rewrite Hencs.
      by apply (find_crtc_for_connector_from_first_bit k _ res skipped id rest e j c d).
Qed.

Lemma Initialize_resolves_controller_witness :
  m_crtc_id (state_of (Initialize
      (card unplugged (plugged [mode_1080p 8] [20]) [19; 20] [encoder 19 5 1; encoder 20 6 3])
      (DRMDisplay_new 4 0))) = 6.
Proof.
  refine (proj1 (Initialize_resolves_controller
    (card unplugged (plugged [mode_1080p 8] [20]) [19; 20] [encoder 19 5 1; encoder 20 6 3])
    (DRMDisplay_new 4 0) (card_resources [19; 20])
    [unplugged; plugged [mode_1080p 8] [20]] 1 (plugged [mode_1080p 8] [20])
    [(encoder 19 5 1).2; (encoder 20 6 3).2] _ _ _ _)).
  - split; [reflexivity|simpl; lia|reflexivity|repeat constructor|reflexivity].
  - reflexivity.
  - discriminate.
  - repeat constructor.
Defined.

(** The fallback, on a connector whose first encoder the
    kernel does not answer for and whose second one can drive controller 6. *)
Example fallback_by_mask_example :
  m_crtc_id (state_of (Initialize
      (card unplugged (plugged [mode_1080p 8] [21; 22]) [19] [encoder 19 5 1; encoder 22 0 2])
      (DRMDisplay_new 4 0))) = 6.
Proof. vm_compute. reflexivity. Qed.

(** C2 as stated fails where the matching encoder names no controller: the
    connector's encoder 20 is listed, its [crtc_id] is 0 and its mask allows
    controller 6. The statement asks for the bitmask scan, hence 6; the code
    takes the 0 and [Initialize] returns [true]. *)
Lemma direct_binding_without_controller_counterexample :
  direct_or_fallback
    (card unplugged (plugged [mode_1080p 8] [20]) [20] [encoder 20 0 2])
    (card_resources [20]) (plugged [mode_1080p 8] [20]) = Some 6 ∧
  value_of (Initialize
    (card unplugged (plugged [mode_1080p 8] [20]) [20] [encoder 20 0 2])
    (DRMDisplay_new 4 0)) = Some true ∧
  m_crtc_id (state_of (Initialize
    (card unplugged (plugged [mode_1080p 8] [20]) [20] [encoder 20 0 2])
    (DRMDisplay_new 4 0))) = 0 ∧
  Some (m_crtc_id (state_of (Initialize
    (card unplugged (plugged [mode_1080p 8] [20]) [20] [encoder 20 0 2])
    (DRMDisplay_new 4 0)))) ≠
  direct_or_fallback
    (card unplugged (plugged [mode_1080p 8] [20]) [20] [encoder 20 0 2])
    (card_resources [20]) (plugged [mode_1080p 8] [20]).
Proof. vm_compute. repeat split; discriminate. Qed.

(** ** The framebuffer cache *)

Lemma tracked_lookup d i entry :
  tracked d !! i = Some entry ↔ (i < m_num_buffers d)%nat ∧ m_buffers d !! i = Some entry.
Proof.
  unfold tracked. rewrite lookup_take_Some. tauto.
Qed.

(** The search loop leaves the instance alone and returns the first entry, of
    the [remaining] ones from [i] on, that holds the buffer object. *)
Lemma LockFrontBuffer_find_run b d :
  ∀ remaining i,
  (i + remaining ≤ length (m_buffers d))%nat ->
  LockFrontBuffer_find b i remaining d =
    Done ((λ r : nat * Buffer, (i + r.1)%nat) <$>
            list_find (λ entry, bo entry = b) (take remaining (drop i (m_buffers d))))
      d [].
Proof.
  induction remaining as [|remaining IH]; intros i Hlen; simpl; [done|].
  destruct (lookup_lt_is_Some_2 (m_buffers d) i) as [entry Hentry]; [lia|].
  mrun. rewrite Hentry. mrun.
  rewrite (drop_S _ _ _ Hentry). simpl.
  destruct (decide (bo entry = b)) as [Heq|Hne].
  - apply Z.eqb_eq in Heq. rewrite Heq. simpl. by rewrite Nat.add_0_r.
  - apply Z.eqb_neq in Hne. rewrite Hne. rewrite IH by lia.
    destruct (list_find _ _) as [[j e]|]; simpl; [|done].
    do 2 f_equal. lia.
Qed.

Lemma LockFrontBuffer_find_tracked b d :
  (m_num_buffers d ≤ length (m_buffers d))%nat ->
  LockFrontBuffer_find b 0 (m_num_buffers d) d =
    Done (fst <$> list_find (λ entry, bo entry = b) (tracked d)) d [].
Proof.
  intros Hlen. rewrite LockFrontBuffer_find_run by done. unfold tracked. simpl.
  by destruct (list_find _ _) as [[j e]|].
Qed.

(** In a cache without duplicates an entry is the first one holding its
    buffer object. *)
Lemma list_find_tracked d i entry :
  NoDup (bo <$> tracked d) ->
  tracked d !! i = Some entry ->
  list_find (λ e, bo e = bo entry) (tracked d) = Some (i, entry).
Proof.
  intros Hnodup Hi. apply list_find_Some. split; [done|]. split; [done|].
  intros j e Hj Hlt Heq.
  assert (j = i); [|lia].
  eapply (NoDup_lookup _ _ _ _ Hnodup); rewrite list_lookup_fmap.
  - rewrite Hj. simpl. by rewrite Heq.
  - by rewrite Hi.
Qed.

Lemma list_find_untracked d b :
  b ∉ bo <$> tracked d ->
  list_find (λ e, bo e = b) (tracked d) = None.
Proof.
  intros Hnot. apply list_find_None, Forall_forall. intros e He Heq.
  apply Hnot. rewrite <- Heq. by apply list_elem_of_fmap_2.
Qed.

(** A hit: the entry is returned, the instance is as before, and the only
    call made is the one that locks the front buffer. *)
Lemma LockFrontBuffer_cached MAX_BUFFERS d locked addfb i entry :
  buffers_inv MAX_BUFFERS d ->
  tracked d !! i = Some entry ->
  bo entry = bo_ptr locked ->
  LockFrontBuffer MAX_BUFFERS locked addfb d =
    Done (Some i) d [gbm_surface_lock_front_buffer (m_fb_surface d) (bo_ptr locked)].
Proof.
  intros (Hlen & Hnum & Hnodup) Hi Hbo. unfold LockFrontBuffer. mrun.
  rewrite LockFrontBuffer_find_tracked by lia. rewrite <- Hbo.
  rewrite (list_find_tracked d i entry Hnodup Hi). done.
Qed.

(** A miss below capacity: the kernel is asked to register the buffer
    object; on failure the free slot holds the pending entry and the count
    stays, on success the slot holds the registered entry and the count
    goes up by one. *)
Lemma LockFrontBuffer_uncached MAX_BUFFERS d locked addfb slot :
  buffers_inv MAX_BUFFERS d ->
  bo_ptr locked ∉ bo <$> tracked d ->
  (m_num_buffers d < MAX_BUFFERS)%nat ->
  bo_ptr locked ≠ NULL ->
  m_buffers d !! m_num_buffers d = Some slot ->
  LockFrontBuffer MAX_BUFFERS locked addfb d =
    if addfb.1 =? 0
    then Done (Some (m_num_buffers d))
           (set_num_buffers (S (m_num_buffers d))
              (set_buffers (<[m_num_buffers d := registered_entry locked addfb.2]>
                              (m_buffers d)) d))
           [gbm_surface_lock_front_buffer (m_fb_surface d) (bo_ptr locked);
            AddFB2_call d locked]
    else Done None
           (set_buffers (<[m_num_buffers d := pending_entry locked slot]> (m_buffers d)) d)
           [gbm_surface_lock_front_buffer (m_fb_surface d) (bo_ptr locked);
            AddFB2_call d locked;
            Log_ErrorPrintf "drmModeAddFB2() failed: %d" [addfb.1]].
Proof.
  intros (Hlen & Hnum & Hnodup) Hnew Hroom Hptr Hslot. unfold LockFrontBuffer. mrun.
  rewrite LockFrontBuffer_find_tracked by lia.
  rewrite (list_find_untracked d _ Hnew). mrun.
  rewrite bool_decide_eq_true_2 by done. mrun. rewrite Hslot. mrun.
  apply Z.eqb_neq in Hptr. rewrite Hptr. mrun.
  destruct (addfb.1 =? 0); done.
Qed.

(** A miss at capacity is an assertion failure. *)
Lemma LockFrontBuffer_at_capacity MAX_BUFFERS d locked addfb :
  buffers_inv MAX_BUFFERS d ->
  bo_ptr locked ∉ bo <$> tracked d ->
  m_num_buffers d = MAX_BUFFERS ->
  LockFrontBuffer MAX_BUFFERS locked addfb d =
    Abort AssertFailed d [gbm_surface_lock_front_buffer (m_fb_surface d) (bo_ptr locked)].
Proof.
  intros (Hlen & Hnum & Hnodup) Hnew Hfull. unfold LockFrontBuffer. mrun.
  rewrite LockFrontBuffer_find_tracked by lia.
  rewrite (list_find_untracked d _ Hnew). mrun.
  rewrite bool_decide_eq_false_2 by lia. done.
Qed.

Lemma tracked_pending d entry :
  tracked (set_buffers (<[m_num_buffers d := entry]> (m_buffers d)) d) = tracked d.
Proof. unfold tracked. simpl. by rewrite take_insert_ge. Qed.

Lemma tracked_registered d entry :
  (m_num_buffers d < length (m_buffers d))%nat ->
  tracked (set_num_buffers (S (m_num_buffers d))
             (set_buffers (<[m_num_buffers d := entry]> (m_buffers d)) d)) =
    tracked d ++ [entry].
Proof.
  intros Hlen. unfold tracked. simpl.
  rewrite (take_S_r _ _ entry) by (by apply list_lookup_insert_eq).
  by rewrite take_insert_ge.
Qed.

Lemma buffers_inv_pending MAX_BUFFERS d entry :
  buffers_inv MAX_BUFFERS d ->
  buffers_inv MAX_BUFFERS (set_buffers (<[m_num_buffers d := entry]> (m_buffers d)) d).
Proof.
  intros (Hlen & Hnum & Hnodup). unfold buffers_inv.
  rewrite tracked_pending. simpl. by rewrite length_insert.
Qed.

Lemma buffers_inv_registered MAX_BUFFERS d entry :
  buffers_inv MAX_BUFFERS d ->
  (m_num_buffers d < MAX_BUFFERS)%nat ->
  bo entry ∉ bo <$> tracked d ->
  buffers_inv MAX_BUFFERS
    (set_num_buffers (S (m_num_buffers d))
       (set_buffers (<[m_num_buffers d := entry]> (m_buffers d)) d)).
Proof.
  intros (Hlen & Hnum & Hnodup) Hroom Hnew. unfold buffers_inv.
  rewrite tracked_registered by lia. simpl. rewrite length_insert.
  split; [done|]. split; [lia|].
  rewrite fmap_app. simpl. apply NoDup_app. split; [done|]. split.
  - intros b Hb Hb'. apply list_elem_of_singleton in Hb'. by subst b.
  - apply NoDup_singleton.
Qed.

Lemma buffers_inv_new MAX_BUFFERS card : buffers_inv MAX_BUFFERS (DRMDisplay_new MAX_BUFFERS card).
Proof.
  unfold buffers_inv, tracked. simpl. rewrite length_replicate.
  split; [done|]. split; [lia|]. constructor.
Qed.

(** ** Hits, failed registrations and the cache invariant *)

(** C5. On an instance whose cache is well formed, locking a buffer object
    that is tracked at entry [i] returns that entry and leaves the whole
    instance, the entry with its framebuffer id, size, stride and format
    included, as it was; the only call made is the lock of the front buffer,
    so the kernel is not asked to register anything. The same holds when the
    entry is released first. *)
Theorem LockFrontBuffer_hit MAX_BUFFERS d locked addfb i entry :
  buffers_inv MAX_BUFFERS d ->
  tracked d !! i = Some entry ->
  bo entry = bo_ptr locked ->
  LockFrontBuffer MAX_BUFFERS locked addfb d =
    Done (Some i) d [gbm_surface_lock_front_buffer (m_fb_surface d) (bo_ptr locked)] ∧
  (ReleaseBuffer (Some i);; LockFrontBuffer MAX_BUFFERS locked addfb) d =
    Done (Some i) d
      [gbm_surface_release_buffer (m_fb_surface d) (bo_ptr locked);
       gbm_surface_lock_front_buffer (m_fb_surface d) (bo_ptr locked)].
Proof.
  intros Hinv Hi Hbo. split.
  - by apply (LockFrontBuffer_cached MAX_BUFFERS d locked addfb i entry).
  - apply tracked_lookup in Hi as Hi'. destruct Hi' as [_ Hi'].
    unfold ReleaseBuffer, deref_buffer. mrun. rewrite Hi'. mrun.
    rewrite (LockFrontBuffer_cached MAX_BUFFERS d locked addfb i entry) by done.
    simpl. by rewrite Hbo.
Qed.

Lemma LockFrontBuffer_hit_witness :
  LockFrontBuffer 4 (bo_1080p 100) (0, 43) display_with_buffer =
    Done (Some 0%nat) display_with_buffer [gbm_surface_lock_front_buffer (Some 88) 100] ∧
  (ReleaseBuffer (Some 0%nat);; LockFrontBuffer 4 (bo_1080p 100) (0, 43)) display_with_buffer =
    Done (Some 0%nat) display_with_buffer
      [gbm_surface_release_buffer (Some 88) 100; gbm_surface_lock_front_buffer (Some 88) 100].
Proof.
  refine (LockFrontBuffer_hit 4 display_with_buffer (bo_1080p 100) (0, 43) 0
            (registered_entry (bo_1080p 100) 42) _ _ _).
  - split; [reflexivity|]. split; [vm_compute; lia|].
    vm_compute. apply NoDup_singleton.
  - reflexivity.
  - reflexivity.
Defined.

(** C6. On an instance whose cache is well formed and has room, locking a
    buffer object that is not tracked and that the kernel refuses to register
    returns null after logging the failure; the count and the tracked set are
    as before, so the buffer object is still not tracked, and the cache is
    still well formed. Locking the same buffer object again on the resulting
    instance asks the kernel to register it again. *)
Theorem LockFrontBuffer_registration_failure MAX_BUFFERS d locked addfb :
  buffers_inv MAX_BUFFERS d ->
  bo_ptr locked ∉ bo <$> tracked d ->
  (m_num_buffers d < MAX_BUFFERS)%nat ->
  bo_ptr locked ≠ NULL ->
  addfb.1 ≠ 0 ->
  ∃ d',
    LockFrontBuffer MAX_BUFFERS locked addfb d =
      Done None d'
        [gbm_surface_lock_front_buffer (m_fb_surface d) (bo_ptr locked);
         AddFB2_call d locked;
         Log_ErrorPrintf "drmModeAddFB2() failed: %d" [addfb.1]] ∧
    (m_num_buffers d' = m_num_buffers d) ∧
    tracked d' = tracked d ∧
    (bo_ptr locked ∉ bo <$> tracked d') ∧
    buffers_inv MAX_BUFFERS d' ∧
    ∀ addfb', AddFB2_call d' locked ∈ trace_of (LockFrontBuffer MAX_BUFFERS locked addfb' d').
Proof.
  intros Hinv Hnew Hroom Hptr Hres.
  destruct (lookup_lt_is_Some_2 (m_buffers d) (m_num_buffers d)) as [slot Hslot].
  { destruct Hinv as (Hlen & _). lia. }
  set (d' := set_buffers (<[m_num_buffers d := pending_entry locked slot]> (m_buffers d)) d).
  assert (Hinv' : buffers_inv MAX_BUFFERS d') by by apply buffers_inv_pending.
  assert (Htr : tracked d' = tracked d) by apply tracked_pending.
  exists d'. split.
  { rewrite (LockFrontBuffer_uncached MAX_BUFFERS d locked addfb slot) by done.
    apply Z.eqb_neq in Hres. by rewrite Hres. }
  split; [done|]. split; [done|]. split; [by rewrite Htr|]. split; [done|].
  intros addfb'.
  destruct (lookup_lt_is_Some_2 (m_buffers d') (m_num_buffers d')) as [slot' Hslot'].
  { destruct Hinv' as (Hlen & _). simpl in *. lia. }
  rewrite (LockFrontBuffer_uncached MAX_BUFFERS d' locked addfb' slot');
    [|done|by rewrite Htr|done|done|done].
  destruct (addfb'.1 =? 0); simpl; apply elem_of_cons; right; apply elem_of_cons; by left.
Qed.

Lemma LockFrontBuffer_registration_failure_witness :
  ∃ d',
    LockFrontBuffer 4 (bo_1080p 101) (-22, 0) display_with_buffer =
      Done None d'
        [gbm_surface_lock_front_buffer (m_fb_surface display_with_buffer) 101;
         AddFB2_call display_with_buffer (bo_1080p 101);
         Log_ErrorPrintf "drmModeAddFB2() failed: %d" [-22]] ∧
    (m_num_buffers d' = m_num_buffers display_with_buffer) ∧
    tracked d' = tracked display_with_buffer ∧
    (101 ∉ bo <$> tracked d') ∧
    buffers_inv 4 d' ∧
    ∀ addfb', AddFB2_call d' (bo_1080p 101) ∈
                trace_of (LockFrontBuffer 4 (bo_1080p 101) addfb' d').
Proof.
  refine (LockFrontBuffer_registration_failure 4 display_with_buffer (bo_1080p 101)
            (-22, 0) _ _ _ _ _).
  - split; [reflexivity|]. split; [vm_compute; lia|].
    vm_compute. apply NoDup_singleton.
  - vm_compute. intros Hin. apply list_elem_of_singleton in Hin. discriminate Hin.
  - vm_compute. lia.
  - discriminate.
  - discriminate.
Defined.

Lemma ReleaseBuffer_state buffer d : state_of (ReleaseBuffer buffer d) = d.
Proof.
  unfold ReleaseBuffer, deref_buffer. mrun. destruct buffer as [i|]; mrun; [|done].
  destruct (m_buffers d !! i); mrun; done.
Qed.

(** Whatever the surface and the kernel answer, [LockFrontBuffer] leaves a
    well-formed cache well formed. *)
Lemma LockFrontBuffer_inv MAX_BUFFERS d locked addfb :
  buffers_inv MAX_BUFFERS d ->
  buffers_inv MAX_BUFFERS (state_of (LockFrontBuffer MAX_BUFFERS locked addfb d)).
Proof.
  intros Hinv.
  destruct (list_find (λ e, bo e = bo_ptr locked) (tracked d)) as [[i entry]|] eqn:Hfind.
  - apply list_find_Some in Hfind as (Hi & Hbo & _).
    by rewrite (LockFrontBuffer_cached MAX_BUFFERS d locked addfb i entry).
  - assert (Hnew : bo_ptr locked ∉ bo <$> tracked d).
    { intros Hin. apply list_elem_of_fmap in Hin as (e & Hbo & He).
      apply list_find_None in Hfind.
      by apply (proj1 (Forall_forall _ _) Hfind e He). }
    destruct (decide (m_num_buffers d < MAX_BUFFERS)%nat) as [Hroom|Hfull].
    + destruct (lookup_lt_is_Some_2 (m_buffers d) (m_num_buffers d)) as [slot Hslot].
      { destruct Hinv as (Hlen & _). lia. }
      destruct (decide (bo_ptr locked = NULL)) as [Hnull|Hptr].
      * destruct Hinv as (Hlen & Hnum & Hnodup). unfold LockFrontBuffer. mrun.
        rewrite LockFrontBuffer_find_tracked by lia. rewrite Hfind. mrun.
        rewrite bool_decide_eq_true_2 by done. mrun. rewrite Hslot. mrun.
        apply Z.eqb_eq in Hnull. rewrite Hnull. done.
      * rewrite (LockFrontBuffer_uncached MAX_BUFFERS d locked addfb slot) by done.
        destruct (addfb.1 =? 0); simpl.
        -- by apply buffers_inv_registered.
        -- by apply buffers_inv_pending.
    + rewrite LockFrontBuffer_at_capacity; [done|done|done|].
      destruct Hinv as (_ & Hnum & _). lia.
Qed.

Lemma run_op_inv MAX_BUFFERS o d :
  buffers_inv MAX_BUFFERS d -> buffers_inv MAX_BUFFERS (state_of (run_op MAX_BUFFERS o d)).
Proof.
  intros Hinv. destruct o as [locked addfb|buffer]; simpl.
  - rewrite bind_run.
    pose proof (LockFrontBuffer_inv MAX_BUFFERS d locked addfb Hinv) as H.
    by destruct (LockFrontBuffer _ _ _ _).
  - by rewrite ReleaseBuffer_state.
Qed.

Lemma run_ops_inv MAX_BUFFERS os :
  ∀ d, buffers_inv MAX_BUFFERS d -> buffers_inv MAX_BUFFERS (state_of (run_ops MAX_BUFFERS os d)).
Proof.
  induction os as [|o os IH]; intros d Hinv; simpl; [done|].
  rewrite bind_run. pose proof (run_op_inv MAX_BUFFERS o d Hinv) as H.
  destruct (run_op _ _ _) as [[] d' t|e d' t]; simpl in *; [|done].
  rewrite state_of_after. by apply IH.
Qed.

(** C7. After any sequence of [LockFrontBuffer] and [ReleaseBuffer] calls on
    an instance that starts with no tracked buffer and an array of
    [MAX_BUFFERS] slots, whatever the surface and the kernel answer, the
    tracked set holds each buffer object at most once and has at most
    [MAX_BUFFERS] entries. Locking one more, untracked buffer object when the
    set is full does not return an error: the assertion fails and the call
    does not return. *)
Theorem tracked_set_invariant MAX_BUFFERS d0 os :
  m_num_buffers d0 = 0%nat ->
  length (m_buffers d0) = MAX_BUFFERS ->
  let d := state_of (run_ops MAX_BUFFERS os d0) in
  NoDup (bo <$> tracked d) ∧
  (length (tracked d) ≤ MAX_BUFFERS)%nat ∧
  buffers_inv MAX_BUFFERS d ∧
  ∀ locked addfb,
    m_num_buffers d = MAX_BUFFERS →
    bo_ptr locked ∉ bo <$> tracked d →
    LockFrontBuffer MAX_BUFFERS locked addfb d =
      Abort AssertFailed d [gbm_surface_lock_front_buffer (m_fb_surface d) (bo_ptr locked)].
Proof.
  intros Hempty Hlen d.
  assert (Hinv : buffers_inv MAX_BUFFERS d).
  { apply run_ops_inv. unfold buffers_inv, tracked. rewrite Hempty. simpl.
    split; [done|]. split; [lia|]. constructor. }
  split; [apply Hinv|]. split.
  { unfold tracked. rewrite length_take. destruct Hinv as (_ & Hnum & _). lia. }
  split; [done|]. intros locked addfb Hfull Hnew.
  by apply LockFrontBuffer_at_capacity.
Qed.

Lemma tracked_set_invariant_witness :
  let d := state_of (run_ops 2 [Lock (bo_1080p 100) (0, 42); Release (Some 0%nat);
                                 Lock (bo_1080p 101) (0, 43); Release (Some 1%nat);
                                 Lock (bo_1080p 100) (0, 44)] (DRMDisplay_new 2 0)) in
  NoDup (bo <$> tracked d) ∧
  (length (tracked d) ≤ 2)%nat ∧
  buffers_inv 2 d ∧
  ∀ locked addfb,
    m_num_buffers d = 2%nat →
    bo_ptr locked ∉ bo <$> tracked d →
    LockFrontBuffer 2 locked addfb d =
      Abort AssertFailed d [gbm_surface_lock_front_buffer (m_fb_surface d) (bo_ptr locked)].
Proof.
  refine (tracked_set_invariant 2 (DRMDisplay_new 2 0)
            [Lock (bo_1080p 100) (0, 42); Release (Some 0%nat);
             Lock (bo_1080p 101) (0, 43); Release (Some 1%nat);
             Lock (bo_1080p 100) (0, 44)] _ _); reflexivity.
Defined.

(** A cache of two slots: two buffer objects fill it, locking them again
    hits, and a third one makes the assertion fail. *)
Example capacity_example :
  let d := state_of (run_ops 2 [Lock (bo_1080p 100) (0, 42); Release (Some 0%nat);
                                 Lock (bo_1080p 101) (0, 43); Release (Some 1%nat);
                                 Lock (bo_1080p 100) (0, 44)] (DRMDisplay_new 2 0)) in
  bo <$> tracked d = [100; 101] ∧
  fb_id <$> tracked d = [42; 43] ∧
  LockFrontBuffer 2 (bo_1080p 102) (0, 45) d =
    Abort AssertFailed d [gbm_surface_lock_front_buffer None 102].
Proof. vm_compute. done. Qed.

(** ** Teardown *)

Lemma set_num_buffers_same d : set_num_buffers (m_num_buffers d) d = d.
Proof. by destruct d. Qed.

Lemma destructor_buffers_run n :
  ∀ d, (n ≤ length (m_buffers d))%nat ->
  destructor_buffers n d =
    Done tt (match n with O => d | S _ => set_num_buffers 0 d end)
      ((λ b, drmModeRmFB (m_card_fd d) (fb_id b)) <$> reverse (take n (m_buffers d))).
Proof.
  induction n as [|n IH]; intros d Hlen; [done|].
  destruct (lookup_lt_is_Some_2 (m_buffers d) n) as [buffer Hbuffer]; [lia|].
  simpl destructor_buffers. mrun. rewrite Hbuffer. mrun.
  rewrite IH by (simpl; lia). simpl.
  rewrite (take_S_r _ _ _ Hbuffer), reverse_snoc. simpl.
  by destruct n.
Qed.

(** C9. The destructor of an instance whose count of tracked buffers is
    within the array makes these calls, in this order and no others: it
    unregisters the framebuffer of every tracked entry, last registered
    first; destroys the surface if there is one; destroys the allocator
    device if there is one; frees the connector if one is kept; closes the
    descriptor if one is open. *)
Theorem destructor_order d :
  (m_num_buffers d ≤ length (m_buffers d))%nat ->
  destructor d =
    Done tt (set_num_buffers 0 d)
      (((λ b, drmModeRmFB (m_card_fd d) (fb_id b)) <$> reverse (tracked d)) ++
       (gbm_surface_destroy <$> option_list (m_fb_surface d)) ++
       (gbm_device_destroy <$> option_list (m_gbm_device d)) ++
       (drmModeFreeConnector <$> option_list (m_connector d)) ++
       (if 0 <=? m_card_fd d then [sys_close (m_card_fd d)] else [])).
Proof.
  intros Hlen. unfold destructor. mrun. rewrite destructor_buffers_run by done.
  assert (Hstate : match m_num_buffers d with O => d | S _ => set_num_buffers 0 d end
                   = set_num_buffers 0 d).
  { destruct (m_num_buffers d) eqn:Hn; [|done]. by rewrite <- Hn, set_num_buffers_same. }
  rewrite Hstate. unfold tracked. simpl.
  destruct (m_fb_surface d), (m_gbm_device d), (m_connector d), (0 <=? m_card_fd d);
    simpl; rewrite ?app_nil_r; try done; by rewrite <- ?app_assoc.
Qed.

Lemma destructor_order_witness :
  destructor display_with_buffer =
    Done tt (set_num_buffers 0 display_with_buffer)
      [drmModeRmFB 3 42; gbm_surface_destroy 88; gbm_device_destroy 77;
       drmModeFreeConnector (plugged [mode_1080p 8] [20]); sys_close 3].
Proof.
  refine (destructor_order display_with_buffer _). vm_compute. lia.
Defined.

(** ** The error paths of a frame *)

(** C10. When the kernel refuses to register a buffer object that is not
    tracked, [LockFrontBuffer] returns null without handing the buffer object
    back: its trace has no release call and leaves the buffer object locked.
    [ReleaseBuffer] on the null pointer it returned dereferences that null
    pointer and so makes no release call either: the buffer object stays
    locked. *)
Theorem LockFrontBuffer_failure_keeps_lock MAX_BUFFERS d locked addfb :
  buffers_inv MAX_BUFFERS d ->
  bo_ptr locked ∉ bo <$> tracked d ->
  (m_num_buffers d < MAX_BUFFERS)%nat ->
  bo_ptr locked ≠ NULL ->
  addfb.1 ≠ 0 ->
  let r := LockFrontBuffer MAX_BUFFERS locked addfb d in
  value_of r = Some None ∧
  (∀ surface b, gbm_surface_release_buffer surface b ∉ trace_of r) ∧
  held_after [] (trace_of r) = [bo_ptr locked] ∧
  ReleaseBuffer None (state_of r) = Abort InvalidPointer (state_of r) [] ∧
  held_after [] (trace_of r ++ trace_of (ReleaseBuffer None (state_of r))) = [bo_ptr locked].
Proof.
  intros Hinv Hnew Hroom Hptr Hres r. subst r.
  destruct (lookup_lt_is_Some_2 (m_buffers d) (m_num_buffers d)) as [slot Hslot].
  { destruct Hinv as (Hlen & _). lia. }
  rewrite (LockFrontBuffer_uncached MAX_BUFFERS d locked addfb slot) by done.
  apply Z.eqb_neq in Hres. rewrite Hres. simpl.
  split; [done|]. split; [|done].
  intros surface b Hin.
  repeat (apply elem_of_cons in Hin as [Hin|Hin]; [discriminate Hin|]).
  by apply elem_of_nil in Hin.
Qed.

Lemma LockFrontBuffer_failure_keeps_lock_witness :
  let r := LockFrontBuffer 4 (bo_1080p 101) (-22, 0) display_with_buffer in
  value_of r = Some None ∧
  (∀ surface b, gbm_surface_release_buffer surface b ∉ trace_of r) ∧
  held_after [] (trace_of r) = [101] ∧
  ReleaseBuffer None (state_of r) = Abort InvalidPointer (state_of r) [] ∧
  held_after [] (trace_of r ++ trace_of (ReleaseBuffer None (state_of r))) = [101].
Proof.
  refine (LockFrontBuffer_failure_keeps_lock 4 display_with_buffer (bo_1080p 101)
            (-22, 0) _ _ _ _ _).
  - split; [reflexivity|]. split; [vm_compute; lia|].
    vm_compute. apply NoDup_singleton.
  - vm_compute. intros Hin. apply list_elem_of_singleton in Hin. discriminate Hin.
  - vm_compute. lia.
  - discriminate.
  - discriminate.
Defined.

(** [PresentSurface] never writes to the instance. *)
Lemma PresentSurface_state buffer wait_for_vsync a d :
  state_of (PresentSurface buffer wait_for_vsync a d) = d.
Proof.
  assert (Hwait : ∀ fd w, state_of (PresentSurface_wait fd w d) = d).
  { intros fd w. induction w as [|[res flipped] w IH]; simpl; [done|]. mrun.
    destruct (res <? 0); mrun; [done|]. destruct (res =? 0).
    - by rewrite state_of_after.
    - mrun. destruct flipped; [done|]. by rewrite state_of_after. }
  unfold PresentSurface, deref_buffer. mrun.
  destruct wait_for_vsync; simpl.
  - destruct buffer as [i|]; mrun; [|done].
    destruct (m_buffers d !! i); mrun; [|done].
    destruct (a_pageflip a =? 0); simpl; [|done].
    by rewrite state_of_after.
  - destruct (m_connector d); mrun; [|done].
    destruct buffer as [i|]; mrun; [|done].
    destruct (m_buffers d !! i); mrun; [|done].
    by destruct (a_setcrtc a =? 0).
Qed.

(** C3, as the code has it, each of the three errors under its own
    conditions only. A failed framebuffer registration is logged and
    reported: [LockFrontBuffer] returns null, and the instance differs from
    before only in the free slot behind the tracked set. A failed display-set
    in an immediate present and a failed page-flip submission in a
    synchronized one, on any instance and whatever the state of the cache,
    are logged, and that is all: [PresentSurface] returns nothing, does not
    wait, and leaves the instance as it was, so that its caller has in hand
    exactly what it has after a call that succeeded. *)
Theorem per_frame_errors MAX_BUFFERS :
  (∀ d locked addfb,
     buffers_inv MAX_BUFFERS d →
     bo_ptr locked ∉ bo <$> tracked d →
     (m_num_buffers d < MAX_BUFFERS)%nat →
     bo_ptr locked ≠ NULL →
     addfb.1 ≠ 0 →
     ∃ slot,
       m_buffers d !! m_num_buffers d = Some slot ∧
       LockFrontBuffer MAX_BUFFERS locked addfb d =
         Done None
           (set_buffers (<[m_num_buffers d := pending_entry locked slot]> (m_buffers d)) d)
           [gbm_surface_lock_front_buffer (m_fb_surface d) (bo_ptr locked);
            AddFB2_call d locked;
            Log_ErrorPrintf "drmModeAddFB2() failed: %d" [addfb.1]] ∧
       tracked (state_of (LockFrontBuffer MAX_BUFFERS locked addfb d)) = tracked d ∧
       buffers_inv MAX_BUFFERS (state_of (LockFrontBuffer MAX_BUFFERS locked addfb d))) ∧
  (∀ d connector i b a,
     m_connector d = Some connector →
     m_buffers d !! i = Some b →
     a_setcrtc a ≠ 0 →
     PresentSurface (Some i) false a d =
       Done tt d
         [drmModeSetCrtc (m_card_fd d) (m_crtc_id d) (fb_id b) (connector_id connector)
            (j ← m_mode d; modes connector !! j);
          Log_ErrorPrintf "drmModeSetCrtc() failed: %d" [a_setcrtc a]] ∧
     ∀ a', a_setcrtc a' = 0 →
           caller_view (PresentSurface (Some i) false a d) =
           caller_view (PresentSurface (Some i) false a' d)) ∧
  (∀ d i b a,
     m_buffers d !! i = Some b →
     a_pageflip a ≠ 0 →
     PresentSurface (Some i) true a d =
       Done tt d
         [drmModePageFlip (m_card_fd d) (m_crtc_id d) (fb_id b);
          Log_ErrorPrintf "drmModePageFlip() failed: %d" [a_pageflip a]] ∧
     ∀ a', a_pageflip a' = 0 →
           is_Some (value_of (PresentSurface (Some i) true a' d)) →
           caller_view (PresentSurface (Some i) true a d) =
           caller_view (PresentSurface (Some i) true a' d)).
Proof.
  split; [|split].
  - intros d locked addfb Hinv Hnew Hroom Hptr Hres. apply Z.eqb_neq in Hres.
    destruct (lookup_lt_is_Some_2 (m_buffers d) (m_num_buffers d)) as [slot Hslot].
    { destruct Hinv as (Hlen & _). lia. }
    exists slot. split; [done|].
    rewrite (LockFrontBuffer_uncached MAX_BUFFERS d locked addfb slot) by done.
    rewrite Hres. simpl. split; [done|]. split; [apply tracked_pending|].
    by apply buffers_inv_pending.
  - intros d connector i b a Hconn Hb Hset. apply Z.eqb_neq in Hset. split.
    + unfold PresentSurface, deref_buffer. mrun. rewrite Hconn. mrun. rewrite Hb. mrun.
      by rewrite Hset.
    + intros a' Hset'. unfold caller_view. rewrite !PresentSurface_state. f_equal.
      unfold PresentSurface, deref_buffer. mrun. rewrite Hconn. mrun. rewrite Hb. mrun.
      by rewrite Hset, Hset'.
  - intros d i b a Hb Hflip. apply Z.eqb_neq in Hflip.
    assert (Hrun : PresentSurface (Some i) true a d =
              Done tt d
                [drmModePageFlip (m_card_fd d) (m_crtc_id d) (fb_id b);
                 Log_ErrorPrintf "drmModePageFlip() failed: %d" [a_pageflip a]]).
    { unfold PresentSurface, deref_buffer. mrun. rewrite Hb. mrun. by rewrite Hflip. }
    split; [done|].
    intros a' _ [[] Hret]. unfold caller_view. rewrite !PresentSurface_state.
    by rewrite Hret, Hrun.
Qed.

Lemma per_frame_errors_witness :
  (value_of (LockFrontBuffer 4 (bo_1080p 101) (-22, 0) display_with_buffer) = Some None ∧
   tracked (state_of (LockFrontBuffer 4 (bo_1080p 101) (-22, 0) display_with_buffer)) =
     tracked display_with_buffer) ∧
  PresentSurface (Some 3%nat) false
    {| a_setcrtc := -22; a_pageflip := -16; a_wakeups := [] |} display_full =
    Done tt display_full
      [drmModeSetCrtc 3 6 45 10 (Some (mode_1080p 8));
       Log_ErrorPrintf "drmModeSetCrtc() failed: %d" [-22]] ∧
  PresentSurface (Some 3%nat) true
    {| a_setcrtc := -22; a_pageflip := -16; a_wakeups := [] |} display_full =
    Done tt display_full
      [drmModePageFlip 3 6 45; Log_ErrorPrintf "drmModePageFlip() failed: %d" [-16]].
Proof.
  pose proof (per_frame_errors 4) as (Hlock & Hset & Hflip).
  split; [|split].
  - destruct (Hlock display_with_buffer (bo_1080p 101) (-22, 0))
      as (slot & _ & Hrun & Htracked & _).
    + split; [reflexivity|]. split; [vm_compute; lia|].
      vm_compute. apply NoDup_singleton.
    + vm_compute. intros Hin. apply list_elem_of_singleton in Hin. discriminate Hin.
    + vm_compute. lia.
    + discriminate.
    + discriminate.
    + split; [by rewrite Hrun|exact Htracked].
  - apply (Hset display_full (plugged [mode_1080p 8] [20]) 3%nat
             (registered_entry (bo_1080p 103) 45)
             {| a_setcrtc := -22; a_pageflip := -16; a_wakeups := [] |}).
    + reflexivity.
    + reflexivity.
    + discriminate.
  - apply (Hflip display_full 3%nat (registered_entry (bo_1080p 103) 45)
             {| a_setcrtc := -22; a_pageflip := -16; a_wakeups := [] |}).
    + reflexivity.
    + discriminate.
Defined.

(** C3 as stated fails for [PresentSurface]: a display-set that fails and a
    page flip whose submission fails are logged, yet the caller has in hand
    exactly what it has after a call that succeeded. *)
Lemma PresentSurface_failure_unreported_counterexample :
  Log_ErrorPrintf "drmModeSetCrtc() failed: %d" [-22] ∈
    trace_of (PresentSurface (Some 0%nat) false
      {| a_setcrtc := -22; a_pageflip := -16; a_wakeups := [] |} display_with_buffer) ∧
  caller_view (PresentSurface (Some 0%nat) false
      {| a_setcrtc := -22; a_pageflip := -16; a_wakeups := [] |} display_with_buffer) =
  caller_view (PresentSurface (Some 0%nat) false
      {| a_setcrtc := 0; a_pageflip := 0; a_wakeups := [(1, true)] |} display_with_buffer) ∧
  Log_ErrorPrintf "drmModePageFlip() failed: %d" [-16] ∈
    trace_of (PresentSurface (Some 0%nat) true
      {| a_setcrtc := -22; a_pageflip := -16; a_wakeups := [] |} display_with_buffer) ∧
  caller_view (PresentSurface (Some 0%nat) true
      {| a_setcrtc := -22; a_pageflip := -16; a_wakeups := [] |} display_with_buffer) =
  caller_view (PresentSurface (Some 0%nat) true
      {| a_setcrtc := 0; a_pageflip := 0; a_wakeups := [(1, true)] |} display_with_buffer).
Proof.
  split; [|split; [|split]].
  - vm_compute. apply elem_of_cons. right. apply elem_of_cons. by left.
  - vm_compute. reflexivity.
  - vm_compute. apply elem_of_cons. right. apply elem_of_cons. by left.
  - vm_compute. reflexivity.
Qed.

(** * Further properties *)

(** ** The controller scans *)

Lemma find_crtc_for_encoder_from_cases (e : drmModeEncoder) (rest : list Z) :
  ∀ i : Z,
  ((∀ j : nat, (j < length rest)%nat → crtc_bit e (i + Z.of_nat j) = false) ∧
   find_crtc_for_encoder_from i rest e = NO_MATCH) ∨
  (∃ (j : nat) (c : Z),
     rest !! j = Some c ∧
     crtc_bit e (i + Z.of_nat j) = true ∧
     (∀ j' : nat, (j' < j)%nat → crtc_bit e (i + Z.of_nat j') = false) ∧
     find_crtc_for_encoder_from i rest e = c).
Proof.
  induction rest as [|c rest IH]; intros i; simpl.
  - left. split; [intros j Hj; lia|done].
  - destruct (crtc_bit e i) eqn:Hbit.
    + right. exists 0%nat, c. rewrite Z.add_0_r. split; [done|]. split; [done|].
      split; [intros j' Hj'; lia|done].
    + destruct (IH (i + 1)) as [[Hnone Hres]|(j & c' & Hj & Hset & Hlow & Hres)].
      * left. split; [|done]. intros [|j] Hj.
        -- by rewrite Z.add_0_r.
        -- replace (i + Z.of_nat (S j)) with (i + 1 + Z.of_nat j) by lia.
           apply Hnone. lia.
      * right. exists (S j), c'. split; [done|].
        replace (i + Z.of_nat (S j)) with (i + 1 + Z.of_nat j) by lia.
        split; [done|]. split; [|done]. intros [|j'] Hj'.
        -- by rewrite Z.add_0_r.
        -- replace (i + Z.of_nat (S j')) with (i + 1 + Z.of_nat j') by lia.
           apply Hlow. lia.
Qed.

Lemma find_crtc_for_encoder_in_list resources e :
  find_crtc_for_encoder resources e = 4294967295 ∨
  find_crtc_for_encoder resources e ∈ crtcs resources.
Proof.
  unfold find_crtc_for_encoder.
  destruct (find_crtc_for_encoder_from_cases e (crtcs resources) 0)
    as [[_ ->]|(j & c & Hj & _ & _ & ->)]; [by left|right].
  by apply list_elem_of_lookup_2 in Hj.
Qed.

(** X1. For every resource list and encoder one of two cases holds: no
    listed position has its bit set in the encoder's mask, and
    [find_crtc_for_encoder] returns its [-1], 4294967295; or some listed
    position has, and it returns the controller listed at the first such
    position. The result alone does not tell the cases apart, as a listed
    controller id may itself be 4294967295. *)
Theorem find_crtc_for_encoder_cases resources e :
  (no_crtc_bit resources e ∧ find_crtc_for_encoder resources e = 4294967295) ∨
  (∃ j c, first_crtc_bit resources e j c ∧ find_crtc_for_encoder resources e = c).
Proof.
  unfold find_crtc_for_encoder.
  destruct (find_crtc_for_encoder_from_cases e (crtcs resources) 0)
    as [[Hnone Hres]|(j & c & Hj & Hset & Hlow & Hres)].
  - left. split; [|done]. intros j Hj. by apply Hnone.
  - right. exists j, c. split; [|done]. split; [done|]. split; [done|].
    intros j' Hj'. by apply Hlow.
Qed.

Lemma find_crtc_for_connector_from_probes k fd resources ids d :
  ∃ n c,
    find_crtc_for_connector_from k fd resources ids d =
      Done c d (mjoin (probe k fd <$> take n ids)) ∧
    c ≠ 0 ∧
    (c = 4294967295 ∨ c ∈ crtcs resources).
Proof.
  induction ids as [|id ids (n & c & IH & Hc & Hin)]; simpl.
  - exists 0%nat, NO_MATCH. split; [done|]. split; [done|]. by left.
  - mrun. unfold probe at 1.
    destruct (k_encoder k !! id) as [enc|] eqn:Hid; mrun.
    + destruct (find_crtc_for_encoder resources enc =? 0) eqn:Hz; simpl.
      * exists (S n), c. rewrite IH. simpl. unfold probe at 1. rewrite Hid.
        split; [done|]. by split.
      * exists 1%nat, (find_crtc_for_encoder resources enc). simpl.
        unfold probe. rewrite Hid. simpl.
        split; [done|]. split; [by apply Z.eqb_neq|].
        apply find_crtc_for_encoder_in_list.
    + exists (S n), c. rewrite IH. simpl. unfold probe at 1. rewrite Hid.
      split; [done|]. by split.
Qed.

(** X2. [find_crtc_for_connector] always returns, leaves the instance as it
    was, and frees every encoder it obtains before it obtains the next: its
    trace is the probes of a prefix of the connector's encoders. What it
    returns is never 0: it is 4294967295 or a controller of the resource
    list. *)
Theorem find_crtc_for_connector_probes k fd resources connector d :
  ∃ n c,
    find_crtc_for_connector k fd resources connector d =
      Done c d (mjoin (probe k fd <$> take n (encoders connector))) ∧
    c ≠ 0 ∧
    (c = 4294967295 ∨ c ∈ crtcs resources).
Proof.
  unfold find_crtc_for_connector.
  destruct (find_crtc_for_connector_from_probes k fd resources (encoders connector) d)
    as (n & c & Hrun & Hc & Hin).
  exists n, c. by rewrite Hrun.
Qed.

(** ** [Initialize] on any device *)

Lemma count_app p t1 t2 : count p (t1 ++ t2) = (count p t1 + count p t2)%nat.
Proof. induction t1 as [|e t1 IH]; simpl; [done|]. rewrite IH. lia. Qed.

Lemma count_none p t : Forall (λ e, p e = false) t -> count p t = 0%nat.
Proof. induction 1 as [|e t He _ IH]; simpl; [done|]. by rewrite He, IH. Qed.

(** The connector scan, when it returns, has kept a connected connector it
    obtained and did not free, or has kept none and freed all it obtained. *)
Lemma Initialize_connectors_returns k ids :
  ∀ d d' t,
  Initialize_connectors k ids d = Done tt d' t ->
  Forall is_connector_event t ∧
  ((d' = d ∧ count is_get_connector t = count is_free_connector t) ∨
   (∃ c, connected c ∧ d' = set_connector (Some c) d ∧
         count is_get_connector t = S (count is_free_connector t))).
Proof.
  induction ids as [|id ids IH]; intros d d' t Hrun; simpl in Hrun.
  - injection Hrun as <- <-. split; [constructor|]. by left.
  - revert Hrun. mrun. destruct (k_connector k !! id) as [c|]; mrun; [|done].
    destruct (decide (connection c = DRM_MODE_CONNECTED)) as [Hc|Hc]; mrun.
    + intros [= <- <-]. split; [by repeat constructor|]. right. by exists c.
    + destruct (Initialize_connectors k ids d) as [[] d1 t1|] eqn:Hrest; simpl; [|done].
      intros [= <- <-]. destruct (IH _ _ _ Hrest) as (Hev & Hcases).
      split; [by repeat constructor|].
      destruct Hcases as [[-> Heq]|(c' & Hc' & -> & Heq)]; simpl.
      * left. split; [done|]. lia.
      * right. exists c'. split; [done|]. split; [done|]. lia.
Qed.

(** The encoder scan, when it returns, has freed every encoder it obtained
    but the matching one it returns, whose [crtc_id] it has stored. *)
Lemma Initialize_encoders_returns k connector ids :
  ∀ d enc d' t,
  Initialize_encoders k connector ids d = Done enc d' t ->
  Forall is_encoder_event t ∧
  ((enc = None ∧ d' = d ∧
    count (is_answered_get_encoder k) t = count is_free_encoder t) ∨
   (∃ e, enc = Some e ∧ matches connector e ∧ d' = set_crtc_id (crtc_id e) d ∧
         count (is_answered_get_encoder k) t = S (count is_free_encoder t))).
Proof.
  induction ids as [|id ids IH]; intros d enc d' t Hrun; simpl in Hrun.
  - injection Hrun as <- <- <-. split; [constructor|]. by left.
  - revert Hrun. mrun. destruct (k_encoder k !! id) as [e|] eqn:Hid; mrun; [|done].
    destruct (encoder_id e =? conn_encoder_id connector) eqn:Hm; mrun.
    + intros [= <- <- <-]. split; [by repeat constructor|]. right. exists e.
      split; [done|]. split; [by apply Z.eqb_eq|]. split; [done|].
      simpl. by rewrite Hid.
    + destruct (Initialize_encoders k connector ids d) as [enc1 d1 t1|] eqn:Hrest;
        simpl; [|done].
      intros [= <- <- <-]. destruct (IH _ _ _ _ Hrest) as (Hev & Hcases).
      split; [by repeat constructor|]. simpl. rewrite Hid. simpl.
      destruct Hcases as [(-> & -> & Heq)|(e' & -> & Hm' & -> & Heq)].
      * left. split; [done|]. split; [done|]. lia.
      * right. exists e'. split; [done|]. split; [done|]. split; [done|]. lia.
Qed.

Lemma probes_encoder_events k fd ids :
  Forall is_encoder_event (mjoin (probe k fd <$> ids)).
Proof.
  induction ids as [|id ids IH]; [constructor|].
  change (mjoin (probe k fd <$> id :: ids))
    with (probe k fd id ++ mjoin (probe k fd <$> ids)).
  apply Forall_app. split; [|done]. unfold probe.
  destruct (k_encoder k !! id); by repeat constructor.
Qed.

Lemma probes_balanced k fd ids :
  count (is_answered_get_encoder k) (mjoin (probe k fd <$> ids)) =
  count is_free_encoder (mjoin (probe k fd <$> ids)).
Proof.
  induction ids as [|id ids IH]; [done|].
  change (mjoin (probe k fd <$> id :: ids))
    with (probe k fd id ++ mjoin (probe k fd <$> ids)).
  rewrite !count_app, IH. f_equal. unfold probe.
  destruct (k_encoder k !! id) as [e|] eqn:Hid; simpl; by rewrite Hid.
Qed.

(** Controller resolution, when it returns: the encoders it obtained are all
    freed, the resources are freed after the last of them, and what follows
    is the creation of the allocator device, on whose outcome the return
    value depends. *)
Lemma Initialize_crtc_returns k resources connector d b d' t :
  Initialize_crtc k resources connector d = Done b d' t ->
  ∃ crtc t1,
    d' = set_gbm_device (k_gbm_device k) (set_crtc_id crtc d) ∧
    b = negb (is_null (k_gbm_device k)) ∧
    Forall is_encoder_event t1 ∧
    count (is_answered_get_encoder k) t1 = count is_free_encoder t1 ∧
    t = t1 ++ [drmModeFreeResources; gbm_create_device (m_card_fd d)] ++
        if is_null (k_gbm_device k)
        then [Log_ErrorPrintf "gbm_create_device() failed: %d" []] else [].
Proof.
  unfold Initialize_crtc. rewrite bind_run.
  destruct (Initialize_encoders k connector (res_encoders resources) d)
    as [enc d1 t1|] eqn:Henc; [|done].
  destruct (Initialize_encoders_returns _ _ _ _ _ _ _ Henc) as (Hev & Hcases).
  destruct Hcases as [(-> & -> & Heq)|(e & -> & Hm & -> & Heq)].
  - mrun. unfold find_crtc_for_connector.
    destruct (find_crtc_for_connector_from_probes k (m_card_fd d) resources
                (encoders connector) d) as (n & c & -> & Hc & _).
    mrun. apply Z.eqb_neq in Hc. rewrite Hc. rewrite Initialize_gbm_run.
    intros [= <- <- <-].
    exists c, (t1 ++ mjoin (probe k (m_card_fd d) <$> take n (encoders connector))).
    split; [done|]. split; [done|]. split.
    { apply Forall_app. split; [done|]. apply probes_encoder_events. }
    split.
    { rewrite !count_app, probes_balanced. lia. }
    simpl. by rewrite <- !app_assoc.
  - mrun. rewrite Initialize_gbm_run. intros [= <- <- <-].
    exists (crtc_id e), (t1 ++ [drmModeFreeEncoder e]).
    split; [done|]. split; [done|]. split.
    { apply Forall_app. split; [done|]. by repeat constructor. }
    split.
    { rewrite !count_app. simpl. lia. }
    simpl. by rewrite <- !app_assoc.
Qed.

(** The instance a returning [true] leaves. *)
Lemma Initialize_returns_true k d0 :
  m_connector d0 = None ->
  m_mode d0 = None ->
  value_of (Initialize k d0) = Some true ->
  ∃ c j m crtc g,
    connected c ∧ modes c !! j = Some m ∧ selected_mode (modes c) j ∧
    0 <= k_open k ∧ k_gbm_device k = Some g ∧
    state_of (Initialize k d0) =
      set_gbm_device (Some g) (set_crtc_id crtc (set_mode (Some j)
        (set_connector (Some c) (set_card_fd (k_open k) d0)))).
Proof.
  intros Hconn Hmode. unfold Initialize. mrun.
  destruct (k_open k <? 0) eqn:Hopen; mrun; [done|]. apply Z.ltb_ge in Hopen.
  destruct (k_resources k) as [res|]; mrun; [|done].
  rewrite Hconn. mrun.
  destruct (Initialize_connectors k (connectors res) (set_card_fd (k_open k) d0))
    as [[] d1 t1|] eqn:Hscan; [|done].
  destruct (Initialize_connectors_returns _ _ _ _ _ Hscan) as (_ & Hcases).
  destruct Hcases as [[-> _]|(c & Hc & -> & _)]; mrun.
  { by rewrite Hconn. }
  destruct (decide (modes c = [])) as [Hms|Hms].
  { rewrite Initialize_mode_none by done. done. }
  destruct (Initialize_mode_selects k res c
              (set_connector (Some c) (set_card_fd (k_open k) d0)) Hmode Hms)
    as (j & Hsel & ->).
  destruct (Initialize_crtc k res c _) as [b d2 t2|] eqn:Hcrtc; [|done].
  destruct (Initialize_crtc_returns _ _ _ _ _ _ _ Hcrtc) as (crtc & t & -> & -> & _).
  simpl. intros Hb. destruct (k_gbm_device k) as [g|]; [|done].
  assert (Hsel' := Hsel). destruct Hsel' as (m & Hm & _).
  by exists c, j, m, crtc, g.
Qed.

(** X3. Whenever [Initialize], entered without connector and mode, returns
    [true], the instance is initialised: the descriptor is the one [open]
    returned and is not negative, [m_connector] is a connected connector,
    [m_mode] is the index of the selected mode within that connector's mode
    list, and the allocator device is there. Of the members only the
    descriptor, the connector, the mode, the controller id and the allocator
    device have been written. *)
Theorem Initialize_true_initialised k d0 :
  m_connector d0 = None ->
  m_mode d0 = None ->
  value_of (Initialize k d0) = Some true ->
  initialised (state_of (Initialize k d0)) ∧
  ∃ c j crtc g,
    state_of (Initialize k d0) =
      set_gbm_device (Some g) (set_crtc_id crtc (set_mode (Some j)
        (set_connector (Some c) (set_card_fd (k_open k) d0)))).
Proof.
  intros Hconn Hmode Htrue.
  destruct (Initialize_returns_true k d0 Hconn Hmode Htrue)
    as (c & j & m & crtc & g & Hc & Hm & Hsel & Hopen & Hg & ->).
  split; [|by exists c, j, crtc, g].
  split; [done|]. split; [by eexists|]. by exists c, j, m.
Qed.

Lemma Initialize_true_initialised_witness :
  initialised (state_of (Initialize card_1080p (DRMDisplay_new 4 0))) ∧
  ∃ c j crtc g,
    state_of (Initialize card_1080p (DRMDisplay_new 4 0)) =
      set_gbm_device (Some g) (set_crtc_id crtc (set_mode (Some j)
        (set_connector (Some c) (set_card_fd (k_open card_1080p) (DRMDisplay_new 4 0))))).
Proof.
  refine (Initialize_true_initialised card_1080p (DRMDisplay_new 4 0) _ _ _);
    reflexivity.
Defined.

(** What [Initialize] writes: the descriptor first, and after it only the
    connector, the mode, the controller id and the allocator device. *)
Lemma Initialize_mode_keeps {C} (f : DRMDisplay -> C) k resources connector :
  (∀ m d, f (set_mode m d) = f d) ->
  (∀ c d, f (set_crtc_id c d) = f d) ->
  (∀ g d, f (set_gbm_device g d) = f d) ->
  keeps f (Initialize_mode k resources connector).
Proof.
  intros Hm Hc Hg. unfold Initialize_mode.
  apply keeps_bind; [by apply Initialize_modes_keeps|intros ?].
  apply keeps_bind; [frame|intros d].
  destruct (is_null _); [frame|by apply Initialize_crtc_keeps].
Qed.

Lemma Initialize_writes {C} (f : DRMDisplay -> C) k d :
  (∀ c d, f (set_connector c d) = f d) ->
  (∀ m d, f (set_mode m d) = f d) ->
  (∀ c d, f (set_crtc_id c d) = f d) ->
  (∀ g d, f (set_gbm_device g d) = f d) ->
  f (state_of (Initialize k d)) = f (set_card_fd (k_open k) d).
Proof.
  intros Hconn Hm Hc Hg. unfold Initialize. mrun.
  rewrite !state_of_after.
  set (d1 := set_card_fd (k_open k) d). clearbody d1. revert d1.
  destruct (k_open k <? 0); [frame|].
  apply keeps_bind; [frame|intros ?].
  destruct (k_resources k) as [res|]; [|frame].
  apply keeps_bind; [frame|intros d1].
  apply keeps_bind; [frame|intros ?].
  apply keeps_bind; [by apply Initialize_connectors_keeps|intros ?].
  apply keeps_bind; [frame|intros d2].
  destruct (m_connector d2); [by apply Initialize_mode_keeps|frame].
Qed.

(** The destructor of an instance without tracked buffers. *)
Lemma destructor_no_buffers d :
  m_num_buffers d = 0%nat ->
  destructor d = Done tt d (release_trace d).
Proof.
  intros Hn. unfold destructor, release_trace. mrun. rewrite Hn. mrun.
  destruct (m_fb_surface d), (m_gbm_device d), (m_connector d), (0 <=? m_card_fd d);
    reflexivity.
Qed.

Lemma count_Forall (P : Event -> Prop) p t :
  (∀ e, P e → p e = false) -> Forall P t -> count p t = 0%nat.
Proof. intros HP Ht. apply count_none. by eapply Forall_impl. Qed.

(** The traces of a returning [Initialize], exit by exit. *)
Lemma Initialize_returns_cases k d0 b d t :
  m_connector d0 = None ->
  m_mode d0 = None ->
  Initialize k d0 = Done b d t ->
  (k_open k < 0 ∧ b = false ∧ m_connector d = None ∧
   t = [sys_open (m_card_id d0);
        Log_ErrorPrintf "open(/dev/dri/card%d) failed: %d (%s)" [m_card_id d0]]) ∨
  (0 <= k_open k ∧ k_resources k = None ∧ b = false ∧ m_connector d = None ∧
   t = [sys_open (m_card_id d0); drmModeGetResources (k_open k);
        Log_ErrorPrintf "drmModeGetResources() failed: %d (%s)" []]) ∨
  (∃ res tc tm tl,
     0 <= k_open k ∧ k_resources k = Some res ∧
     Forall is_connector_event tc ∧
     count is_get_connector tc =
       (count is_free_connector tc + length (option_list (m_connector d)))%nat ∧
     Forall is_middle_event tm ∧
     count (is_answered_get_encoder k) tm = count is_free_encoder tm ∧
     Forall is_tail_event tl ∧
     (count is_error_line tm + count is_error_line tl)%nat = (if b then 0%nat else 1%nat) ∧
     t = [sys_open (m_card_id d0); drmModeGetResources (k_open k)] ++
         tc ++ tm ++ [drmModeFreeResources] ++ tl).
Proof.
  intros Hconn Hmode. unfold Initialize. mrun.
  destruct (k_open k <? 0) eqn:Hopen; mrun.
  { apply Z.ltb_lt in Hopen. intros [= <- <- <-]. by left. }
  apply Z.ltb_ge in Hopen.
  destruct (k_resources k) as [res|] eqn:Hres; mrun.
  2:{ intros [= <- <- <-]. right. by left. }
  rewrite Hconn. mrun.
  destruct (Initialize_connectors k (connectors res) (set_card_fd (k_open k) d0))
    as [[] d1 tc|] eqn:Hscan; [|done].
  destruct (Initialize_connectors_returns _ _ _ _ _ Hscan) as (Htc & Hcases).
  destruct Hcases as [[-> Hbal]|(c & Hc & -> & Hbal)]; mrun.
  - rewrite Hconn. mrun. intros [= <- <- <-]. right. right. exists res, tc.
    exists [Log_ErrorPrintf "No connector found" []], []. simpl. rewrite Hconn. simpl.
    repeat split; try done; try lia; try by repeat constructor.
  - assert (Hkeep : ∀ r : result bool,
              r = Initialize_mode k res c (set_connector (Some c) (set_card_fd (k_open k) d0)) →
              m_connector (state_of r) = Some c).
    { intros r ->. by rewrite Initialize_mode_keeps_connector. }
    destruct (decide (modes c = [])) as [Hms|Hms].
    + rewrite Initialize_mode_none by done. simpl. intros [= <- <- <-].
      right. right. exists res, tc.
      exists [Log_ErrorPrintf "No mode found" []], []. simpl.
      repeat split; try done; try lia; try by repeat constructor.
    + destruct (Initialize_mode_selects k res c
                  (set_connector (Some c) (set_card_fd (k_open k) d0)) Hmode Hms)
        as (j & _ & Hrun).
      rewrite Hrun in *.
      destruct (Initialize_crtc k res c _) as [b2 d2 t2|] eqn:Hcrtc; [|done].
      specialize (Hkeep _ eq_refl). simpl in Hkeep.
      destruct (Initialize_crtc_returns _ _ _ _ _ _ _ Hcrtc)
        as (crtc & te & _ & -> & Hte & Hebal & ->).
      simpl. intros [= <- <- <-]. right. right. exists res, tc. rewrite Hkeep. simpl.
      exists te, (gbm_create_device (k_open k) ::
                  if is_null (k_gbm_device k)
                  then [Log_ErrorPrintf "gbm_create_device() failed: %d" []] else []).
      split; [done|]. split; [done|]. split; [done|]. split; [lia|].
      split; [eapply Forall_impl; [exact Hte|by intros []]|].
      split; [done|]. split; [destruct (is_null _); by repeat constructor|].
      split; [|reflexivity].
      rewrite (count_Forall is_encoder_event is_error_line te) by (done || by intros []).
      by destruct (k_gbm_device k).
Qed.

(** X4. [Initialize] never closes the descriptor, whatever the device
    answers and however it ends; it leaves in [m_card_fd] what [open]
    returned. The destructor of the instance it leaves (no buffer being
    tracked) then closes the descriptor exactly once if [open] succeeded and
    not at all if it failed. *)
Theorem descriptor_closed_once k d0 :
  m_num_buffers d0 = 0%nat ->
  count is_close (trace_of (Initialize k d0)) = 0%nat ∧
  m_card_fd (state_of (Initialize k d0)) = k_open k ∧
  count is_close (trace_of (destructor (state_of (Initialize k d0)))) =
    if 0 <=? k_open k then 1%nat else 0%nat.
Proof.
  intros Hn.
  assert (Hfd : m_card_fd (state_of (Initialize k d0)) = k_open k).
  { by rewrite (Initialize_writes m_card_fd). }
  assert (Hnum : m_num_buffers (state_of (Initialize k d0)) = 0%nat).
  { by rewrite (Initialize_writes m_num_buffers). }
  split; [|split; [done|]].
  - apply count_none. revert d0 Hn Hfd Hnum. intros d0 _ _ _.
    assert (Hemits : emits (λ e, is_close e = false) (Initialize k)).
    { unfold Initialize.
      apply emits_bind; [frame|intros d1].
      apply emits_bind; [by apply emits_emit|intros ?].
      apply emits_bind; [frame|intros ?].
      destruct (_ <? _).
      { apply emits_bind; [by apply emits_emit|intros ?]. frame. }
      apply emits_bind; [by apply emits_emit|intros ?].
      destruct (k_resources k) as [resources|].
      2:{ apply emits_bind; [by apply emits_emit|intros ?]. frame. }
      apply emits_bind; [frame|intros d2].
      apply emits_bind; [frame|intros ?].
      apply emits_bind; [by apply Initialize_connectors_emits|intros ?].
      apply emits_bind; [frame|intros d3].
      destruct (m_connector d3) as [connector|].
      - by apply Initialize_mode_emits.
      - apply emits_bind; [by apply emits_emit|intros ?].
        apply emits_bind; [by apply emits_emit|intros ?]. frame. }
    apply Hemits.
  - rewrite destructor_no_buffers by done. simpl. unfold release_trace.
    rewrite Hfd, !count_app.
    assert (Hzero : ∀ {A} (g : A → Event) (o : option A),
              (∀ a, is_close (g a) = false) → count is_close (g <$> option_list o) = 0%nat).
    { intros A g [a|] Hg; simpl; [by rewrite Hg|done]. }
    rewrite !Hzero by done. by destruct (0 <=? k_open k).
Qed.

Lemma descriptor_closed_once_witness :
  count is_close (trace_of (Initialize card_1080p (DRMDisplay_new 4 0))) = 0%nat ∧
  m_card_fd (state_of (Initialize card_1080p (DRMDisplay_new 4 0))) = 3 ∧
  count is_close
    (trace_of (destructor (state_of (Initialize card_1080p (DRMDisplay_new 4 0))))) = 1%nat.
Proof.
  refine (descriptor_closed_once card_1080p (DRMDisplay_new 4 0) _). reflexivity.
Defined.

(** X5. Whenever [Initialize], entered without connector and mode, returns,
    it has freed the resource list exactly once if it had obtained it, and
    has not called [drmModeFreeResources] if [open] or the resource query
    failed. *)
Theorem resources_freed_once k d0 :
  m_connector d0 = None ->
  m_mode d0 = None ->
  is_Some (value_of (Initialize k d0)) ->
  count is_free_resources (trace_of (Initialize k d0)) =
    if (0 <=? k_open k) && negb (is_null (k_resources k)) then 1%nat else 0%nat.
Proof.
  intros Hconn Hmode [b Hb].
  destruct (Initialize k d0) as [b' d t|] eqn:Hrun; [|done]. simpl.
  destruct (Initialize_returns_cases k d0 b' d t Hconn Hmode Hrun)
    as [(Hopen & _ & _ & ->)|[(Hopen & Hres & _ & _ & ->)|
        (res & tc & tm & tl & Hopen & Hres & Htc & _ & Htm & _ & Htl & _ & ->)]].
  - apply Z.leb_gt in Hopen. by rewrite Hopen.
  - rewrite Hres. simpl. by rewrite andb_false_r.
  - apply Z.leb_le in Hopen. rewrite Hopen, Hres. simpl.
    rewrite !count_app. simpl.
    rewrite (count_Forall is_connector_event is_free_resources tc)
      by (done || by intros []).
    rewrite (count_Forall is_middle_event is_free_resources tm) by (done || by intros []).
    rewrite (count_Forall is_tail_event is_free_resources tl) by (done || by intros []).
    done.
Qed.

Lemma resources_freed_once_witness :
  count is_free_resources (trace_of (Initialize card_1080p (DRMDisplay_new 4 0))) = 1%nat.
Proof.
  refine (resources_freed_once card_1080p (DRMDisplay_new 4 0) _ _ _);
    [reflexivity|reflexivity|by eexists].
Defined.

(** X6. Whenever [Initialize], entered without connector and mode on an
    instance that tracks no buffer, returns, every connector it obtained is
    freed by the time the instance is destroyed: counted over [Initialize]
    and the destructor, there are as many [drmModeFreeConnector] as
    [drmModeGetConnector] calls, and [Initialize] alone is short of one
    exactly when it keeps a connector. *)
Theorem connectors_all_freed k d0 :
  m_connector d0 = None ->
  m_mode d0 = None ->
  m_num_buffers d0 = 0%nat ->
  is_Some (value_of (Initialize k d0)) ->
  let r := Initialize k d0 in
  count is_get_connector (trace_of r) =
    (count is_free_connector (trace_of r) +
     length (option_list (m_connector (state_of r))))%nat ∧
  count is_get_connector (trace_of r ++ trace_of (destructor (state_of r))) =
    count is_free_connector (trace_of r ++ trace_of (destructor (state_of r))).
Proof.
  intros Hconn Hmode Hn [b Hb] r. subst r.
  assert (Hnum : m_num_buffers (state_of (Initialize k d0)) = 0%nat).
  { by rewrite (Initialize_writes m_num_buffers). }
  rewrite !count_app, destructor_no_buffers by done.
  destruct (Initialize k d0) as [b' d t|] eqn:Hrun; [|done]. simpl.
  assert (Hrel : count is_get_connector (release_trace d) = 0%nat ∧
                 count is_free_connector (release_trace d) =
                   length (option_list (m_connector d))).
  { unfold release_trace.
    destruct (m_fb_surface d), (m_gbm_device d), (m_connector d), (0 <=? m_card_fd d);
      by split. }
  destruct Hrel as [Hget Hfree]. rewrite Hget, Hfree.
  destruct (Initialize_returns_cases k d0 b' d t Hconn Hmode Hrun)
    as [(Hopen & _ & -> & ->)|[(Hopen & Hres & _ & -> & ->)|
        (res & tc & tm & tl & Hopen & Hres & Htc & Hbal & Htm & _ & Htl & _ & ->)]];
    [by split|by split|].
  rewrite !count_app. simpl.
  rewrite (count_Forall is_middle_event is_get_connector tm) by (done || by intros []).
  rewrite (count_Forall is_middle_event is_free_connector tm) by (done || by intros []).
  rewrite (count_Forall is_tail_event is_get_connector tl) by (done || by intros []).
  rewrite (count_Forall is_tail_event is_free_connector tl) by (done || by intros []).
  lia.
Qed.

Lemma connectors_all_freed_witness :
  let r := Initialize card_1080p (DRMDisplay_new 4 0) in
  count is_get_connector (trace_of r) =
    (count is_free_connector (trace_of r) +
     length (option_list (m_connector (state_of r))))%nat ∧
  count is_get_connector (trace_of r ++ trace_of (destructor (state_of r))) =
    count is_free_connector (trace_of r ++ trace_of (destructor (state_of r))).
Proof.
  refine (connectors_all_freed card_1080p (DRMDisplay_new 4 0) _ _ _ _);
    [reflexivity|reflexivity|reflexivity|by eexists].
Defined.

(** X7. Whenever [Initialize], entered without connector and mode, returns,
    it has freed every encoder the kernel gave it: its trace has as many
    [drmModeFreeEncoder] calls as [drmModeGetEncoder] calls the kernel
    answers with an encoder. *)
Theorem encoders_all_freed k d0 :
  m_connector d0 = None ->
  m_mode d0 = None ->
  is_Some (value_of (Initialize k d0)) ->
  count (is_answered_get_encoder k) (trace_of (Initialize k d0)) =
  count is_free_encoder (trace_of (Initialize k d0)).
Proof.
  intros Hconn Hmode [b Hb].
  destruct (Initialize k d0) as [b' d t|] eqn:Hrun; [|done]. simpl.
  destruct (Initialize_returns_cases k d0 b' d t Hconn Hmode Hrun)
    as [(Hopen & _ & _ & ->)|[(Hopen & Hres & _ & _ & ->)|
        (res & tc & tm & tl & Hopen & Hres & Htc & _ & Htm & Hbal & Htl & _ & ->)]];
    [done|done|].
  rewrite !count_app. simpl.
  rewrite (count_Forall is_connector_event (is_answered_get_encoder k) tc)
    by (done || by intros []).
  rewrite (count_Forall is_connector_event is_free_encoder tc) by (done || by intros []).
  rewrite (count_Forall is_tail_event (is_answered_get_encoder k) tl)
    by (done || by intros []).
  rewrite (count_Forall is_tail_event is_free_encoder tl) by (done || by intros []).
  lia.
Qed.

Lemma encoders_all_freed_witness :
  count (is_answered_get_encoder
           (card unplugged (plugged [mode_1080p 8] [21; 22]) [19]
              [encoder 19 5 1; encoder 22 0 2]))
    (trace_of (Initialize
       (card unplugged (plugged [mode_1080p 8] [21; 22]) [19]
          [encoder 19 5 1; encoder 22 0 2]) (DRMDisplay_new 4 0))) =
  count is_free_encoder
    (trace_of (Initialize
       (card unplugged (plugged [mode_1080p 8] [21; 22]) [19]
          [encoder 19 5 1; encoder 22 0 2]) (DRMDisplay_new 4 0))).
Proof.
  refine (encoders_all_freed
            (card unplugged (plugged [mode_1080p 8] [21; 22]) [19]
               [encoder 19 5 1; encoder 22 0 2]) (DRMDisplay_new 4 0) _ _ _);
    [reflexivity|reflexivity|by eexists].
Defined.

(** X18. Whenever [Initialize], entered without connector and mode, returns
    [false] it has logged exactly one error line, and whenever it returns
    [true] it has logged none. The line is never "No CRTC found": that exit
    is not taken on any device. *)
Theorem Initialize_logs_failure k d0 b :
  m_connector d0 = None ->
  m_mode d0 = None ->
  value_of (Initialize k d0) = Some b ->
  count is_error_line (trace_of (Initialize k d0)) = (if b then 0%nat else 1%nat) ∧
  Log_ErrorPrintf "No CRTC found" [] ∉ trace_of (Initialize k d0).
Proof.
  intros Hconn Hmode Hb. split; [|apply Initialize_never_logs_no_crtc].
  destruct (Initialize k d0) as [b' d t|] eqn:Hrun; [|done].
  simpl in Hb. injection Hb as ->. simpl.
  destruct (Initialize_returns_cases k d0 b d t Hconn Hmode Hrun)
    as [(Hopen & -> & _ & ->)|[(Hopen & Hres & -> & _ & ->)|
        (res & tc & tm & tl & Hopen & Hres & Htc & _ & Htm & _ & Htl & Hlog & ->)]];
    [done|done|].
  rewrite !count_app. simpl.
  rewrite (count_Forall is_connector_event is_error_line tc) by (done || by intros []).
  lia.
Qed.

Lemma Initialize_logs_failure_witness :
  count is_error_line (trace_of (Initialize card_missing_mode (DRMDisplay_new 4 0))) = 1%nat ∧
  Log_ErrorPrintf "No CRTC found" [] ∉
    trace_of (Initialize card_missing_mode (DRMDisplay_new 4 0)).
Proof.
  refine (Initialize_logs_failure card_missing_mode (DRMDisplay_new 4 0) false _ _ _);
    reflexivity.
Defined.

(** X8. [Initialize] cannot be run again on an instance it has initialised:
    once the second run has opened the device and obtained the resources, the
    assertion on [m_connector] fails. By then [m_card_fd] holds the new
    descriptor, and neither it nor the new resources are given back. *)
Theorem Initialize_twice k k' d0 res' :
  m_connector d0 = None ->
  m_mode d0 = None ->
  value_of (Initialize k d0) = Some true ->
  0 <= k_open k' ->
  k_resources k' = Some res' ->
  Initialize k' (state_of (Initialize k d0)) =
    Abort AssertFailed (set_card_fd (k_open k') (state_of (Initialize k d0)))
      [sys_open (m_card_id d0); drmModeGetResources (k_open k')].
Proof.
  intros Hconn Hmode Htrue Hopen Hres.
  destruct (Initialize_returns_true k d0 Hconn Hmode Htrue)
    as (c & j & m & crtc & g & _ & _ & _ & _ & _ & ->).
  unfold Initialize at 1. mrun.
  assert ((k_open k' <? 0) = false) as -> by lia. mrun. by rewrite Hres.
Qed.

Lemma Initialize_twice_witness :
  Initialize card_1080p (state_of (Initialize card_1080p (DRMDisplay_new 4 0))) =
    Abort AssertFailed
      (set_card_fd 3 (state_of (Initialize card_1080p (DRMDisplay_new 4 0))))
      [sys_open 0; drmModeGetResources 3].
Proof.
  refine (Initialize_twice card_1080p card_1080p (DRMDisplay_new 4 0)
            (card_resources [20]) _ _ _ _ _);
    [reflexivity|reflexivity|reflexivity|simpl; lia|reflexivity].
Defined.

Lemma Initialize_connectors_null k pre_ids pre id rest d :
  answers_connectors k pre_ids pre ->
  Forall (λ c, ¬ connected c) pre ->
  k_connector k !! id = None ->
  Initialize_connectors k (pre_ids ++ id :: rest) d =
    Abort InvalidPointer d
      (connectors_trace (m_card_fd d) pre_ids pre ++ [drmModeGetConnector (m_card_fd d) id]).
Proof.
  intros Hans Hpre Hid. induction Hans as [|i c ids cs Hi Hans IH]; simpl.
  - mrun. by rewrite Hid.
  - apply Forall_cons in Hpre as [Hc Hpre]. mrun. rewrite Hi. mrun.
    unfold connected in Hc.
    destruct (decide (connection c = DRM_MODE_CONNECTED)); [done|]. mrun.
    by rewrite (IH Hpre).
Qed.

(** X9. [Initialize] does not check what [drmModeGetConnector] returns: when
    the kernel has no connector for a listed id and none of the connectors
    before it is connected, [Initialize] dereferences the null pointer. It
    does not return, and the resources it obtained are not freed. *)
Theorem Initialize_null_connector k d0 res pre_ids pre id rest :
  m_connector d0 = None ->
  0 <= k_open k ->
  k_resources k = Some res ->
  connectors res = pre_ids ++ id :: rest ->
  answers_connectors k pre_ids pre ->
  Forall (λ c, ¬ connected c) pre ->
  k_connector k !! id = None ->
  Initialize k d0 =
    Abort InvalidPointer (set_card_fd (k_open k) d0)
      ([sys_open (m_card_id d0); drmModeGetResources (k_open k)] ++
       connectors_trace (k_open k) pre_ids pre ++ [drmModeGetConnector (k_open k) id]) ∧
  count is_free_resources (trace_of (Initialize k d0)) = 0%nat.
Proof.
  intros Hconn Hopen Hres Hids Hans Hpre Hid.
  assert (Hrun : Initialize k d0 =
    Abort InvalidPointer (set_card_fd (k_open k) d0)
      ([sys_open (m_card_id d0); drmModeGetResources (k_open k)] ++
       connectors_trace (k_open k) pre_ids pre ++ [drmModeGetConnector (k_open k) id])).
  { unfold Initialize. mrun.
    assert ((k_open k <? 0) = false) as -> by lia. mrun. rewrite Hres. mrun.
    rewrite Hconn. mrun. rewrite Hids.
    by rewrite (Initialize_connectors_null k pre_ids pre id rest _ Hans Hpre Hid). }
  split; [done|]. rewrite Hrun. simpl. rewrite count_app. simpl.
  rewrite (count_Forall (λ e, ¬ is_log e ∧ is_free_resources e = false)).
  - done.
  - by intros e [_ He].
  - clear. revert pre. induction pre_ids as [|i ids IH]; intros [|c cs];
      try by constructor.
    unfold connectors_trace. simpl. constructor; [by split; [tauto|]|].
    constructor; [by split; [tauto|]|]. apply IH.
Qed.

Lemma Initialize_null_connector_witness :
  Initialize card_missing_connector (DRMDisplay_new 4 0) =
    Abort InvalidPointer (set_card_fd (k_open card_missing_connector) (DRMDisplay_new 4 0))
      ([sys_open (m_card_id (DRMDisplay_new 4 0));
        drmModeGetResources (k_open card_missing_connector)] ++
       connectors_trace (k_open card_missing_connector) [9] [unplugged] ++
       [drmModeGetConnector (k_open card_missing_connector) 10]) ∧
  count is_free_resources
    (trace_of (Initialize card_missing_connector (DRMDisplay_new 4 0))) = 0%nat.
Proof.
  refine (Initialize_null_connector card_missing_connector (DRMDisplay_new 4 0)
            (card_resources [20]) [9] [unplugged] 10 [] _ _ _ _ _ _ _).
  - reflexivity.
  - simpl. lia.
  - reflexivity.
  - reflexivity.
  - repeat constructor.
  - repeat constructor. discriminate.
  - reflexivity.
Defined.

(** ** The surface *)

(** X10. On an instance without surface whose [GetWidth] and [GetHeight]
    return [w] and [h], [CreateFramebufferSurface] asks the allocator once
    for a surface of [w] by [h], with the caller's format and the caller's
    usage flags plus the scan-out flag, which is set whatever the caller
    passes. It stores what the allocator returns in [m_fb_surface] and
    returns the same; a null result is logged. *)
Theorem CreateFramebufferSurface_request d w h fourcc flags created :
  GetWidth d = Done w d [] ->
  GetHeight d = Done h d [] ->
  m_fb_surface d = None ->
  ∃ usage,
    CreateFramebufferSurface fourcc flags created d =
      Done created (set_fb_surface created d)
        (gbm_surface_create (m_gbm_device d) w h fourcc usage ::
         if is_null created
         then [Log_ErrorPrintf "gbm_surface_create() failed: %d" []] else []) ∧
    Z.testbit usage 0 = true ∧
    ∀ n, 0 < n → Z.testbit usage n = Z.testbit flags n.
Proof.
  intros Hw Hh Hsurf. exists (Z.lor flags GBM_BO_USE_SCANOUT). split.
  - unfold CreateFramebufferSurface. mrun. rewrite Hsurf. mrun. rewrite Hw. mrun.
    rewrite Hh. mrun. by destruct created.
  - split.
    + rewrite Z.lor_spec. simpl. by rewrite orb_true_r.
    + intros n Hn. rewrite Z.lor_spec. unfold GBM_BO_USE_SCANOUT.
      replace (Z.testbit 1 n) with false; [by rewrite orb_false_r|].
      symmetry. apply (Z.bits_above_log2 1 n); simpl; lia.
Qed.

Lemma CreateFramebufferSurface_request_witness :
  ∃ usage,
    CreateFramebufferSurface 875713112 0 (Some 88)
      (state_of (Initialize card_1080p (DRMDisplay_new 4 0))) =
      Done (Some 88)
        (set_fb_surface (Some 88) (state_of (Initialize card_1080p (DRMDisplay_new 4 0))))
        (gbm_surface_create
           (m_gbm_device (state_of (Initialize card_1080p (DRMDisplay_new 4 0))))
           1920 1080 875713112 usage ::
         if is_null (Some 88)
         then [Log_ErrorPrintf "gbm_surface_create() failed: %d" []] else []) ∧
    Z.testbit usage 0 = true ∧
    ∀ n, 0 < n → Z.testbit usage n = Z.testbit 0 n.
Proof.
  refine (CreateFramebufferSurface_request
            (state_of (Initialize card_1080p (DRMDisplay_new 4 0)))
            1920 1080 875713112 0 (Some 88) _ _ _); reflexivity.
Defined.

Lemma GetWidth_set_fb_surface d w s :
  GetWidth d = Done w d [] -> GetWidth (set_fb_surface s d) = Done w (set_fb_surface s d) [].
Proof.
  unfold GetWidth, GetMode. mrun.
  destruct (m_connector d) as [c|]; mrun; [|done].
  destruct (m_mode d) as [j|]; mrun; [|done].
  destruct (modes c !! j); mrun; [|done]. by intros [= ->].
Qed.

Lemma GetHeight_set_fb_surface d h s :
  GetHeight d = Done h d [] -> GetHeight (set_fb_surface s d) = Done h (set_fb_surface s d) [].
Proof.
  unfold GetHeight, GetMode. mrun.
  destruct (m_connector d) as [c|]; mrun; [|done].
  destruct (m_mode d) as [j|]; mrun; [|done].
  destruct (modes c !! j); mrun; [|done]. by intros [= ->].
Qed.

(** X11. A surface is created once: after a call that obtained a surface, a
    further call fails the assertion before it asks the allocator for
    anything. After a call that obtained none, [m_fb_surface] is still null
    and a further call asks the allocator again and returns what it gets. *)
Theorem CreateFramebufferSurface_once d w h fourcc flags fourcc' flags' created created' :
  GetWidth d = Done w d [] ->
  GetHeight d = Done h d [] ->
  m_fb_surface d = None ->
  let d' := state_of (CreateFramebufferSurface fourcc flags created d) in
  value_of (CreateFramebufferSurface fourcc flags created d) = Some created ∧
  match created with
  | Some s =>
      CreateFramebufferSurface fourcc' flags' created' d' = Abort AssertFailed d' []
  | None =>
      m_fb_surface d' = None ∧
      value_of (CreateFramebufferSurface fourcc' flags' created' d') = Some created' ∧
      head (trace_of (CreateFramebufferSurface fourcc' flags' created' d')) =
        Some (gbm_surface_create (m_gbm_device d) w h fourcc'
                (Z.lor flags' GBM_BO_USE_SCANOUT))
  end.
Proof.
  intros Hw Hh Hsurf d'.
  assert (Hrun : CreateFramebufferSurface fourcc flags created d =
            Done created (set_fb_surface created d)
              (trace_of (CreateFramebufferSurface fourcc flags created d))).
  { unfold CreateFramebufferSurface. mrun. rewrite Hsurf. mrun. rewrite Hw. mrun.
    rewrite Hh. mrun. by destruct created. }
  assert (Hd' : d' = set_fb_surface created d) by (unfold d'; by rewrite Hrun).
  split; [by rewrite Hrun|]. rewrite Hd'. destruct created as [s|].
  - unfold CreateFramebufferSurface. mrun. done.
  - split; [done|]. unfold CreateFramebufferSurface. mrun.
    rewrite (GetWidth_set_fb_surface d w None Hw). mrun.
    rewrite (GetHeight_set_fb_surface d h None Hh). mrun.
    by destruct created'.
Qed.

Lemma CreateFramebufferSurface_once_witness :
  let d' := state_of (CreateFramebufferSurface 875713112 0 (Some 88)
              (state_of (Initialize card_1080p (DRMDisplay_new 4 0)))) in
  value_of (CreateFramebufferSurface 875713112 0 (Some 88)
              (state_of (Initialize card_1080p (DRMDisplay_new 4 0)))) = Some (Some 88) ∧
  CreateFramebufferSurface 875713112 0 (Some 89) d' = Abort AssertFailed d' [].
Proof.
  refine (CreateFramebufferSurface_once
            (state_of (Initialize card_1080p (DRMDisplay_new 4 0)))
            1920 1080 875713112 0 875713112 0 (Some 88) (Some 89) _ _ _); reflexivity.
Defined.

(** ** The framebuffer cache, further *)

(** X12. On an instance whose cache is well formed and has room, locking a
    buffer object that is not tracked and that the kernel registers as
    framebuffer [fb] calls [drmModeAddFB2] once, with the size, format,
    handle and stride of the buffer object, adds one entry with these and
    [fb] behind the tracked ones and returns it. The cache stays well formed,
    and locking the same buffer object again returns the same entry without
    calling the kernel. *)
Theorem LockFrontBuffer_registers MAX_BUFFERS d locked addfb addfb' :
  buffers_inv MAX_BUFFERS d ->
  bo_ptr locked ∉ bo <$> tracked d ->
  (m_num_buffers d < MAX_BUFFERS)%nat ->
  bo_ptr locked ≠ NULL ->
  addfb.1 = 0 ->
  let r := LockFrontBuffer MAX_BUFFERS locked addfb d in
  value_of r = Some (Some (m_num_buffers d)) ∧
  trace_of r =
    [gbm_surface_lock_front_buffer (m_fb_surface d) (bo_ptr locked); AddFB2_call d locked] ∧
  tracked (state_of r) = tracked d ++ [registered_entry locked addfb.2] ∧
  buffers_inv MAX_BUFFERS (state_of r) ∧
  LockFrontBuffer MAX_BUFFERS locked addfb' (state_of r) =
    Done (Some (m_num_buffers d)) (state_of r)
      [gbm_surface_lock_front_buffer (m_fb_surface d) (bo_ptr locked)].
Proof.
  intros Hinv Hnew Hroom Hptr Hres r. subst r.
  destruct (lookup_lt_is_Some_2 (m_buffers d) (m_num_buffers d)) as [slot Hslot].
  { destruct Hinv as (Hlen & _). lia. }
  rewrite (LockFrontBuffer_uncached MAX_BUFFERS d locked addfb slot) by done.
  rewrite Hres. simpl.
  assert (Hlen : (m_num_buffers d < length (m_buffers d))%nat).
  { destruct Hinv as (Hlen & _). lia. }
  assert (Htr := tracked_registered d (registered_entry locked addfb.2) Hlen).
  assert (Hinv' := buffers_inv_registered MAX_BUFFERS d (registered_entry locked addfb.2)
                     Hinv Hroom Hnew).
  split; [done|]. split; [done|]. split; [done|]. split; [done|].
  rewrite (LockFrontBuffer_cached MAX_BUFFERS _ locked addfb' (m_num_buffers d)
             (registered_entry locked addfb.2) Hinv'); [done| |done].
  rewrite Htr. apply list_lookup_middle. unfold tracked. rewrite length_take. lia.
Qed.

Lemma LockFrontBuffer_registers_witness :
  let r := LockFrontBuffer 4 (bo_1080p 101) (0, 43) display_with_buffer in
  value_of r = Some (Some (m_num_buffers display_with_buffer)) ∧
  trace_of r =
    [gbm_surface_lock_front_buffer (m_fb_surface display_with_buffer) 101;
     AddFB2_call display_with_buffer (bo_1080p 101)] ∧
  tracked (state_of r) =
    tracked display_with_buffer ++ [registered_entry (bo_1080p 101) 43] ∧
  buffers_inv 4 (state_of r) ∧
  LockFrontBuffer 4 (bo_1080p 101) (-22, 0) (state_of r) =
    Done (Some (m_num_buffers display_with_buffer)) (state_of r)
      [gbm_surface_lock_front_buffer (m_fb_surface display_with_buffer) 101].
Proof.
  refine (LockFrontBuffer_registers 4 display_with_buffer (bo_1080p 101) (0, 43)
            (-22, 0) _ _ _ _ _).
  - split; [reflexivity|]. split; [vm_compute; lia|].
    vm_compute. apply NoDup_singleton.
  - vm_compute. intros Hin. apply list_elem_of_singleton in Hin. discriminate Hin.
  - vm_compute. lia.
  - discriminate.
  - reflexivity.
Defined.

(** What [LockFrontBuffer] does on a well-formed cache, by cases on what the
    search finds and what the kernel answers. *)
Lemma LockFrontBuffer_cases MAX_BUFFERS d locked addfb :
  buffers_inv MAX_BUFFERS d ->
  let r := LockFrontBuffer MAX_BUFFERS locked addfb d in
  (∃ i entry, tracked d !! i = Some entry ∧ bo entry = bo_ptr locked ∧
     r = Done (Some i) d [gbm_surface_lock_front_buffer (m_fb_surface d) (bo_ptr locked)]) ∨
  ((bo_ptr locked ∉ bo <$> tracked d) ∧
   ((value_of r = None ∧ state_of r = d) ∨
    (∃ slot, value_of r = Some None ∧
       state_of r =
         set_buffers (<[m_num_buffers d := pending_entry locked slot]> (m_buffers d)) d) ∨
    ((m_num_buffers d < MAX_BUFFERS)%nat ∧
     r = Done (Some (m_num_buffers d))
           (set_num_buffers (S (m_num_buffers d))
              (set_buffers (<[m_num_buffers d := registered_entry locked addfb.2]>
                              (m_buffers d)) d))
           [gbm_surface_lock_front_buffer (m_fb_surface d) (bo_ptr locked);
            AddFB2_call d locked]))).
Proof.
  intros Hinv r. subst r.
  destruct (list_find (λ e, bo e = bo_ptr locked) (tracked d)) as [[i entry]|] eqn:Hfind.
  - apply list_find_Some in Hfind as (Hi & Hbo & _). left. exists i, entry.
    split; [done|]. split; [done|].
    by apply (LockFrontBuffer_cached MAX_BUFFERS d locked addfb i entry).
  - assert (Hnew : bo_ptr locked ∉ bo <$> tracked d).
    { intros Hin. apply list_elem_of_fmap in Hin as (e & Hbo & He).
      apply list_find_None in Hfind.
      by apply (proj1 (Forall_forall _ _) Hfind e He). }
    right. split; [done|].
    destruct (decide (m_num_buffers d < MAX_BUFFERS)%nat) as [Hroom|Hfull].
    + destruct (lookup_lt_is_Some_2 (m_buffers d) (m_num_buffers d)) as [slot Hslot].
      { destruct Hinv as (Hlen & _). lia. }
      destruct (decide (bo_ptr locked = NULL)) as [Hnull|Hptr].
      * left. destruct Hinv as (Hlen & Hnum & Hnodup). unfold LockFrontBuffer. mrun.
        rewrite LockFrontBuffer_find_tracked by lia. rewrite Hfind. mrun.
        rewrite bool_decide_eq_true_2 by done. mrun. rewrite Hslot. mrun.
        apply Z.eqb_eq in Hnull. rewrite Hnull. done.
      * rewrite (LockFrontBuffer_uncached MAX_BUFFERS d locked addfb slot) by done.
        destruct (addfb.1 =? 0); simpl.
        -- right. right. done.
        -- right. left. by exists slot.
    + left. rewrite LockFrontBuffer_at_capacity; [done|done|done|].
      destruct Hinv as (_ & Hnum & _). lia.
Qed.

Lemma LockFrontBuffer_grows MAX_BUFFERS d locked addfb :
  buffers_inv MAX_BUFFERS d ->
  tracked d `prefix_of` tracked (state_of (LockFrontBuffer MAX_BUFFERS locked addfb d)).
Proof.
  intros Hinv.
  destruct (LockFrontBuffer_cases MAX_BUFFERS d locked addfb Hinv)
    as [(i & entry & _ & _ & ->)|(_ & [[_ ->]|[(slot & _ & ->)|(Hroom & ->)]])]; simpl.
  - done.
  - done.
  - by rewrite tracked_pending.
  - rewrite tracked_registered; [by apply prefix_app_r|].
    destruct Hinv as (Hlen & _). lia.
Qed.

(** X13. While the instance is in use the tracked set only grows at its end:
    after any sequence of [LockFrontBuffer] and [ReleaseBuffer] calls on a
    well-formed cache, whatever the surface and the kernel answer, every
    entry tracked before is still tracked at the same index with the same
    contents. A [Buffer] pointer the caller holds stays good. *)
Theorem tracked_entries_stay MAX_BUFFERS os :
  ∀ d, buffers_inv MAX_BUFFERS d ->
  tracked d `prefix_of` tracked (state_of (run_ops MAX_BUFFERS os d)) ∧
  ∀ i entry, tracked d !! i = Some entry →
             tracked (state_of (run_ops MAX_BUFFERS os d)) !! i = Some entry.
Proof.
  assert (Hprefix : ∀ d, buffers_inv MAX_BUFFERS d →
            tracked d `prefix_of` tracked (state_of (run_ops MAX_BUFFERS os d))).
  { induction os as [|o os IH]; intros d Hinv; simpl; [done|].
    rewrite bind_run.
    assert (Hstep : tracked d `prefix_of` tracked (state_of (run_op MAX_BUFFERS o d))).
    { destruct o as [locked addfb|buffer]; simpl.
      - rewrite bind_run.
        pose proof (LockFrontBuffer_grows MAX_BUFFERS d locked addfb Hinv) as H.
        by destruct (LockFrontBuffer _ _ _ _).
      - by rewrite ReleaseBuffer_state. }
    pose proof (run_op_inv MAX_BUFFERS o d Hinv) as Hinv'.
    destruct (run_op MAX_BUFFERS o d) as [[] d' t|e d' t]; simpl in *; [|done].
    rewrite state_of_after. etrans; [exact Hstep|]. by apply IH. }
  intros d Hinv. split; [by apply Hprefix|].
  intros i entry Hi. by eapply prefix_lookup_Some; [|apply Hprefix].
Qed.

Lemma tracked_entries_stay_witness :
  tracked display_with_buffer `prefix_of`
    tracked (state_of (run_ops 4 [Release (Some 0%nat); Lock (bo_1080p 101) (0, 43)]
                         display_with_buffer)) ∧
  ∀ i entry, tracked display_with_buffer !! i = Some entry →
    tracked (state_of (run_ops 4 [Release (Some 0%nat); Lock (bo_1080p 101) (0, 43)]
                         display_with_buffer)) !! i = Some entry.
Proof.
  refine (tracked_entries_stay 4 [Release (Some 0%nat); Lock (bo_1080p 101) (0, 43)]
            display_with_buffer _).
  split; [reflexivity|]. split; [vm_compute; lia|].
  vm_compute. apply NoDup_singleton.
Defined.

(** X14. Whatever [LockFrontBuffer] returns on a well-formed cache, if it is
    not null it points to a tracked entry for the buffer object the surface
    handed out, and [ReleaseBuffer] on it gives exactly that buffer object
    back to the surface and leaves the instance as it is: after the two
    calls no buffer object is left locked. *)
Theorem LockFrontBuffer_ReleaseBuffer MAX_BUFFERS d locked addfb i :
  buffers_inv MAX_BUFFERS d ->
  value_of (LockFrontBuffer MAX_BUFFERS locked addfb d) = Some (Some i) ->
  let r := LockFrontBuffer MAX_BUFFERS locked addfb d in
  (∃ entry, tracked (state_of r) !! i = Some entry ∧ bo entry = bo_ptr locked) ∧
  ReleaseBuffer (Some i) (state_of r) =
    Done tt (state_of r) [gbm_surface_release_buffer (m_fb_surface d) (bo_ptr locked)] ∧
  held_after [] (trace_of r ++ trace_of (ReleaseBuffer (Some i) (state_of r))) = [].
Proof.
  intros Hinv Hval r. subst r.
  assert (Hrel : ∀ d' entry, m_fb_surface d' = m_fb_surface d →
            tracked d' !! i = Some entry → bo entry = bo_ptr locked →
            ReleaseBuffer (Some i) d' =
              Done tt d' [gbm_surface_release_buffer (m_fb_surface d) (bo_ptr locked)]).
  { intros d' entry Hs Hi Hbo. apply tracked_lookup in Hi as [_ Hi].
    unfold ReleaseBuffer, deref_buffer. mrun. rewrite Hi. mrun. by rewrite Hs, Hbo. }
  destruct (LockFrontBuffer_cases MAX_BUFFERS d locked addfb Hinv)
    as [(j & entry & Hj & Hbo & Hrun)|(Hnew & [[Hnone _]|[(slot & Hnone & _)|(Hroom & Hrun)]])].
  - rewrite Hrun in *. simpl in Hval. injection Hval as <-. simpl.
    rewrite (Hrel d entry) by done. simpl.
    split; [by exists entry|]. split; [done|].
    by destruct (decide (bo_ptr locked = bo_ptr locked)).
  - by rewrite Hnone in Hval.
  - by rewrite Hnone in Hval.
  - rewrite Hrun in *. simpl in Hval. injection Hval as <-. simpl.
    assert (Hi : tracked (set_num_buffers (S (m_num_buffers d))
                   (set_buffers (<[m_num_buffers d := registered_entry locked addfb.2]>
                      (m_buffers d)) d)) !! m_num_buffers d =
                 Some (registered_entry locked addfb.2)).
    { rewrite tracked_registered by (destruct Hinv as (Hlen & _); lia).
      apply list_lookup_middle. unfold tracked. rewrite length_take.
      destruct Hinv as (Hlen & _). lia. }
    match type of Hi with
    | tracked ?d2 !! _ = _ => rewrite (Hrel d2 _ eq_refl Hi eq_refl)
    end. simpl.
    split; [by eexists|]. split; [done|].
    by destruct (decide (bo_ptr locked = bo_ptr locked)).
Qed.

Lemma LockFrontBuffer_ReleaseBuffer_witness :
  let r := LockFrontBuffer 4 (bo_1080p 100) (0, 43) display_with_buffer in
  (∃ entry, tracked (state_of r) !! 0%nat = Some entry ∧ bo entry = 100) ∧
  ReleaseBuffer (Some 0%nat) (state_of r) =
    Done tt (state_of r)
      [gbm_surface_release_buffer (m_fb_surface display_with_buffer) 100] ∧
  held_after [] (trace_of r ++ trace_of (ReleaseBuffer (Some 0%nat) (state_of r))) = [].
Proof.
  refine (LockFrontBuffer_ReleaseBuffer 4 display_with_buffer (bo_1080p 100) (0, 43) 0 _ _).
  - split; [reflexivity|]. split; [vm_compute; lia|].
    vm_compute. apply NoDup_singleton.
  - reflexivity.
Defined.

(** ** Presentation *)

Lemma PresentSurface_wait_spurious fd ws d :
  Forall spurious ws ->
  PresentSurface_wait fd ws d = Abort Blocked d (wait_trace fd ws).
Proof.
  induction 1 as [|[res flipped] ws Hw _ IH]; simpl; [done|]. mrun.
  unfold wait_trace. simpl. destruct Hw as [Hw|[Hw Hf]]; simpl in *.
  - subst res. simpl. by rewrite IH.
  - subst flipped. assert ((res <? 0) = false) as -> by lia.
    assert ((res =? 0) = false) as -> by lia.
    assert ((0 <? res) = true) as -> by lia. mrun. by rewrite IH.
Qed.

Lemma PresentSurface_wait_ends fd ws res flipped rest d :
  Forall spurious ws ->
  ends_wait (res, flipped) ->
  PresentSurface_wait fd (ws ++ (res, flipped) :: rest) d =
    Done tt d (wait_trace fd ws ++ sys_select fd ::
               if res <? 0
               then [Log_ErrorPrintf "select() failed: %d" []]
               else [drmHandleEvent fd]).
Proof.
  intros Hws Hend. induction Hws as [|[res' flipped'] ws Hw _ IH]; simpl.
  - mrun. destruct Hend as [Hend|[Hend Hf]]; simpl in *.
    + assert ((res <? 0) = true) as -> by lia. done.
    + subst flipped. assert ((res <? 0) = false) as -> by lia.
      assert ((res =? 0) = false) as -> by lia. done.
  - mrun. unfold wait_trace. simpl. destruct Hw as [Hw|[Hw Hf]]; simpl in *.
    + subst res'. simpl. by rewrite IH.
    + subst flipped'. assert ((res' <? 0) = false) as -> by lia.
      assert ((res' =? 0) = false) as -> by lia.
      assert ((0 <? res') = true) as -> by lia. mrun. by rewrite IH.
Qed.

(** X15. A synchronized present whose flip was submitted does not return as
    long as the wake-ups of [select] are spurious ones: after the one
    page-flip request it calls [select] for each wake-up, handles events
    after each one that reports readiness, and is still waiting. *)
Theorem PresentSurface_waits i b a d :
  m_buffers d !! i = Some b ->
  a_pageflip a = 0 ->
  Forall spurious (a_wakeups a) ->
  PresentSurface (Some i) true a d =
    Abort Blocked d
      (drmModePageFlip (m_card_fd d) (m_crtc_id d) (fb_id b) ::
       wait_trace (m_card_fd d) (a_wakeups a)).
Proof.
  intros Hb Hflip Hws. unfold PresentSurface, deref_buffer. mrun. rewrite Hb. mrun.
  rewrite Hflip. simpl. by rewrite PresentSurface_wait_spurious.
Qed.

Lemma PresentSurface_waits_witness :
  PresentSurface (Some 0%nat) true
    {| a_setcrtc := 0; a_pageflip := 0; a_wakeups := [(0, false); (1, false)] |}
    display_with_buffer =
    Abort Blocked display_with_buffer
      (drmModePageFlip (m_card_fd display_with_buffer) (m_crtc_id display_with_buffer)
         (fb_id (registered_entry (bo_1080p 100) 42)) ::
       wait_trace (m_card_fd display_with_buffer) [(0, false); (1, false)]).
Proof.
  refine (PresentSurface_waits 0 (registered_entry (bo_1080p 100) 42)
            {| a_setcrtc := 0; a_pageflip := 0; a_wakeups := [(0, false); (1, false)] |}
            display_with_buffer _ _ _).
  - reflexivity.
  - reflexivity.
  - constructor; [by left|]. constructor; [right; split; [simpl; lia|done]|constructor].
Defined.

(** X16. A synchronized present whose flip was submitted returns at the
    first wake-up that delivers the page-flip event or at which [select]
    fails, whatever would follow. It returns the same, to an unchanged
    instance, in both cases: a failure of [select] is told to the log only,
    and the flip it was waiting for is left pending. *)
Theorem PresentSurface_returns i b a d ws res flipped rest :
  m_buffers d !! i = Some b ->
  a_pageflip a = 0 ->
  a_wakeups a = ws ++ (res, flipped) :: rest ->
  Forall spurious ws ->
  ends_wait (res, flipped) ->
  PresentSurface (Some i) true a d =
    Done tt d
      (drmModePageFlip (m_card_fd d) (m_crtc_id d) (fb_id b) ::
       wait_trace (m_card_fd d) ws ++ sys_select (m_card_fd d) ::
       if res <? 0
       then [Log_ErrorPrintf "select() failed: %d" []]
       else [drmHandleEvent (m_card_fd d)]).
Proof.
  intros Hb Hflip Hwake Hws Hend. unfold PresentSurface, deref_buffer. mrun.
  rewrite Hb. mrun. rewrite Hflip, Hwake. simpl.
  by rewrite (PresentSurface_wait_ends _ ws res flipped rest d Hws Hend).
Qed.

Lemma PresentSurface_returns_witness :
  PresentSurface (Some 0%nat) true
    {| a_setcrtc := 0; a_pageflip := 0; a_wakeups := [(0, false); (-1, false); (1, true)] |}
    display_with_buffer =
    Done tt display_with_buffer
      (drmModePageFlip (m_card_fd display_with_buffer) (m_crtc_id display_with_buffer)
         (fb_id (registered_entry (bo_1080p 100) 42)) ::
       wait_trace (m_card_fd display_with_buffer) [(0, false)] ++
       sys_select (m_card_fd display_with_buffer) ::
       if -1 <? 0
       then [Log_ErrorPrintf "select() failed: %d" []]
       else [drmHandleEvent (m_card_fd display_with_buffer)]).
Proof.
  refine (PresentSurface_returns 0 (registered_entry (bo_1080p 100) 42)
            {| a_setcrtc := 0; a_pageflip := 0;
               a_wakeups := [(0, false); (-1, false); (1, true)] |}
            display_with_buffer [(0, false)] (-1) false [(1, true)] _ _ _ _ _).
  - reflexivity.
  - reflexivity.
  - reflexivity.
  - constructor; [by left|constructor].
  - left. simpl. lia.
Defined.

Lemma PresentSurface_wait_emits P fd ws :
  P (sys_select fd) -> P (drmHandleEvent fd) ->
  P (Log_ErrorPrintf "select() failed: %d" []) ->
  emits P (PresentSurface_wait fd ws).
Proof.
  intros Hsel Hev Hlog. induction ws as [|[res flipped] ws IH]; simpl; [frame|].
  apply emits_bind; [by apply emits_emit|intros ?].
  destruct (res <? 0); [by apply emits_emit|].
  destruct (res =? 0); [done|].
  apply emits_bind; [by apply emits_emit|intros ?].
  destruct flipped; [frame|done].
Qed.

(** X17. The two ways of presenting do not mix, whatever buffer pointer and
    answers they are given: an immediate present makes at most one
    [drmModeSetCrtc] call, no page-flip request and no [select] or
    [drmHandleEvent] call, and never waits; a synchronized present makes at
    most one page-flip request and no [drmModeSetCrtc] call. Neither writes
    to the instance. *)
Theorem PresentSurface_strategies buffer a d :
  let immediate := PresentSurface buffer false a d in
  let synchronized := PresentSurface buffer true a d in
  (count is_set_crtc (trace_of immediate) ≤ 1)%nat ∧
  count is_page_flip (trace_of immediate) = 0%nat ∧
  count is_wait_event (trace_of immediate) = 0%nat ∧
  (∀ d' t, immediate ≠ Abort Blocked d' t) ∧
  (count is_page_flip (trace_of synchronized) ≤ 1)%nat ∧
  count is_set_crtc (trace_of synchronized) = 0%nat ∧
  state_of immediate = d ∧ state_of synchronized = d.
Proof.
  intros immediate synchronized.
  assert (Himm : (immediate = Abort InvalidPointer d []) ∨
                 (∃ e t, is_set_crtc e = true ∧ Forall is_log t ∧
                    immediate = Done tt d (e :: t))).
  { unfold immediate, PresentSurface, deref_buffer. mrun.
    destruct (m_connector d) as [c|]; mrun; [|by left].
    destruct buffer as [i|]; mrun; [|by left].
    destruct (m_buffers d !! i) as [b|]; mrun; [|by left].
    right. destruct (a_setcrtc a =? 0); simpl;
      eexists _, _; (split; [|split; [|reflexivity]]; [done|by repeat constructor]). }
  assert (Hsync : (synchronized = Abort InvalidPointer d []) ∨
                  (∃ e r, is_page_flip e = true ∧
                     Forall (λ e, is_page_flip e = false ∧ is_set_crtc e = false)
                       (trace_of r) ∧
                     synchronized = after [e] r)).
  { unfold synchronized, PresentSurface, deref_buffer. mrun.
    destruct buffer as [i|]; mrun; [|by left].
    destruct (m_buffers d !! i) as [b|]; mrun; [|by left].
    right. destruct (a_pageflip a =? 0); simpl.
    - eexists _, (PresentSurface_wait (m_card_fd d) (a_wakeups a) d).
      split; [|split; [|reflexivity]]; [done|].
      by apply PresentSurface_wait_emits.
    - eexists _, (Done tt d [_]). split; [|split; [|reflexivity]]; [done|].
      by repeat constructor. }
  assert (Hlog : ∀ p t, (∀ s l, p (Log_ErrorPrintf s l) = false) → Forall is_log t →
            count p t = 0%nat).
  { intros p t Hp Ht. apply (count_Forall is_log); [|done]. intros [] He; try done. }
  split; [|split; [|split; [|split; [|split; [|split; [|split]]]]]].
  - destruct Himm as [->|(e & t & He & Ht & ->)]; simpl; [lia|].
    rewrite He, (Hlog is_set_crtc) by done. lia.
  - destruct Himm as [->|(e & t & He & Ht & ->)]; simpl; [done|].
    rewrite (Hlog is_page_flip) by done. by destruct e.
  - destruct Himm as [->|(e & t & He & Ht & ->)]; simpl; [done|].
    rewrite (Hlog is_wait_event) by done. by destruct e.
  - intros d' t. by destruct Himm as [->|(e & t' & _ & _ & ->)].
  - destruct Hsync as [->|(e & r & He & Hr & ->)]; simpl; [lia|].
    rewrite trace_of_after. simpl. rewrite He.
    rewrite (count_Forall (λ e, is_page_flip e = false ∧ is_set_crtc e = false));
      [lia|by intros ? []|done].
  - destruct Hsync as [->|(e & r & He & Hr & ->)]; simpl; [done|].
    rewrite trace_of_after. simpl.
    rewrite (count_Forall (λ e, is_page_flip e = false ∧ is_set_crtc e = false));
      [by destruct e|by intros ? []|done].
  - apply PresentSurface_state.
  - apply PresentSurface_state.
Qed.
